(** * Tg_bot: the reminder sweep, the dispatch of a due dose and the
      medicine dialogue, embedded from bot.py, database.py and handlers.py.

    Modelling conventions.
    - A Python [str] is the Rocq [string] of its UTF-8 bytes.  [split(',')],
      [rstrip('0')], [rstrip('.')] and ['.' in s] look at ASCII characters
      only, and an ASCII byte never occurs inside the UTF-8 encoding of
      another character, so on bytes they compute the encoding of Python's
      result.  [strip()] knows the UTF-8 encodings of Python's non-ASCII
      space characters.  Digits are the ASCII digits (Python's [\d],
      [isdigit] and [int] also take other Unicode decimal digits).
    - Python's [float], the arithmetic SQLite does on [remaining_quantity]
      and the pytz zone table are library code: they are the fields of the
      classes [PyNum] and [TzData].
    - Coroutines are computations in a state-and-exception monad [M] over
      the database, the FSM storage, the messages delivered by Telegram and
      the log.  Every call to the database or to Telegram may raise: the
      state carries a script of outcomes, one per call, [true] for a call
      that raises. *)

From Stdlib Require Import ZArith QArith List String Ascii Bool Lia DecimalString.
Import ListNotations.
Open Scope string_scope.
Open Scope Z_scope.

(** ** Python string operations *)

Module PyStr.

Definition of_list (l : list ascii) : string := string_of_list_ascii l.
Definition to_list (s : string) : list ascii := list_ascii_of_string s.

Definition reverse (s : string) : string := of_list (rev (to_list s)).

(** [c in s] for a one-character [c]. *)
Fixpoint contains (c : ascii) (s : string) : bool :=
  match s with
  | EmptyString => false
  | String a rest => Ascii.eqb a c || contains c rest
  end.

(** [s.split(sep)] for a one-character separator: never empty. *)
Fixpoint split (sep : ascii) (s : string) : list string :=
  match s with
  | EmptyString => [EmptyString]
  | String a rest =>
      if Ascii.eqb a sep then EmptyString :: split sep rest
      else match split sep rest with
           | [] => [String a EmptyString]
           | piece :: pieces => String a piece :: pieces
           end
  end.

(** [s.rstrip(c)] for a one-character [c]. *)
Fixpoint rstrip (c : ascii) (s : string) : string :=
  match s with
  | EmptyString => EmptyString
  | String a rest =>
      match rstrip c rest with
      | EmptyString => if Ascii.eqb a c then EmptyString else String a EmptyString
      | kept => String a kept
      end
  end.

Definition byte_in (lo hi : nat) (c : ascii) : bool :=
  let n := nat_of_ascii c in (Nat.leb lo n && Nat.leb n hi)%bool.

(** The ASCII characters [str.isspace] accepts: U+0009..U+000D,
    U+001C..U+001F and the space. *)
Definition space1 (c : ascii) : bool := byte_in 9 13 c || byte_in 28 32 c.

(** U+0085 and U+00A0, as UTF-8. *)
Definition space2 (a b : ascii) : bool :=
  byte_in 194 194 a && (byte_in 133 133 b || byte_in 160 160 b).

(** U+1680, U+2000..U+200A, U+2028, U+2029, U+202F, U+205F and U+3000,
    as UTF-8. *)
Definition space3 (a b c : ascii) : bool :=
  (byte_in 225 225 a && byte_in 154 154 b && byte_in 128 128 c)
  || (byte_in 226 226 a && byte_in 128 128 b
      && (byte_in 128 138 c || byte_in 168 169 c || byte_in 175 175 c))
  || (byte_in 226 226 a && byte_in 129 129 b && byte_in 159 159 c)
  || (byte_in 227 227 a && byte_in 128 128 b && byte_in 128 128 c).

(** Drop leading space characters; [two] and [three] recognise the
    two- and three-byte ones in the order the bytes are met. *)
Fixpoint drop_spaces (two : ascii -> ascii -> bool)
    (three : ascii -> ascii -> ascii -> bool) (s : string) : string :=
  match s with
  | EmptyString => s
  | String a r1 =>
      if space1 a then drop_spaces two three r1
      else
        match r1 with
        | EmptyString => s
        | String b r2 =>
            if two a b then drop_spaces two three r2
            else
              match r2 with
              | EmptyString => s
              | String c r3 =>
                  if three a b c then drop_spaces two three r3 else s
              end
        end
  end.

Definition lstrip (s : string) : string := drop_spaces space2 space3 s.

Definition rstrip_spaces (s : string) : string :=
  reverse (drop_spaces (fun a b => space2 b a)
                       (fun a b c => space3 c b a) (reverse s)).

(** [s.strip()] *)
Definition strip (s : string) : string := rstrip_spaces (lstrip s).

Definition digit_of (c : ascii) : option Z :=
  if byte_in 48 57 c then Some (Z.of_nat (nat_of_ascii c) - 48) else None.

Definition is_digit (c : ascii) : bool := byte_in 48 57 c.

(** [s.isdigit()] *)
Definition isdigit (s : string) : bool :=
  match to_list s with
  | [] => false
  | l => forallb is_digit l
  end.

(** [int(s)] on a string of digits. *)
Definition int_of_digits (s : string) : Z :=
  fold_left (fun acc c => 10 * acc + match digit_of c with
                                     | Some d => d
                                     | None => 0
                                     end) (to_list s) 0.

(** [str(n)] for an [int]. *)
Definition of_Z (n : Z) : string := NilZero.string_of_int (Z.to_int n).

(** An optional string in an f-string: [None] prints as ["None"]. *)
Definition fmt (s : option string) : string :=
  match s with Some v => v | None => "None" end.

Definition fmt_int (n : option Z) : string :=
  match n with Some v => of_Z v | None => "None" end.

Definition repeat (c : ascii) (n : nat) : string := of_list (List.repeat c n).

Definition count (c : ascii) (s : string) : nat :=
  List.length (filter (Ascii.eqb c) (to_list s)).

(** The last character, if any. *)
Definition last (s : string) : option ascii := List.last (map Some (to_list s)) None.

End PyStr.

(** ** Times of day *)

(** [datetime.time]: hour and minute (seconds are never set here). *)
Definition time_of_day : Type := (Z * Z)%type.

Definition time_eqb (a b : time_of_day) : bool :=
  (fst a =? fst b) && (snd a =? snd b).

(** The [%H] field of [strptime]: the regular expression
    [2[0-3]|[0-1]\d|\d]. *)
Definition hour_field (s : string) : option Z :=
  match map PyStr.digit_of (PyStr.to_list s) with
  | [Some d] => Some d
  | [Some a; Some b] => if 10 * a + b <=? 23 then Some (10 * a + b) else None
  | _ => None
  end.

(** The [%M] field of [strptime]: the regular expression [[0-5]\d|\d]. *)
Definition minute_field (s : string) : option Z :=
  match map PyStr.digit_of (PyStr.to_list s) with
  | [Some d] => Some d
  | [Some a; Some b] => if a <=? 5 then Some (10 * a + b) else None
  | _ => None
  end.

(** [datetime.strptime(s, "%H:%M").time()]; [None] is [ValueError].  The
    two fields hold digits only, so the text has exactly one colon. *)
Definition strptime_HM (s : string) : option time_of_day :=
  match PyStr.split ":" s with
  | [h; m] =>
      match hour_field h, minute_field m with
      | Some hh, Some mm => Some (hh, mm)
      | _, _ => None
      end
  | _ => None
  end.

(** The list comprehension of bot.py line 83: every piece is parsed before
    any is compared, and the first bad one raises. *)
Fixpoint parse_all (pieces : list string) : option (list time_of_day) :=
  match pieces with
  | [] => Some []
  | p :: rest =>
      match strptime_HM (PyStr.strip p) with
      | None => None
      | Some t =>
          match parse_all rest with
          | None => None
          | Some ts => Some (t :: ts)
          end
      end
  end.

Definition parse_reminder_times (reminder_time_str : string) : option (list time_of_day) :=
  parse_all (PyStr.split "," reminder_time_str).

(** [re.match(r"^([0-9]|[01][0-9]|2[0-3]):[0-5][0-9]$", s)] of
    handlers.py, on a stripped piece. *)
Definition time_format_ok (s : string) : bool :=
  match PyStr.split ":" s with
  | [h; m] =>
      match hour_field h, map PyStr.digit_of (PyStr.to_list m) with
      | Some _, [Some a; Some _] => a <=? 5
      | _, _ => false
      end
  | _ => false
  end.

(** A UTC instant, in seconds since the epoch (fractions of a second play
    no part in what follows). *)
Definition instant : Type := Z.

(** [now_utc.astimezone(tz)], read through [.hour] and [.minute], for a
    zone whose offset from UTC at that instant is [offset] seconds. *)
Definition local_time (offset : Z) (now_utc : instant) : time_of_day :=
  let secs := (now_utc + offset) mod 86400 in
  (secs / 3600, (secs mod 3600) / 60).

(** ** Library code taken as parameters *)

(** Numbers: Python's [float] and the values SQLite keeps in the
    [remaining_quantity] column. *)
Class PyNum : Type := {
  (** a Python [float] *)
  pyfloat : Type;
  (** what the column holds: an integer, a real or NULL *)
  qty : Type;
  (** [float(s)]; [None] is [ValueError] *)
  py_float : string -> option pyfloat;
  (** the value stored for a Python [int] or [None] *)
  qty_stored : option Z -> qty;
  (** [remaining_quantity - ?] for a bound [int] or [float] *)
  qty_minus : qty -> Z + pyfloat -> qty;
  (** [x > 0] in Python; [None] is [TypeError] *)
  qty_gt0 : qty -> option bool;
  (** [x <= 0] in Python; [None] is [TypeError] *)
  qty_le0 : qty -> option bool;
  (** the value in an f-string *)
  qty_str : qty -> string
}.

(** The pytz table: [pytz.timezone(name)] is a zone, given by its offset
    from UTC in seconds at each instant, or [UnknownTimeZoneError]. *)
Class TzData : Type := {
  pytz_timezone : string -> option (instant -> Z)
}.

Section Program.

Context {num : PyNum} {tzdata : TzData}.

(** ** The database, the FSM storage and the outside world *)

(** A row of the [medicines] table.  [name], [dosage_unit] and
    [doses_quantity] are whatever the dialogue collected, [None] (NULL)
    included. *)
Record Medicine : Type := mkMedicine {
  medicine_id : Z;
  user_id : Z;
  name : option string;
  dosage : string;
  dosage_unit : option string;
  doses_quantity : option Z;
  reminder_time : string;
  remaining_quantity : qty
}.

Definition with_remaining (r : Medicine) (q : qty) : Medicine :=
  mkMedicine (medicine_id r) (user_id r) (name r) (dosage r) (dosage_unit r)
             (doses_quantity r) (reminder_time r) q.

(** The states of [TimezoneSetup], [AddMedicine] and [DeleteMedicine]. *)
Inductive FsmState : Type :=
| WAITING_FOR_LOCATION
| WAITING_FOR_NAME
| WAITING_FOR_DOSAGE
| WAITING_FOR_DOSAGE_UNIT
| WAITING_FOR_QUANTITY
| WAITING_FOR_TIMES
| WAITING_FOR_MEDICINE_NAME_TO_DELETE.

(** The dictionary an [FSMContext] keeps: [data.get(key)] of a key never
    set, or set to [None], is [None]. *)
Record Data : Type := mkData {
  medicine_name : option string;
  medicine_dosage : option string;
  medicine_dosage_unit : option string;
  medicine_quantity : option Z;
  medicine_time : option string
}.

Definition empty_data : Data := mkData None None None None None.

Record Fsm : Type := mkFsm {
  fsm_state : option FsmState;
  fsm_data : Data
}.

Definition fresh_fsm : Fsm := mkFsm None empty_data.

Inductive exn : Type :=
| ValueError
| TypeError
| AttributeError
| OverflowError
| UnknownTimeZoneError
| DatabaseError
| TelegramAPIError
| GeocoderTimedOut
| GeocoderCrash.

(** One constructor per [logging] call of bot.py and handlers.py. *)
Inductive LogEntry : Type :=
| LogSending (uid : Z) (medicine : option string) (dose : string) (unit_ : option string)
| LogSent (uid : Z)
| LogDoseFallback (dose : string) (mid : Z)
| LogAlreadyEmpty (medicine : option string) (mid : Z)
| LogReminderError (uid : Z) (e : exn)
| LogSchedulerStart
| LogSweep (now_utc : instant) (found : nat)
| LogDue (uid : Z) (medicine : option string) (at_ : time_of_day)
         (dose : string) (unit_ : option string)
| LogNoTimezone (uid : Z) (medicine : option string)
| LogGeocoderError (e : exn)
| LogTimezoneError (e : exn).

Record State : Type := mkState {
  (** table [users]: the first binding of a user is the row *)
  users : list (Z * string);
  (** table [medicines], in rowid order *)
  medicines : list Medicine;
  (** the next AUTOINCREMENT key *)
  next_id : Z;
  (** FSM storage, by user; the first binding counts *)
  fsm : list (Z * Fsm);
  (** messages Telegram accepted, oldest first: chat and text *)
  outbox : list (Z * string);
  (** log records, oldest first *)
  log : list LogEntry;
  (** outcomes of the coming database and Telegram calls *)
  faults : list bool
}.

Definition set_users (v : list (Z * string)) (s : State) : State :=
  mkState v (medicines s) (next_id s) (fsm s) (outbox s) (log s) (faults s).
Definition set_medicines (v : list Medicine) (s : State) : State :=
  mkState (users s) v (next_id s) (fsm s) (outbox s) (log s) (faults s).
Definition set_next_id (v : Z) (s : State) : State :=
  mkState (users s) (medicines s) v (fsm s) (outbox s) (log s) (faults s).
Definition set_fsm (v : list (Z * Fsm)) (s : State) : State :=
  mkState (users s) (medicines s) (next_id s) v (outbox s) (log s) (faults s).
Definition set_outbox (v : list (Z * string)) (s : State) : State :=
  mkState (users s) (medicines s) (next_id s) (fsm s) v (log s) (faults s).
Definition set_log (v : list LogEntry) (s : State) : State :=
  mkState (users s) (medicines s) (next_id s) (fsm s) (outbox s) v (faults s).
Definition set_faults (v : list bool) (s : State) : State :=
  mkState (users s) (medicines s) (next_id s) (fsm s) (outbox s) (log s) v.

(** The state after [create_tables] on a new database file. *)
Definition initial : State := mkState [] [] 1 [] [] [] [].

(** ** The monad *)

Inductive result (A : Type) : Type :=
| Ok (a : A)
| Raise (e : exn).
Arguments Ok {A} a.
Arguments Raise {A} e.

Definition M (A : Type) : Type := State -> result A * State.

Definition ret {A} (a : A) : M A := fun s => (Ok a, s).

Definition raise {A} (e : exn) : M A := fun s => (Raise e, s).

Definition bind {A B} (m : M A) (k : A -> M B) : M B :=
  fun s =>
    match m s with
    | (Ok a, s') => k a s'
    | (Raise e, s') => (Raise e, s')
    end.

(** [try: m  except Exception as e: h e] *)
Definition try_except {A} (m : M A) (h : exn -> M A) : M A :=
  fun s =>
    match m s with
    | (Ok a, s') => (Ok a, s')
    | (Raise e, s') => h e s'
    end.

(** [try: m  finally: f] *)
Definition try_finally {A} (m : M A) (f : M unit) : M A :=
  fun s =>
    match m s with
    | (r, s') =>
        match f s' with
        | (Ok _, s'') => (r, s'')
        | (Raise e, s'') => (Raise e, s'')
        end
    end.

Definition gets {A} (f : State -> A) : M A := fun s => (Ok (f s), s).

Definition modify (f : State -> State) : M unit := fun s => (Ok tt, f s).

Definition of_option {A} (e : exn) (o : option A) : M A :=
  match o with Some a => ret a | None => raise e end.

Notation "x <- m ;; k" := (bind m (fun x => k))
  (at level 61, m at next level, right associativity).
Notation "m ;; k" := (bind m (fun _ => k))
  (at level 61, right associativity).

(** [for x in l: body x] *)
Fixpoint for_each {A} (l : list A) (body : A -> M unit) : M unit :=
  match l with
  | [] => ret tt
  | x :: rest => body x ;; for_each rest body
  end.

(** [enumerate(l)] *)
Definition enumerate {A} (l : list A) : list (nat * A) :=
  combine (seq 0 (List.length l)) l.

Definition logging (e : LogEntry) : M unit :=
  modify (fun s => set_log (log s ++ [e]) s).

(** A call that leaves the process: it takes the next outcome of the
    script and raises [e] when that outcome is a failure. *)
Definition io (e : exn) : M unit :=
  fun s =>
    match faults s with
    | [] => (Ok tt, s)
    | false :: later => (Ok tt, set_faults later s)
    | true :: later => (Raise e, set_faults later s)
    end.

(** ** database.py *)

Fixpoint lookup {V} (k : Z) (l : list (Z * V)) : option V :=
  match l with
  | [] => None
  | (k', v) :: rest => if k' =? k then Some v else lookup k rest
  end.

Definition get_user_timezone (uid : Z) : M (option string) :=
  io DatabaseError ;;
  gets (fun s => lookup uid (users s)).

Definition set_user_timezone (uid : Z) (timezone : string) : M unit :=
  io DatabaseError ;;
  modify (fun s => set_users ((uid, timezone) :: users s) s).

(** sqlite3 refuses a Python [int] that does not fit 64 bits. *)
Definition fits_int64 (n : option Z) : bool :=
  match n with
  | Some v => (- 2 ^ 63 <=? v) && (v <=? 2 ^ 63 - 1)
  | None => true
  end.

Definition add_medicine (uid : Z) (name_ : option string) (dosage_ : string)
    (dosage_unit_ : option string) (doses_quantity_ : option Z)
    (reminder_time_ : string) : M unit :=
  io DatabaseError ;;
  if fits_int64 doses_quantity_ then
    modify (fun s =>
      set_next_id (next_id s + 1)
        (set_medicines
           (medicines s ++
              [mkMedicine (next_id s) uid name_ dosage_ dosage_unit_
                          doses_quantity_ reminder_time_
                          (qty_stored doses_quantity_)]) s))
  else raise OverflowError.

Definition get_medicines_for_user (uid : Z) : M (list Medicine) :=
  io DatabaseError ;;
  gets (fun s => filter (fun r => user_id r =? uid) (medicines s)).

Definition get_all_medicines_with_time : M (list Medicine) :=
  io DatabaseError ;;
  gets medicines.

Definition decrement_medicine_quantity (mid : Z)
    (dosage_to_decrement : Z + pyfloat) : M unit :=
  io DatabaseError ;;
  modify (fun s =>
    set_medicines
      (map (fun r =>
              if medicine_id r =? mid
              then with_remaining r (qty_minus (remaining_quantity r) dosage_to_decrement)
              else r)
           (medicines s)) s).

Definition get_medicine_by_id (mid : Z) : M (option Medicine) :=
  io DatabaseError ;;
  gets (fun s => find (fun r => medicine_id r =? mid) (medicines s)).

Definition delete_medicine (mid : Z) : M unit :=
  io DatabaseError ;;
  modify (fun s =>
    set_medicines (filter (fun r => negb (medicine_id r =? mid)) (medicines s)) s).

(** [name = ?] is never true of NULL, on either side. *)
Definition name_is (wanted : option string) (r : Medicine) : bool :=
  match wanted, name r with
  | Some w, Some n => String.eqb n w
  | _, _ => false
  end.

Definition delete_medicine_by_name_and_user (uid : Z)
    (medicine_name_ : option string) : M bool :=
  io DatabaseError ;;
  hit <- gets (fun s =>
           existsb (fun r => (user_id r =? uid) && name_is medicine_name_ r)
                   (medicines s)) ;;
  modify (fun s =>
    set_medicines
      (filter (fun r => negb ((user_id r =? uid) && name_is medicine_name_ r))
              (medicines s)) s) ;;
  ret hit.

(** ** The Telegram transport *)

(** [bot.send_message(chat, text)]; [message.answer(text)] is the same
    call, to the chat the message came from. *)
Definition send_message (chat : Z) (text : string) : M unit :=
  io TelegramAPIError ;;
  modify (fun s => set_outbox (outbox s ++ [(chat, text)]) s).

(** ** bot.py *)

(** Line 40: the dose as it is shown. *)
Definition dosage_str (medicine_dosage : string) : string :=
  if PyStr.contains "." medicine_dosage
  then PyStr.rstrip "." (PyStr.rstrip "0" medicine_dosage)
  else medicine_dosage.

(** Line 44. *)
Definition reminder_message (medicine_dosage : string)
    (unit_text medicine_name_ : option string) : string :=
  "⏰ Напоминание! Примите " ++ dosage_str medicine_dosage ++ " "
    ++ PyStr.fmt unit_text ++ " " ++ PyStr.fmt medicine_name_ ++ " 💊".

(** Line 60. *)
Definition depletion_message (medicine_name_ : option string) : string :=
  "💊 Внимание! Лекарство '" ++ PyStr.fmt medicine_name_
    ++ "' закончилось. Пожалуйста, пополните запасы. ⏳".

(** Lines 51 to 55: the amount taken off the stock. *)
Definition dosage_val (medicine_dosage : string) (mid : Z) : M (Z + pyfloat) :=
  try_except
    (v <- of_option ValueError (py_float medicine_dosage) ;; ret (inr v))
    (fun e =>
       match e with
       | ValueError => logging (LogDoseFallback medicine_dosage mid) ;; ret (inl 1)
       | other => raise other
       end).

(** Lines 47 to 63: what follows a delivered reminder. *)
Definition take_from_stock (uid mid : Z) (medicine_name_ : option string)
    (medicine_dosage : string) : M unit :=
  medicine_info <- get_medicine_by_id mid ;;
  match medicine_info with
  | Some info =>
      let current_remaining_quantity := remaining_quantity info in
      positive <- of_option TypeError (qty_gt0 current_remaining_quantity) ;;
      if (positive : bool) then
        amount <- dosage_val medicine_dosage mid ;;
        decrement_medicine_quantity mid amount ;;
        updated_medicine_info <- get_medicine_by_id mid ;;
        match updated_medicine_info with
        | Some updated =>
            used_up <- of_option TypeError (qty_le0 (remaining_quantity updated)) ;;
            if (used_up : bool) then
              send_message uid (depletion_message medicine_name_) ;;
              delete_medicine mid
            else ret tt
        | None => ret tt
        end
      else
        used_up <- of_option TypeError (qty_le0 current_remaining_quantity) ;;
        if (used_up : bool) then logging (LogAlreadyEmpty medicine_name_ mid)
        else ret tt
  | None => ret tt
  end.

Definition send_reminder (uid mid : Z) (medicine_name_ : option string)
    (medicine_dosage : string) (medicine_dosage_unit : option string) : M unit :=
  logging (LogSending uid medicine_name_ medicine_dosage medicine_dosage_unit) ;;
  try_except
    (_ <- of_option ValueError (py_float medicine_dosage) ;;
     send_message uid (reminder_message medicine_dosage medicine_dosage_unit medicine_name_) ;;
     logging (LogSent uid) ;;
     take_from_stock uid mid medicine_name_ medicine_dosage)
    (fun e => logging (LogReminderError uid e)).

(** Line 89. *)
Definition dose_to_send (dosages : list string) (index : nat) : string :=
  if Nat.ltb index (List.length dosages) then nth index dosages ""
  else match dosages with
       | [] => "не указана"
       | _ => List.last dosages ""
       end.

(** Lines 87 to 91: one reminder time of a record. *)
Definition check_time (now_user_tz : time_of_day) (r : Medicine)
    (dosages : list string) (slot : nat * time_of_day) : M unit :=
  let (index, reminder_time_) := slot in
  if time_eqb now_user_tz reminder_time_ then
    logging (LogDue (user_id r) (name r) reminder_time_
                    (dose_to_send dosages index) (dosage_unit r)) ;;
    send_reminder (user_id r) (medicine_id r) (name r)
                  (dose_to_send dosages index) (dosage_unit r)
  else ret tt.

(** Lines 80 to 93: the body of the loop over the records.  An empty
    timezone string is as false as [None]. *)
Definition check_medicine (now_utc : instant) (r : Medicine) : M unit :=
  user_timezone_str <- get_user_timezone (user_id r) ;;
  match user_timezone_str with
  | Some (String c rest) =>
      user_timezone <- of_option UnknownTimeZoneError (pytz_timezone (String c rest)) ;;
      reminder_times <- of_option ValueError (parse_reminder_times (reminder_time r)) ;;
      let dosages := map PyStr.strip (PyStr.split "," (dosage r)) in
      let now_user_tz := local_time (user_timezone now_utc) now_utc in
      for_each (enumerate reminder_times) (check_time now_user_tz r dosages)
  | _ => logging (LogNoTimezone (user_id r) (name r))
  end.

(** Lines 75 to 93: one sweep, at the instant the clock shows. *)
Definition sweep (now_utc : instant) : M unit :=
  found <- get_all_medicines_with_time ;;
  logging (LogSweep now_utc (List.length found)) ;;
  for_each found (check_medicine now_utc).

(** The [while True] loop, for as many sweeps as [clock] has readings;
    [asyncio.sleep(60)] separates them and does nothing else. *)
Fixpoint scheduler_loop (clock : list instant) : M unit :=
  match clock with
  | [] => ret tt
  | now_utc :: later => sweep now_utc ;; scheduler_loop later
  end.

Definition scheduler_setup (clock : list instant) : M unit :=
  logging LogSchedulerStart ;;
  scheduler_loop clock.

(** The due events a log records, oldest first. *)
Definition is_due (e : LogEntry) : bool :=
  match e with LogDue _ _ _ _ _ => true | _ => false end.

Definition due_events (l : list LogEntry) : list LogEntry := filter is_due l.

(** ** utils.py *)

(** What a library call does: it returns or it raises. *)
Definition call {A} (outcome : result A) : M A :=
  match outcome with
  | Ok a => ret a
  | Raise e => raise e
  end.

(** [get_timezone_from_location], given what [geolocator.reverse] does
    (whether it finds a place) and what [tf.timezone_at] does for the
    coordinates. *)
Definition get_timezone_from_location (reverse_ : result bool)
    (timezone_at : result (option string)) : M (option string) :=
  try_except
    (location <- call reverse_ ;;
     if (location : bool) then call timezone_at else ret None)
    (fun e =>
       match e with
       | GeocoderTimedOut => raise GeocoderTimedOut
       | other => logging (LogGeocoderError other) ;; ret None
       end).

(** ** handlers.py *)

Inductive BotCommand : Type :=
| CmdStart
| CmdTimezone
| CmdAdd
| CmdStatus
| CmdDelete.

(** What a message carries: a text, together with the command aiogram's
    [Command] filter reads in it, if any; a location, together with what
    the geocoder answers for it; or something else (a photo, a sticker),
    whose [text] is [None] as it is for a location. *)
Inductive Content : Type :=
| Text (text : string) (command : option BotCommand)
| Location (reverse_ : result bool) (timezone_at : result (option string))
| Other.

(** A message in a private chat: the chat is the sender. *)
Record Message : Type := mkMessage {
  from_user : Z;
  content : Content
}.

Definition message_text (m : Message) : option string :=
  match content m with
  | Text t _ => Some t
  | _ => None
  end.

Definition message_command (m : Message) : option BotCommand :=
  match content m with
  | Text _ c => c
  | _ => None
  end.

Definition answer (m : Message) (text : string) : M unit :=
  send_message (from_user m) text.

Definition context_of (uid : Z) (s : State) : Fsm :=
  match lookup uid (fsm s) with
  | Some c => c
  | None => fresh_fsm
  end.

Definition get_state (uid : Z) : M (option FsmState) :=
  gets (fun s => fsm_state (context_of uid s)).

Definition get_data (uid : Z) : M Data :=
  gets (fun s => fsm_data (context_of uid s)).

Definition set_state (uid : Z) (st : FsmState) : M unit :=
  modify (fun s => set_fsm ((uid, mkFsm (Some st) (fsm_data (context_of uid s))) :: fsm s) s).

Definition update_data (uid : Z) (f : Data -> Data) : M unit :=
  modify (fun s =>
    set_fsm ((uid, mkFsm (fsm_state (context_of uid s)) (f (fsm_data (context_of uid s))))
               :: fsm s) s).

(** [state.clear()] *)
Definition clear (uid : Z) : M unit :=
  modify (fun s => set_fsm ((uid, fresh_fsm) :: fsm s) s).

Definition nl : string := String "010" EmptyString.

Definition command_start_handler (m : Message) : M unit :=
  answer m ("Привет! Я бот-напоминалка о приеме лекарств." ++ nl
            ++ "Пожалуйста, отправьте свою геолокацию, чтобы я мог установить ваш часовой пояс.") ;;
  set_state (from_user m) WAITING_FOR_LOCATION.

Definition timezone_command_handler (m : Message) : M unit :=
  answer m "Пожалуйста, отправьте свою геолокацию, чтобы установить часовой пояс." ;;
  set_state (from_user m) WAITING_FOR_LOCATION.

Definition location_handler (m : Message) (reverse_ : result bool)
    (timezone_at : result (option string)) : M unit :=
  try_finally
    (try_except
       (timezone <- get_timezone_from_location reverse_ timezone_at ;;
        match timezone with
        | Some (String c rest) =>
            set_user_timezone (from_user m) (String c rest) ;;
            answer m ("Ваш часовой пояс установлен как: " ++ String c rest
                      ++ ". Теперь вы можете использовать команды бота.")
        | _ =>
            answer m "Не удалось определить часовой пояс по геолокации. Пожалуйста, попробуйте отправить геолокацию еще раз." ;;
            clear (from_user m)
        end)
       (fun e =>
          match e with
          | GeocoderTimedOut =>
              answer m "Извините, сервис определения часового пояса временно недоступен (timeout). Пожалуйста, попробуйте позже или убедитесь в стабильном интернет-соединении." ;;
              clear (from_user m)
          | other =>
              logging (LogTimezoneError other) ;;
              answer m "Произошла ошибка при определении часового пояса. Пожалуйста, попробуйте еще раз позже." ;;
              clear (from_user m)
          end))
    (st <- get_state (from_user m) ;;
     match st with
     | Some WAITING_FOR_LOCATION => clear (from_user m)
     | _ => ret tt
     end).

Definition wrong_content_type_handler (m : Message) : M unit :=
  answer m "Пожалуйста, отправьте именно геолокацию, используя кнопку 'Отправить мою геолокацию'.".

Definition add_medicine_command_handler (m : Message) : M unit :=
  user_timezone <- get_user_timezone (from_user m) ;;
  match user_timezone with
  | Some (String _ _) =>
      set_state (from_user m) WAITING_FOR_NAME ;;
      answer m "Пожалуйста, введите название лекарства:"
  | _ =>
      answer m "Перед добавлением лекарств, пожалуйста, установите свой часовой пояс, используя команду /start или /timezone и отправив геолокацию."
  end.

Definition get_medicine_name (m : Message) : M unit :=
  update_data (from_user m)
    (fun d => mkData (message_text m) (medicine_dosage d) (medicine_dosage_unit d)
                     (medicine_quantity d) (medicine_time d)) ;;
  set_state (from_user m) WAITING_FOR_DOSAGE ;;
  answer m "Теперь введите дозировку лекарства (можно несколько через запятую, только числа, например '1, 0.5, 2'):".

(** [float(dosage)] raises for none of the pieces. *)
Definition all_numbers (dosages : list string) : bool :=
  forallb (fun d => match py_float d with Some _ => true | None => false end) dosages.

Definition get_medicine_dosage (m : Message) : M unit :=
  dosages_text <- of_option AttributeError (message_text m) ;;
  let dosages := map PyStr.strip (PyStr.split "," dosages_text) in
  if all_numbers dosages then
    update_data (from_user m)
      (fun d => mkData (medicine_name d) (Some dosages_text) (medicine_dosage_unit d)
                       (medicine_quantity d) (medicine_time d)) ;;
    set_state (from_user m) WAITING_FOR_DOSAGE_UNIT ;;
    answer m "Выберите единицу измерения дозировки:"
  else
    answer m "Пожалуйста, вводите только числа в качестве дозировки (например, '1' или '0.5'). Если дозировок несколько, разделите их запятой.".

(** [F.text.in_({"Таблетки", "гр", "мл"})] *)
Definition is_dosage_unit (t : option string) : bool :=
  match t with
  | Some s => String.eqb s "Таблетки" || String.eqb s "гр" || String.eqb s "мл"
  | None => false
  end.

Definition get_dosage_unit (m : Message) : M unit :=
  update_data (from_user m)
    (fun d => mkData (medicine_name d) (medicine_dosage d) (message_text m)
                     (medicine_quantity d) (medicine_time d)) ;;
  set_state (from_user m) WAITING_FOR_QUANTITY ;;
  answer m "Введите общее количество доз в упаковке (целое число):".

Definition wrong_dosage_unit_handler (m : Message) : M unit :=
  answer m "Пожалуйста, выберите единицу измерения, используя кнопки:".

Definition get_medicine_quantity (m : Message) : M unit :=
  text <- of_option AttributeError (message_text m) ;;
  if PyStr.isdigit text then
    update_data (from_user m)
      (fun d => mkData (medicine_name d) (medicine_dosage d) (medicine_dosage_unit d)
                       (Some (PyStr.int_of_digits text)) (medicine_time d)) ;;
    set_state (from_user m) WAITING_FOR_TIMES ;;
    answer m "Введите время приема лекарства (можно несколько через запятую, например '8:00, 12:30, 20:00'):"
  else
    answer m "Пожалуйста, введите целое число для общего количества доз.".

Definition get_medicine_time (m : Message) : M unit :=
  times_text <- of_option AttributeError (message_text m) ;;
  let times := map PyStr.strip (PyStr.split "," times_text) in
  match find (fun time_str => negb (time_format_ok time_str)) times with
  | Some time_str =>
      answer m ("Неверный формат времени: '" ++ time_str
                ++ "'. Пожалуйста, используйте формат ЧЧ:ММ (например, 8:00 или 21:30) для всех времен.")
  | None =>
      update_data (from_user m)
        (fun d => mkData (medicine_name d) (medicine_dosage d) (medicine_dosage_unit d)
                         (medicine_quantity d) (Some times_text)) ;;
      data <- get_data (from_user m) ;;
      medicine_dosage_ <- of_option AttributeError (medicine_dosage data) ;;
      medicine_time_ <- of_option AttributeError (medicine_time data) ;;
      let dosages_list := map PyStr.strip (PyStr.split "," medicine_dosage_) in
      let times_list := map PyStr.strip (PyStr.split "," medicine_time_) in
      if Nat.eqb (List.length dosages_list) (List.length times_list) then
        add_medicine (from_user m) (medicine_name data) medicine_dosage_
                     (medicine_dosage_unit data) (medicine_quantity data) medicine_time_ ;;
        answer m ("Лекарство '" ++ PyStr.fmt (medicine_name data) ++ "' (дозировки: "
                  ++ medicine_dosage_ ++ " " ++ PyStr.fmt (medicine_dosage_unit data)
                  ++ "), время приема: " ++ medicine_time_ ++ " добавлено.") ;;
        clear (from_user m)
      else
        answer m "Количество дозировок и времен приема должно совпадать. Пожалуйста, проверьте введенное время и дозировки."
  end.

Definition status_line (r : Medicine) : string :=
  "- " ++ PyStr.fmt (name r) ++ " (дозировка: " ++ dosage r ++ " "
    ++ PyStr.fmt (dosage_unit r) ++ "), " ++ PyStr.fmt_int (doses_quantity r)
    ++ " доз в упаковке, осталось: " ++ qty_str (remaining_quantity r)
    ++ ", время приема: " ++ reminder_time r ++ nl.

Definition status_command_handler (m : Message) : M unit :=
  found <- get_medicines_for_user (from_user m) ;;
  match found with
  | [] => answer m "У вас пока нет добавленных лекарств. Используйте команду /add для добавления."
  | _ => answer m ("Ваши лекарства:" ++ nl ++ String.concat "" (map status_line found))
  end.

Definition delete_line (entry : nat * Medicine) : string :=
  let (index, r) := entry in
  PyStr.of_Z (Z.of_nat index + 1) ++ ". " ++ PyStr.fmt (name r) ++ " (дозировка: "
    ++ dosage r ++ " " ++ PyStr.fmt (dosage_unit r) ++ ")" ++ nl.

Definition delete_medicine_command_handler (m : Message) : M unit :=
  found <- get_medicines_for_user (from_user m) ;;
  match found with
  | [] => answer m "У вас нет добавленных лекарств для удаления. Используйте команду /add, чтобы добавить лекарства."
  | _ =>
      answer m ("Список ваших лекарств для удаления:" ++ nl
                ++ String.concat "" (map delete_line (enumerate found))
                ++ nl ++ "Введите название лекарства, которое вы хотите удалить:") ;;
      set_state (from_user m) WAITING_FOR_MEDICINE_NAME_TO_DELETE
  end.

Definition get_medicine_name_to_delete (m : Message) : M unit :=
  deleted <- delete_medicine_by_name_and_user (from_user m) (message_text m) ;;
  (if (deleted : bool) then
     answer m ("Лекарство '" ++ PyStr.fmt (message_text m)
               ++ "' успешно удалено из списка напоминаний.")
   else
     answer m ("Не удалось найти и удалить лекарство '" ++ PyStr.fmt (message_text m)
               ++ "'. Пожалуйста, убедитесь, что название введено верно и лекарство существует в вашем списке.")) ;;
  clear (from_user m).

Definition echo_handler (m : Message) : M unit :=
  answer m "Я не понимаю эту команду. Используйте /start, /add, /status, /delete или /timezone.".

(** The router: the handlers in the order they are registered, the first
    whose filters accept the message runs. *)
Definition router (m : Message) : M unit :=
  st <- get_state (from_user m) ;;
  match message_command m, st, content m with
  | Some CmdStart, _, _ => command_start_handler m
  | Some CmdTimezone, _, _ => timezone_command_handler m
  | _, Some WAITING_FOR_LOCATION, Location reverse_ timezone_at =>
      location_handler m reverse_ timezone_at
  | _, Some WAITING_FOR_LOCATION, _ => wrong_content_type_handler m
  | Some CmdAdd, _, _ => add_medicine_command_handler m
  | _, Some WAITING_FOR_NAME, _ => get_medicine_name m
  | _, Some WAITING_FOR_DOSAGE, _ => get_medicine_dosage m
  | _, Some WAITING_FOR_DOSAGE_UNIT, _ =>
      if is_dosage_unit (message_text m) then get_dosage_unit m
      else wrong_dosage_unit_handler m
  | _, Some WAITING_FOR_QUANTITY, _ => get_medicine_quantity m
  | _, Some WAITING_FOR_TIMES, _ => get_medicine_time m
  | Some CmdStatus, _, _ => status_command_handler m
  | Some CmdDelete, _, _ => delete_medicine_command_handler m
  | _, Some WAITING_FOR_MEDICINE_NAME_TO_DELETE, _ => get_medicine_name_to_delete m
  | _, _, _ => echo_handler m
  end.

(** ** The running bot *)

(** What happens next: a message arrives, or the scheduler sweeps; either
    way with some outcomes of the calls it will make. *)
Inductive Event : Type :=
| Incoming (m : Message) (outcomes : list bool)
| Tick (now_utc : instant) (outcomes : list bool).

Definition step (s : State) (ev : Event) : State :=
  match ev with
  | Incoming m outcomes => snd (router m (set_faults outcomes s))
  | Tick now_utc outcomes => snd (sweep now_utc (set_faults outcomes s))
  end.

Definition run (s : State) (evs : list Event) : State := fold_left step evs s.

(** ** Vocabulary of the statements *)

(** [wp m Q s]: run from [s], [m] ends in a result and a state that
    satisfy [Q]. *)
Definition wp {A} (m : M A) (Q : result A -> State -> Prop) (s : State) : Prop :=
  Q (fst (m s)) (snd (m s)).

(** [m] takes every state to one that [R] relates to it, whatever it
    returns or raises. *)
Definition keeps {A} (R : State -> State -> Prop) (m : M A) : Prop :=
  forall s, R s (snd (m s)).

(** The two lists of a record, as line 84 and line 83 of bot.py cut them
    out of the stored text. *)
Definition doseAmounts (r : Medicine) : list string :=
  map PyStr.strip (PyStr.split "," (dosage r)).

Definition reminderTimes (r : Medicine) : list string :=
  map PyStr.strip (PyStr.split "," (reminder_time r)).

(** The due event of one reminder time of a record. *)
Definition due_event (r : Medicine) (slot : nat * time_of_day) : LogEntry :=
  LogDue (user_id r) (name r) (snd slot)
         (dose_to_send (doseAmounts r) (fst slot)) (dosage_unit r).

(** The reminder times that equal the local time, with their indices. *)
Definition matching (now_user_tz : time_of_day) (times : list time_of_day)
  : list (nat * time_of_day) :=
  filter (fun slot => time_eqb now_user_tz (snd slot)) (enumerate times).

(** No reminder time of the record equals the local time of its owner. *)
Definition quiet (now_utc : instant) (s : State) (r : Medicine) : Prop :=
  forall zone_name zone times,
    lookup (user_id r) (users s) = Some zone_name ->
    pytz_timezone zone_name = Some zone ->
    parse_reminder_times (reminder_time r) = Some times ->
    forall t, In t times -> time_eqb (local_time (zone now_utc) now_utc) t = false.

(** The tables and the delivered messages are the same in both states. *)
Definition untouched (s s' : State) : Prop :=
  medicines s' = medicines s /\ users s' = users s
  /\ next_id s' = next_id s /\ outbox s' = outbox s.

(** The row with a given key, as [get_medicine_by_id] selects it. *)
Definition has_id (mid : Z) (r : Medicine) : bool := medicine_id r =? mid.

(** Both logs record the same due events. *)
Definition same_due (s s' : State) : Prop :=
  due_events (log s') = due_events (log s).

(** Nothing a user or a later sweep can see has changed: the tables,
    the delivered messages and the due events are the same. *)
Definition still (s s' : State) : Prop := untouched s s' /\ same_due s s'.

(** The messages delivered up to [s] are the first ones delivered up to
    [s']. *)
Definition outbox_grows (s s' : State) : Prop :=
  exists more, outbox s' = (outbox s ++ more)%list.

(** Every row of [s'] is a row of [s], up to its remaining quantity. *)
Definition rows_kept (s s' : State) : Prop :=
  forall r', In r' (medicines s') ->
    exists r, In r (medicines s) /\ r' = with_remaining r (remaining_quantity r').

(** The lists of every stored record have the same length. *)
Definition lists_agree (s : State) : Prop :=
  forall r, In r (medicines s) ->
    List.length (doseAmounts r) = List.length (reminderTimes r).

(** [float] accepts every dose of the dose text a dialogue holds. *)
Definition numeric_data (d : Data) : Prop :=
  forall text,
    medicine_dosage d = Some text ->
    all_numbers (map PyStr.strip (PyStr.split "," text)) = true.

(** [float] accepts every dose of every stored record, and every dose
    text a dialogue holds. *)
Definition doses_numeric (s : State) : Prop :=
  (forall r, In r (medicines s) -> all_numbers (doseAmounts r) = true)
  /\ (forall uid c, In (uid, c) (fsm s) -> numeric_data (fsm_data c)).

(** What every state of the running bot satisfies. *)
Definition sound (s : State) : Prop := lists_agree s /\ doses_numeric s.

(** A step from [s] to [s'] that does not break [sound]. *)
Definition sound_kept (s s' : State) : Prop := sound s -> sound s'.

(** ** Further vocabulary *)

(** An hour and a minute of the clock. *)
Definition in_range (t : time_of_day) : Prop :=
  0 <= fst t <= 23 /\ 0 <= snd t <= 59.

(** The minute of the day of a time of day. *)
Definition minute_of_day (t : time_of_day) : Z := 60 * fst t + snd t.

(** Every piece of a text of times has the format the dialogue asks for. *)
Definition valid_times (text : string) : Prop :=
  forallb time_format_ok (map PyStr.strip (PyStr.split "," text)) = true.

(** What the bot keeps between two events: the two tables, the next key
    and the dialogues. *)
Record Tables : Type := mkTables {
  t_users : list (Z * string);
  t_medicines : list Medicine;
  t_next_id : Z;
  t_fsm : list (Z * Fsm)
}.

Definition tables (s : State) : Tables :=
  mkTables (users s) (medicines s) (next_id s) (fsm s).

(** The owner has a timezone the sweep will use: a text that is not empty. *)
Definition has_timezone (uid : Z) (v : Tables) : Prop :=
  exists c rest, lookup uid (t_users v) = Some (String c rest).

(** The dialogue of a user, as [context_of] finds it. *)
Definition dialogue_of (uid : Z) (v : Tables) : Fsm :=
  match lookup uid (t_fsm v) with
  | Some c => c
  | None => fresh_fsm
  end.

(** The states of the [AddMedicine] dialogue. *)
Definition adding (st : option FsmState) : bool :=
  match st with
  | Some WAITING_FOR_NAME | Some WAITING_FOR_DOSAGE | Some WAITING_FOR_DOSAGE_UNIT
  | Some WAITING_FOR_QUANTITY | Some WAITING_FOR_TIMES => true
  | _ => false
  end.

(** A unit a dialogue holds is one of the three labels, and a quantity
    it holds is not negative. *)
Definition data_valid (d : Data) : Prop :=
  (forall u, medicine_dosage_unit d = Some u -> is_dosage_unit (Some u) = true)
  /\ (forall q, medicine_quantity d = Some q -> 0 <= q).

(** What a dialogue has collected when it is in a given state. *)
Definition collected (c : Fsm) : Prop :=
  match fsm_state c with
  | Some WAITING_FOR_DOSAGE_UNIT => medicine_dosage (fsm_data c) <> None
  | Some WAITING_FOR_QUANTITY =>
      medicine_dosage (fsm_data c) <> None
      /\ medicine_dosage_unit (fsm_data c) <> None
  | Some WAITING_FOR_TIMES =>
      medicine_dosage (fsm_data c) <> None
      /\ medicine_dosage_unit (fsm_data c) <> None
      /\ medicine_quantity (fsm_data c) <> None
  | _ => True
  end.

Definition dialogue_ok (v : Tables) (uid : Z) (c : Fsm) : Prop :=
  data_valid (fsm_data c)
  /\ collected c
  /\ (adding (fsm_state c) = true -> has_timezone uid v).

(** A record with everything the dialogue collects, of an owner with a
    timezone, under a key already given out. *)
Definition complete (v : Tables) (r : Medicine) : Prop :=
  is_dosage_unit (dosage_unit r) = true
  /\ (exists q, doses_quantity r = Some q /\ 0 <= q <= 2 ^ 63 - 1)
  /\ valid_times (reminder_time r)
  /\ has_timezone (user_id r) v
  /\ 1 <= medicine_id r < t_next_id v.

Definition orderly_tables (v : Tables) : Prop :=
  (forall r, In r (t_medicines v) -> complete v r)
  /\ NoDup (map medicine_id (t_medicines v))
  /\ 1 <= t_next_id v
  /\ (forall uid c, In (uid, c) (t_fsm v) -> dialogue_ok v uid c).

(** What every state of the running bot satisfies, beside [sound]. *)
Definition orderly (s : State) : Prop := orderly_tables (tables s).

(** The tables are in order and the dialogue of [uid] is [c]. *)
Definition at_dialogue (uid : Z) (c : Fsm) (v : Tables) : Prop :=
  orderly_tables v /\ dialogue_of uid v = c.

(** The tables with one more binding in the FSM storage. *)
Definition push_dialogue (uid : Z) (c : Fsm) (v : Tables) : Tables :=
  mkTables (t_users v) (t_medicines v) (t_next_id v) ((uid, c) :: t_fsm v).

(** [hoare P m Q E]: from tables that satisfy [P], [m] returns [a] with
    tables that satisfy [Q a], or raises with tables that satisfy [E]. *)
Definition hoare {A} (P : Tables -> Prop) (m : M A)
    (Q : A -> Tables -> Prop) (E : Tables -> Prop) : Prop :=
  forall s, P (tables s) ->
    match m s with
    | (Ok a, s') => Q a (tables s')
    | (Raise _, s') => E (tables s')
    end.

(** The rows a dispatch for [mid] has no business with. *)
Definition other_rows (mid : Z) (s : State) : list Medicine :=
  filter (fun r => negb (has_id mid r)) (medicines s).

(** The row [delete_medicine_by_name_and_user] is after. *)
Definition named (uid : Z) (wanted : string) (r : Medicine) : Prop :=
  user_id r = uid /\ name r = Some wanted.

(** What a dispatch for [mid] leaves alone: the users, the dialogues, the
    next key and every other record; and it adds no record. *)
Definition spares (mid : Z) (s s' : State) : Prop :=
  users s' = users s /\ fsm s' = fsm s /\ next_id s' = next_id s
  /\ other_rows mid s' = other_rows mid s
  /\ (List.length (medicines s') <= List.length (medicines s))%nat.

(** What the scheduler leaves alone: the users, the dialogues and the
    next key; and every record it leaves is one that was there, with at
    most another remaining quantity. *)
Definition only_uses_up (s s' : State) : Prop :=
  users s' = users s /\ fsm s' = fsm s /\ next_id s' = next_id s
  /\ rows_kept s s'
  /\ (List.length (medicines s') <= List.length (medicines s))%nat.

(** The records of one owner, as [get_medicines_for_user] lists them. *)
Definition owned_by (uid : Z) (s : State) : list Medicine :=
  filter (fun r => user_id r =? uid) (medicines s).

(** What a message of [uid] leaves alone: the timezone, the dialogue and
    the records of everybody else. *)
Definition others_untouched (uid : Z) (s s' : State) : Prop :=
  forall other, other <> uid ->
    lookup other (users s') = lookup other (users s)
    /\ context_of other s' = context_of other s
    /\ owned_by other s' = owned_by other s.

(** The dialogue of [uid] is as it was, or it has been cleared. *)
Definition cleared_or_same (uid : Z) (s s' : State) : Prop :=
  context_of uid s' = context_of uid s \/ context_of uid s' = fresh_fsm.



(** [m] takes tables in order to tables in order, whether it returns or
    raises. *)
Definition keeps_order {A} (m : M A) : Prop :=
  hoare orderly_tables m (fun _ => orderly_tables) orderly_tables.

(** ** Calls that fail, due events and times as they are written *)

(** Every call made from [s] to [s'] went through: the outcomes taken
    off the script are all successes. *)
Definition all_through (s s' : State) : Prop :=
  exists ok, faults s = (ok ++ faults s')%list /\ forallb negb ok = true.

(** The last call made from [s] to [s'] raised, and the calls before it
    went through. *)
Definition one_failed (s s' : State) : Prop :=
  exists ok, faults s = (ok ++ true :: faults s')%list /\ forallb negb ok = true.

(** What a call to Telegram or to the database raises. *)
Definition call_error (e : exn) : Prop := e = TelegramAPIError \/ e = DatabaseError.

(** [m] raises the exception of a call exactly when the last call it made
    failed; otherwise every call it made went through. *)
Definition accounts {A} (m : M A) : Prop :=
  forall s,
    match m s with
    | (Ok _, s') => all_through s s'
    | (Raise e, s') =>
        (one_failed s s' /\ call_error e) \/ (all_through s s' /\ ~ call_error e)
    end.

(** The due event of the spec: the record, its owner, its name, the dose
    and the unit; and the reminder time that was matched, for the log. *)
Record DueEvent : Type := mkDueEvent {
  due_record : Z;
  due_owner : Z;
  due_name : option string;
  due_time : time_of_day;
  due_dose : string;
  due_unit : option string
}.

(** The due event of a record for one of its reminder times. *)
Definition emitted (r : Medicine) (slot : nat * time_of_day) : DueEvent :=
  mkDueEvent (medicine_id r) (user_id r) (name r) (snd slot)
             (dose_to_send (doseAmounts r) (fst slot)) (dosage_unit r).

(** What happens to a due event: it is logged and handed to the dispatch. *)
Definition dispatch (d : DueEvent) : M unit :=
  logging (LogDue (due_owner d) (due_name d) (due_time d) (due_dose d) (due_unit d)) ;;
  send_reminder (due_owner d) (due_record d) (due_name d) (due_dose d) (due_unit d).

(** The due events of a record when the local time of its owner is
    [local] and its reminder times are [times]. *)
Definition due_now (local : time_of_day) (r : Medicine) (times : list time_of_day)
  : list DueEvent :=
  map (emitted r) (matching local times).

(** The character of a decimal digit. *)
Definition digit_char (d : Z) : ascii := ascii_of_nat (48 + Z.to_nat d).

Definition one_digit (n : Z) : string := String (digit_char n) EmptyString.

Definition two_digits (n : Z) : string :=
  String (digit_char (n / 10)) (String (digit_char (n mod 10)) EmptyString).

(** [piece] is the time [t] as the dialogue accepts it: two digits for
    the hour, or one before ten o'clock, a colon and two digits for the
    minute. *)
Definition denotes (piece : string) (t : time_of_day) : Prop :=
  in_range t
  /\ (piece = two_digits (fst t) ++ ":" ++ two_digits (snd t)
      \/ (fst t <= 9 /\ piece = one_digit (fst t) ++ ":" ++ two_digits (snd t))).

(** [text] is the list [times], written with commas and any spaces
    around the pieces. *)
Definition written (text : string) (times : list time_of_day) : Prop :=
  Forall2 (fun piece t => denotes (PyStr.strip piece) t) (PyStr.split "," text) times.

End Program.

Arguments Ok {A} a.
Arguments Raise {A} e.

(** ** Instances used in the examples *)

(** Exact decimal numbers.  They stand for Python's [float] and SQLite's
    numbers on plain signed decimals that binary floating point holds
    exactly (small integers, halves, quarters); NULL is [None]. *)
Module ExactDecimal.

Definition digits_value (l : list ascii) : option Z :=
  if forallb PyStr.is_digit l
  then Some (PyStr.int_of_digits (PyStr.of_list l))
  else None.

(** An unsigned decimal: digits, with at most one point and at least one
    digit. *)
Definition unsigned (body : string) : option Q :=
  match PyStr.split "." body with
  | [whole] =>
      match PyStr.to_list whole with
      | [] => None
      | l => option_map inject_Z (digits_value l)
      end
  | [whole; frac] =>
      match (PyStr.to_list whole ++ PyStr.to_list frac)%list with
      | [] => None
      | l =>
          option_map
            (fun v => Qred (Qmake v (Z.to_pos (10 ^ Z.of_nat (String.length frac)))))
            (digits_value l)
      end
  | _ => None
  end.

Definition parse (s : string) : option Q :=
  match PyStr.strip s with
  | String "-" body => option_map Qopp (unsigned body)
  | String "+" body => unsigned body
  | body => unsigned body
  end.

Definition minus (q : option Q) (amount : Z + Q) : option Q :=
  match q, amount with
  | Some v, inl n => Some (Qred (v - inject_Z n))
  | Some v, inr f => Some (Qred (v - f))
  | None, _ => None
  end.

Definition gt0 (q : option Q) : option bool :=
  option_map (fun v => negb (Qle_bool v 0)) q.

Definition le0 (q : option Q) : option bool :=
  option_map (fun v => Qle_bool v 0) q.

(** Integers print as Python prints an [int]; the other values as
    numerator/denominator, which is not what Python prints. *)
Definition show (q : option Q) : string :=
  match q with
  | None => "None"
  | Some v =>
      match Qden (Qred v) with
      | xH => PyStr.of_Z (Qnum (Qred v))
      | d => PyStr.of_Z (Qnum (Qred v)) ++ "/" ++ PyStr.of_Z (Zpos d)
      end
  end.

End ExactDecimal.

#[local] Instance exact_decimal : PyNum := {|
  pyfloat := Q;
  qty := option Q;
  py_float := ExactDecimal.parse;
  qty_stored := option_map inject_Z;
  qty_minus := ExactDecimal.minus;
  qty_gt0 := ExactDecimal.gt0;
  qty_le0 := ExactDecimal.le0;
  qty_str := ExactDecimal.show
|}.

(** Two zones of the tz database whose offset never changes: UTC, and
    Etc/GMT-3, which is three hours ahead of UTC. *)
#[local] Instance fixed_zones : TzData := {|
  pytz_timezone := fun zone =>
    if String.eqb zone "UTC" then Some (fun _ => 0)
    else if String.eqb zone "Etc/GMT-3" then Some (fun _ => 10800)
    else None
|}.

(** ** Sample data *)

(** One owner, user 7, three hours ahead of UTC, and one record of theirs:
    one tablet at 08:00. *)
Definition aspirin (quantity remaining : Z) : Medicine :=
  mkMedicine 1 7 (Some "Аспирин") "1" (Some "Таблетки") (Some quantity) "08:00"
             (Some (inject_Z remaining)).

Definition one_owner (rows : list Medicine) (outcomes : list bool) : State :=
  mkState [(7, "Etc/GMT-3")] rows 2 [] [] [] outcomes.

(** 05:00:00 UTC on 1 January 1970. *)
Definition five_utc : instant := 5 * 3600.

Definition says (t : string) : Event := Incoming (mkMessage 7 (Text t None)) [].

Definition commands (t : string) (c : BotCommand) : Event :=
  Incoming (mkMessage 7 (Text t (Some c))) [].

(** User 7 has given a name, the doses, the unit and the quantity, and is
    asked for the times. *)
Definition awaiting_times (doses : string) : State :=
  mkState [(7, "Etc/GMT-3")] [] 1
          [(7, mkFsm (Some WAITING_FOR_TIMES)
                     (mkData (Some "Аспирин") (Some doses) (Some "Таблетки") (Some 10) None))]
          [] [] [].

(** User 7 sets the timezone and adds a medicine; no call fails. *)
Definition dialogue (doses quantity times : string) : list Event :=
  [commands "/start" CmdStart;
   Incoming (mkMessage 7 (Location (Ok true) (Ok (Some "Etc/GMT-3")))) [];
   commands "/add" CmdAdd;
   says "Аспирин";
   says doses;
   says "Таблетки";
   says quantity;
   says times].

(** * Reasoning rules *)

Section Rules.

Context {num : PyNum} {tzdata : TzData}.

Local Notation "x <- m ;; k" := (bind m (fun x => k))
  (at level 61, m at next level, right associativity).
Local Notation "m ;; k" := (bind m (fun _ => k))
  (at level 61, right associativity).

Lemma wp_ret {A} (a : A) Q s : Q (Ok a) s -> wp (ret a) Q s.
Proof. exact (fun H => H). Qed.

Lemma wp_raise {A} (e : exn) (Q : result A -> State -> Prop) s :
  Q (Raise e) s -> wp (raise e) Q s.
Proof. exact (fun H => H). Qed.

Lemma wp_bind {A B} (m : M A) (k : A -> M B) Q s :
  wp m (fun r s' => match r with
                    | Ok a => wp (k a) Q s'
                    | Raise e => Q (Raise e) s'
                    end) s ->
  wp (bind m k) Q s.
Proof.
  unfold wp, bind. destruct (m s) as [[a | e] s']; simpl; auto.
Qed.

Lemma wp_try_except {A} (m : M A) (h : exn -> M A) Q s :
  wp m (fun r s' => match r with
                    | Ok a => Q (Ok a) s'
                    | Raise e => wp (h e) Q s'
                    end) s ->
  wp (try_except m h) Q s.
Proof.
  unfold wp, try_except. destruct (m s) as [[a | e] s']; simpl; auto.
Qed.

Lemma wp_try_finally {A} (m : M A) (f : M unit) Q s :
  wp m (fun r s' =>
          wp f (fun rf s'' => match rf with
                              | Ok _ => Q r s''
                              | Raise e => Q (Raise e) s''
                              end) s') s ->
  wp (try_finally m f) Q s.
Proof.
  unfold wp, try_finally. destruct (m s) as [r s']; simpl.
  destruct (f s') as [[u | e] s'']; simpl; auto.
Qed.

Lemma wp_gets {A} (f : State -> A) Q s : Q (Ok (f s)) s -> wp (gets f) Q s.
Proof. exact (fun H => H). Qed.

Lemma wp_modify (f : State -> State) Q s : Q (Ok tt) (f s) -> wp (modify f) Q s.
Proof. exact (fun H => H). Qed.

Lemma wp_logging (e : LogEntry) Q s :
  Q (Ok tt) (set_log (log s ++ [e]) s) -> wp (logging e) Q s.
Proof. exact (fun H => H). Qed.

Lemma wp_of_option {A} (e : exn) (o : option A) Q s :
  match o with Some a => Q (Ok a) s | None => Q (Raise e) s end ->
  wp (of_option e o) Q s.
Proof. destruct o; exact (fun H => H). Qed.

Lemma wp_call {A} (o : result A) Q s : Q o s -> wp (call o) Q s.
Proof. destruct o; exact (fun H => H). Qed.

(** A call to the outside either goes through or raises, and in both
    cases only the script of outcomes moves on. *)
Lemma wp_io (e : exn) Q s :
  (forall later, Q (Ok tt) (set_faults later s)) ->
  (forall later, Q (Raise e) (set_faults later s)) ->
  wp (io e) Q s.
Proof.
  intros Hok Herr. unfold wp, io.
  destruct s as [u m n f o l fs]; simpl.
  destruct fs as [| [|] later]; simpl.
  - apply (Hok []).
  - apply (Herr later).
  - apply (Hok later).
Qed.

Lemma wp_mono {A} (m : M A) (Q Q' : result A -> State -> Prop) s :
  wp m Q s -> (forall r s', Q r s' -> Q' r s') -> wp m Q' s.
Proof. unfold wp; auto. Qed.

(** A loop with invariant [I]: an iteration that raises ends the loop. *)
Lemma wp_for_each {A} (I : State -> Prop) (l : list A) (body : A -> M unit) Q :
  (forall x s, In x l -> I s ->
     wp (body x) (fun r s' => match r with
                              | Ok _ => I s'
                              | Raise e => Q (Raise e) s'
                              end) s) ->
  (forall s, I s -> Q (Ok tt) s) ->
  forall s, I s -> wp (for_each l body) Q s.
Proof.
  induction l as [| x rest IH]; intros Hbody Hend s Hs; simpl.
  - apply wp_ret; auto.
  - apply wp_bind.
    eapply wp_mono; [apply (Hbody x s); simpl; auto |].
    intros [[] | e] s'; simpl; auto.
    intro Hs'. apply IH; auto.
    intros y s0 Hy. apply Hbody; simpl; auto.
Qed.

(** *** Equations for single steps *)

Lemma io_raises (e : exn) s later :
  faults s = true :: later -> io e s = (Raise e, set_faults later s).
Proof. unfold io; intros ->; reflexivity. Qed.

Lemma bind_returns {A B} (m : M A) (k : A -> M B) s a s' :
  m s = (Ok a, s') -> bind m k s = k a s'.
Proof. unfold bind; intros ->; reflexivity. Qed.

(** *** Relations every step of a computation keeps *)

Section Frame.

Variable R : State -> State -> Prop.
Hypothesis R_refl : forall s, R s s.
Hypothesis R_trans : forall a b c, R a b -> R b c -> R a c.

Lemma keeps_ret {A} (a : A) : keeps R (ret a).
Proof. intro s; apply R_refl. Qed.

Lemma keeps_raise {A} (e : exn) : keeps R (@raise _ A e).
Proof. intro s; apply R_refl. Qed.

Lemma keeps_gets {A} (f : State -> A) : keeps R (gets f).
Proof. intro s; apply R_refl. Qed.

Lemma keeps_of_option {A} (e : exn) (o : option A) : keeps R (of_option e o).
Proof. destruct o; intro s; apply R_refl. Qed.

Lemma keeps_call {A} (o : result A) : keeps R (call o).
Proof. destruct o; intro s; apply R_refl. Qed.

Lemma keeps_modify (f : State -> State) :
  (forall s, R s (f s)) -> keeps R (modify f).
Proof. intros H s; apply H. Qed.

Lemma keeps_bind {A B} (m : M A) (k : A -> M B) :
  keeps R m -> (forall a, keeps R (k a)) -> keeps R (bind m k).
Proof.
  intros Hm Hk s. unfold bind.
  specialize (Hm s). destruct (m s) as [[a | e] s']; simpl in *; auto.
  eapply R_trans; [exact Hm | apply Hk].
Qed.

Lemma keeps_try_except {A} (m : M A) (h : exn -> M A) :
  keeps R m -> (forall e, keeps R (h e)) -> keeps R (try_except m h).
Proof.
  intros Hm Hh s. unfold try_except.
  specialize (Hm s). destruct (m s) as [[a | e] s']; simpl in *; auto.
  eapply R_trans; [exact Hm | apply Hh].
Qed.

Lemma keeps_try_finally {A} (m : M A) (f : M unit) :
  keeps R m -> keeps R f -> keeps R (try_finally m f).
Proof.
  intros Hm Hf s. unfold try_finally.
  specialize (Hm s). destruct (m s) as [r s']; simpl in *.
  specialize (Hf s'). destruct (f s') as [[u | e] s'']; simpl in *;
    eapply R_trans; eauto.
Qed.

Lemma keeps_for_each {A} (l : list A) (body : A -> M unit) :
  (forall x, In x l -> keeps R (body x)) -> keeps R (for_each l body).
Proof.
  induction l as [| x rest IH]; intro H; simpl.
  - apply keeps_ret.
  - apply keeps_bind; [apply H; simpl; auto |].
    intros _. apply IH. intros y Hy. apply H; simpl; auto.
Qed.

(** What the relation has to allow for the calls below to keep it. *)
Hypothesis R_faults : forall s later, R s (set_faults later s).
Hypothesis R_log :
  forall s e, is_due e = false -> R s (set_log (log s ++ [e]) s).
Hypothesis R_outbox :
  forall s sent, R s (set_outbox (outbox s ++ [sent]) s).
Hypothesis R_decrement :
  forall s mid amount,
    R s (set_medicines
           (map (fun r =>
                   if medicine_id r =? mid
                   then with_remaining r (qty_minus (remaining_quantity r) amount)
                   else r)
                (medicines s)) s).
Hypothesis R_delete :
  forall s f, R s (set_medicines (filter f (medicines s)) s).

Lemma keeps_io (e : exn) : keeps R (io e).
Proof.
  intro s. unfold io. destruct (faults s) as [| [|] later] eqn:E; simpl; auto.
Qed.

Lemma keeps_logging (e : LogEntry) : is_due e = false -> keeps R (logging e).
Proof. intros H s. apply R_log, H. Qed.

Lemma keeps_read {A} (f : State -> A) : keeps R (bind (io DatabaseError) (fun _ => gets f)).
Proof. apply keeps_bind; [apply keeps_io | intros; apply keeps_gets]. Qed.

Lemma keeps_send_message chat text : keeps R (send_message chat text).
Proof.
  apply keeps_bind; [apply keeps_io | intros; apply keeps_modify].
  intro s; apply R_outbox.
Qed.

Lemma keeps_decrement mid amount : keeps R (decrement_medicine_quantity mid amount).
Proof.
  apply keeps_bind; [apply keeps_io | intros; apply keeps_modify].
  intro s; apply R_decrement.
Qed.

Lemma keeps_delete_medicine mid : keeps R (delete_medicine mid).
Proof.
  apply keeps_bind; [apply keeps_io | intros; apply keeps_modify].
  intro s; apply R_delete.
Qed.

Ltac frame_step :=
  lazymatch goal with
  | |- keeps _ (bind _ _) => apply keeps_bind; [| intro]
  | |- keeps _ (ret _) => apply keeps_ret
  | |- keeps _ (raise _) => apply keeps_raise
  | |- keeps _ (try_except _ _) => apply keeps_try_except; [| intro]
  | |- keeps _ (gets _) => apply keeps_gets
  | |- keeps _ (of_option _ _) => apply keeps_of_option
  | |- keeps _ (logging _) => apply keeps_logging; reflexivity
  | |- keeps _ (send_message _ _) => apply keeps_send_message
  | |- keeps _ (get_medicine_by_id _) => apply keeps_read
  | |- keeps _ (get_user_timezone _) => apply keeps_read
  | |- keeps _ get_all_medicines_with_time => apply keeps_read
  | |- keeps _ (decrement_medicine_quantity _ _) => apply keeps_decrement
  | |- keeps _ (delete_medicine _) => apply keeps_delete_medicine
  | |- keeps _ (match ?x with _ => _ end) => destruct x
  end.

Lemma keeps_dosage_val dose mid : keeps R (dosage_val dose mid).
Proof. unfold dosage_val. repeat frame_step. Qed.

(** The dispatch keeps every relation that allows its own steps. *)
Lemma keeps_take_from_stock uid mid medicine dose :
  keeps R (take_from_stock uid mid medicine dose).
Proof.
  unfold take_from_stock.
  repeat first [apply keeps_dosage_val | frame_step].
Qed.

Lemma keeps_send_reminder uid mid medicine dose unit_ :
  keeps R (send_reminder uid mid medicine dose unit_).
Proof.
  unfold send_reminder.
  repeat first [apply keeps_take_from_stock | frame_step].
Qed.

(** Logging the due event is the one step of a sweep that is not a step
    of a dispatch. *)
Hypothesis R_due :
  forall s e, is_due e = true -> R s (set_log (log s ++ [e]) s).

Lemma keeps_check_time now_user_tz r dosages slot :
  keeps R (check_time now_user_tz r dosages slot).
Proof.
  unfold check_time. destruct slot as [index t].
  destruct (time_eqb now_user_tz t).
  - apply keeps_bind; [| intro; apply keeps_send_reminder].
    intro s. apply R_due. reflexivity.
  - apply keeps_ret.
Qed.

Lemma keeps_check_medicine now_utc r : keeps R (check_medicine now_utc r).
Proof.
  unfold check_medicine.
  repeat first [apply keeps_for_each; intros; apply keeps_check_time | frame_step].
Qed.

Lemma keeps_sweep now_utc : keeps R (sweep now_utc).
Proof.
  unfold sweep.
  repeat first [apply keeps_for_each; intros; apply keeps_check_medicine | frame_step].
Qed.

End Frame.

End Rules.

(** The rule that fits the head of the computation. *)
Ltac wp_step :=
  lazymatch goal with
  | |- wp (bind _ _) _ _ => apply wp_bind
  | |- wp (ret _) _ _ => apply wp_ret
  | |- wp (raise _) _ _ => apply wp_raise
  | |- wp (try_except _ _) _ _ => apply wp_try_except
  | |- wp (try_finally _ _) _ _ => apply wp_try_finally
  | |- wp (gets _) _ _ => apply wp_gets
  | |- wp (modify _) _ _ => apply wp_modify
  | |- wp (logging _) _ _ => apply wp_logging
  | |- wp (of_option _ _) _ _ => apply wp_of_option
  | |- wp (call _) _ _ => apply wp_call
  | |- wp (io _) _ _ => apply wp_io; intro
  | |- wp (match ?x with _ => _ end) _ _ => destruct x eqn:?
  | |- match ?x with _ => _ end => destruct x eqn:?
  end; cbv beta iota.

(** * The dispatch of a due dose (send_reminder) *)

Section Dispatch.

Context {num : PyNum} {tzdata : TzData}.

(** [except Exception] lets nothing out. *)
Lemma send_reminder_returns uid mid medicine dose unit_ s :
  fst (send_reminder uid mid medicine dose unit_ s) = Ok tt.
Proof.
  unfold send_reminder, bind at 1, try_except, logging, modify.
  match goal with |- context [let (_, _) := ?body ?s1 in _] => destruct (body s1) as [[[] | e] s'] end;
    reflexivity.
Qed.

Lemma find_after_decrement mid amount (rows : list Medicine) info :
  find (fun r => medicine_id r =? mid) rows = Some info ->
  find (fun r => medicine_id r =? mid)
       (map (fun r => if medicine_id r =? mid
                      then with_remaining r (qty_minus (remaining_quantity r) amount)
                      else r) rows)
  = Some (with_remaining info (qty_minus (remaining_quantity info) amount)).
Proof.
  induction rows as [| r rest IH]; simpl; [discriminate |].
  destruct (medicine_id r =? mid) eqn:E; simpl; rewrite E.
  - intro H; injection H as ->; reflexivity.
  - exact IH.
Qed.

Lemma find_after_delete mid (rows : list Medicine) :
  find (fun r => medicine_id r =? mid)
       (filter (fun r => negb (medicine_id r =? mid)) rows) = None.
Proof.
  induction rows as [| r rest IH]; simpl; [reflexivity |].
  destruct (medicine_id r =? mid) eqn:E; simpl; [| rewrite E]; exact IH.
Qed.

(** C10. When the transport raises on the reminder, the dispatch ends
    there: the error is logged, and the tables are as they were, so the
    remaining quantity is not decremented and the record is not deleted. *)
Theorem send_failure_leaves_store uid mid medicine dose unit_ s v later :
  py_float dose = Some v ->
  faults s = true :: later ->
  send_reminder uid mid medicine dose unit_ s
  = (Ok tt,
     set_log (log s ++ [LogSending uid medicine dose unit_;
                        LogReminderError uid TelegramAPIError])
             (set_faults later s))
  /\ untouched s (snd (send_reminder uid mid medicine dose unit_ s)).
Proof.
  intros Hv Hf.
  assert (E : send_reminder uid mid medicine dose unit_ s
              = (Ok tt,
                 set_log (log s ++ [LogSending uid medicine dose unit_;
                                    LogReminderError uid TelegramAPIError])
                         (set_faults later s))).
  { cbv beta iota zeta delta
      [send_reminder bind try_except logging modify send_message of_option ret raise].
    rewrite Hv.
    rewrite io_raises with (later := later) by exact Hf.
    cbn. rewrite <- app_assoc. reflexivity. }
  split; [exact E |].
  rewrite E. repeat split.
Qed.

(** X21. A dose that [float] rejects ends the dispatch at line 41, before
    the reminder is sent: nothing is delivered, nothing is decremented,
    and the [ValueError] is logged as the error of the dispatch. *)
Theorem unparsable_dose_aborts uid mid medicine dose unit_ s :
  py_float dose = None ->
  send_reminder uid mid medicine dose unit_ s
  = (Ok tt,
     set_log (log s ++ [LogSending uid medicine dose unit_;
                        LogReminderError uid ValueError]) s).
Proof.
  intros Hv.
  cbv beta iota zeta delta
    [send_reminder bind try_except logging modify of_option ret raise].
  rewrite Hv. cbn. rewrite <- app_assoc. reflexivity.
Qed.

(** *** The text of the reminder *)

Lemma to_list_append (a b : string) :
  PyStr.to_list (a ++ b) = (PyStr.to_list a ++ PyStr.to_list b)%list.
Proof. induction a as [| c a IH]; simpl; [reflexivity | f_equal; exact IH]. Qed.

Lemma append_empty (a : string) : a ++ "" = a.
Proof. induction a as [| c a IH]; simpl; [reflexivity | f_equal; exact IH]. Qed.

Lemma append_assoc (a b c : string) : (a ++ b) ++ c = a ++ b ++ c.
Proof. induction a as [| x a IH]; simpl; [reflexivity | f_equal; exact IH]. Qed.

Lemma last_cons2 (a b : ascii) (k : string) :
  PyStr.last (String a (String b k)) = PyStr.last (String b k).
Proof. reflexivity. Qed.

(** [rstrip] takes a run of [c] off the end, and all of it. *)
Lemma rstrip_spec (c : ascii) (s : string) :
  exists n, s = PyStr.rstrip c s ++ PyStr.repeat c n
            /\ PyStr.last (PyStr.rstrip c s) <> Some c.
Proof.
  induction s as [| a rest [n [Hrest Hlast]]]; simpl.
  - exists 0%nat. split; [reflexivity | discriminate].
  - destruct (PyStr.rstrip c rest) as [| b kept] eqn:E.
    + destruct (Ascii.eqb a c) eqn:Hac.
      * apply Ascii.eqb_eq in Hac; subst a.
        exists (S n). split; [| discriminate].
        simpl in Hrest. rewrite Hrest. reflexivity.
      * exists n. split; [simpl; f_equal; exact Hrest |].
        intro H; injection H as H; subst a.
        rewrite Ascii.eqb_refl in Hac; discriminate.
    + exists n. split; [simpl; f_equal; exact Hrest |].
      rewrite last_cons2. exact Hlast.
Qed.

Lemma count_repeat (c : ascii) (n : nat) : PyStr.count c (PyStr.repeat c n) = n.
Proof.
  unfold PyStr.count, PyStr.repeat, PyStr.to_list, PyStr.of_list.
  rewrite list_ascii_of_string_of_list_ascii.
  induction n as [| n IH]; simpl; [reflexivity |].
  rewrite Ascii.eqb_refl; simpl; f_equal; exact IH.
Qed.

Lemma count_append (c : ascii) (a b : string) :
  PyStr.count c (a ++ b) = (PyStr.count c a + PyStr.count c b)%nat.
Proof.
  unfold PyStr.count. rewrite to_list_append, filter_app, length_app. reflexivity.
Qed.

Lemma send_message_delivers chat text s :
  hd false (faults s) = false ->
  send_message chat text s
  = (Ok tt, set_outbox (outbox s ++ [(chat, text)])%list (set_faults (tl (faults s)) s)).
Proof.
  intro H. unfold send_message, bind, modify, io.
  destruct s as [u m n f o l fs]; simpl in *.
  destruct fs as [| [|] later]; simpl in *; try discriminate; reflexivity.
Qed.

Lemma outbox_grows_refl s : outbox_grows s s.
Proof. exists []. symmetry; apply app_nil_r. Qed.

Lemma outbox_grows_trans a b c :
  outbox_grows a b -> outbox_grows b c -> outbox_grows a c.
Proof.
  intros [m1 H1] [m2 H2]. exists (m1 ++ m2)%list.
  rewrite H2, H1, app_assoc. reflexivity.
Qed.

Lemma take_from_stock_outbox uid mid medicine dose :
  keeps outbox_grows (take_from_stock uid mid medicine dose).
Proof.
  apply keeps_take_from_stock;
    [exact outbox_grows_refl | exact outbox_grows_trans | ..];
    intros; try (exists []; symmetry; apply app_nil_r).
  eexists; reflexivity.
Qed.

(** C7. The reminder states the dose, the unit and the name; a dose
    without a point is shown as it is, and from a dose with a point the
    zeros at the end and then the point at the end are taken off
    ("1.50" is shown as "1.5", "2.0" as "2"); and this is the text
    Telegram receives when the reminder goes through. *)
Theorem reminder_text_states_trimmed_dose dose unit_ medicine :
  reminder_message dose unit_ medicine
  = "⏰ Напоминание! Примите " ++ dosage_str dose ++ " " ++ PyStr.fmt unit_
      ++ " " ++ PyStr.fmt medicine ++ " 💊"
  /\ (PyStr.contains "." dose = false -> dosage_str dose = dose)
  /\ (PyStr.contains "." dose = true ->
      exists dots zeros,
        dose = dosage_str dose ++ PyStr.repeat "." dots ++ PyStr.repeat "0" zeros
        /\ PyStr.last (dosage_str dose) <> Some "."%char
        /\ (dots = 0%nat -> PyStr.last (dosage_str dose) <> Some "0"%char)
        /\ (PyStr.count "." dose <= 1 -> dots <= 1)%nat)
  /\ dosage_str "1.50" = "1.5"
  /\ dosage_str "2.0" = "2"
  /\ (forall uid mid s v,
        py_float dose = Some v ->
        hd false (faults s) = false ->
        exists more,
          outbox (snd (send_reminder uid mid medicine dose unit_ s))
          = (outbox s ++ (uid, reminder_message dose unit_ medicine) :: more)%list).
Proof.
  split; [reflexivity |].
  split; [intro H; unfold dosage_str; rewrite H; reflexivity |].
  split.
  { intro H. unfold dosage_str. rewrite H.
    destruct (rstrip_spec "0" dose) as [zeros [Hz Hlz]].
    destruct (rstrip_spec "." (PyStr.rstrip "0" dose)) as [dots [Hd Hld]].
    exists dots, zeros. repeat split.
    - rewrite <- append_assoc, <- Hd. exact Hz.
    - exact Hld.
    - intros ->. simpl in Hd. rewrite append_empty in Hd.
      rewrite <- Hd. exact Hlz.
    - intro Hc. rewrite Hz, Hd in Hc.
      rewrite !count_append, count_repeat in Hc. lia. }
  split; [reflexivity |].
  split; [reflexivity |].
  intros uid mid s v Hv Hf.
  cbv beta iota zeta delta
    [send_reminder bind try_except logging modify of_option ret raise].
  rewrite Hv.
  rewrite send_message_delivers by exact Hf.
  match goal with
  | |- context [take_from_stock uid mid medicine dose ?s1] =>
      pose proof (take_from_stock_outbox uid mid medicine dose s1) as [more Hmore];
      destruct (take_from_stock uid mid medicine dose s1) as [[[] | e] s2]
  end; simpl in *; rewrite Hmore, <- app_assoc; eexists; reflexivity.
Qed.

(** *** Depletion *)

(** C3, as the code has it.  With every call going through: when the
    record is found with a positive remaining quantity and the fetch
    after the decrement shows a quantity [<= 0], the depletion warning
    follows the reminder and the record is gone from the table; when the
    record is found with a remaining quantity that is already [<= 0], the
    reminder is all that is sent, the table is left as it is, the record
    included, and the log says after the reminder that the record was
    already used up. *)
Theorem depletion_deletes_only_after_decrement uid mid medicine dose unit_ s info v :
  faults s = [] ->
  py_float dose = Some v ->
  find (has_id mid) (medicines s) = Some info ->
  (qty_gt0 (remaining_quantity info) = Some true ->
   qty_le0 (qty_minus (remaining_quantity info) (inr v)) = Some true ->
   find (has_id mid) (medicines (snd (send_reminder uid mid medicine dose unit_ s))) = None
   /\ outbox (snd (send_reminder uid mid medicine dose unit_ s))
      = (outbox s ++ [(uid, reminder_message dose unit_ medicine);
                      (uid, depletion_message medicine)])%list
   /\ log (snd (send_reminder uid mid medicine dose unit_ s))
      = (log s ++ [LogSending uid medicine dose unit_; LogSent uid])%list)
  /\ (qty_gt0 (remaining_quantity info) = Some false ->
      qty_le0 (remaining_quantity info) = Some true ->
      medicines (snd (send_reminder uid mid medicine dose unit_ s)) = medicines s
      /\ find (has_id mid) (medicines (snd (send_reminder uid mid medicine dose unit_ s)))
         = Some info
      /\ outbox (snd (send_reminder uid mid medicine dose unit_ s))
         = (outbox s ++ [(uid, reminder_message dose unit_ medicine)])%list
      /\ log (snd (send_reminder uid mid medicine dose unit_ s))
         = (log s ++ [LogSending uid medicine dose unit_; LogSent uid;
                      LogAlreadyEmpty medicine mid])%list).
Proof.
  intros Hf Hv Hfind.
  destruct s as [u rows n f o l fs]; simpl in Hf, Hfind; subst fs.
  unfold has_id in *.
  split; intros Hpos Hle.
  - cbv beta iota zeta delta
      [send_reminder take_from_stock dosage_val bind try_except logging modify
       send_message get_medicine_by_id decrement_medicine_quantity delete_medicine
       io gets of_option ret raise].
    rewrite Hv. cbn. rewrite Hfind. cbn. rewrite Hpos. cbn.
    rewrite (find_after_decrement mid (inr v) rows info Hfind). cbn.
    rewrite Hle. cbn.
    split; [apply find_after_delete |].
    split; rewrite <- app_assoc; reflexivity.
  - cbv beta iota zeta delta
      [send_reminder take_from_stock dosage_val bind try_except logging modify
       send_message get_medicine_by_id decrement_medicine_quantity delete_medicine
       io gets of_option ret raise].
    rewrite Hv. cbn. rewrite Hfind. cbn. rewrite Hpos. cbn. rewrite Hle. cbn.
    split; [reflexivity |]. split; [exact Hfind |]. split; [reflexivity |].
    rewrite <- !app_assoc. reflexivity.
Qed.

End Dispatch.

(** * Calls that fail *)

Section Calls.

Context {num : PyNum} {tzdata : TzData}.

Lemma all_through_refl s : all_through s s.
Proof. exists []. split; reflexivity. Qed.

Lemma all_through_same s s' : faults s' = faults s -> all_through s s'.
Proof. intro H. exists []. rewrite H. split; reflexivity. Qed.

Lemma all_through_trans a b c : all_through a b -> all_through b c -> all_through a c.
Proof.
  intros [ok1 [E1 H1]] [ok2 [E2 H2]]. exists (ok1 ++ ok2)%list.
  split; [rewrite E1, E2; apply app_assoc |].
  rewrite forallb_app, H1, H2. reflexivity.
Qed.

Lemma then_one_failed a b c : all_through a b -> one_failed b c -> one_failed a c.
Proof.
  intros [ok1 [E1 H1]] [ok2 [E2 H2]]. exists (ok1 ++ ok2)%list.
  split; [rewrite E1, E2; apply app_assoc |].
  rewrite forallb_app, H1, H2. reflexivity.
Qed.

Lemma one_failed_then a b c : one_failed a b -> faults c = faults b -> one_failed a c.
Proof. intros [ok [E H]] Hc. exists ok. rewrite Hc. auto. Qed.

(** A script is not both: the call that failed would be one of those that
    went through. *)
Lemma not_both s s' : all_through s s' -> one_failed s s' -> False.
Proof.
  intros [ok1 [E1 H1]] [ok2 [E2 H2]].
  assert (E : ok1 = (ok2 ++ [true])%list).
  { apply (app_inv_tail (faults s')). rewrite <- app_assoc. simpl. congruence. }
  subst ok1. rewrite forallb_app in H1. simpl in H1.
  rewrite andb_false_r in H1. discriminate.
Qed.

Lemma all_through_nil s s' : all_through s s' -> faults s = [] -> faults s' = [].
Proof.
  intros [ok [E _]] H. rewrite H in E. symmetry in E.
  apply app_eq_nil in E. apply E.
Qed.

Lemma one_failed_nil s s' : one_failed s s' -> faults s <> [].
Proof.
  intros [ok [E _]] H. rewrite H in E. symmetry in E.
  apply app_eq_nil in E. destruct E as [_ E]. discriminate.
Qed.

Lemma accounts_ret {A} (a : A) : accounts (ret a).
Proof. intro s. apply all_through_refl. Qed.

Lemma accounts_gets {A} (f : State -> A) : accounts (gets f).
Proof. intro s. apply all_through_refl. Qed.

Lemma accounts_modify (f : State -> State) :
  (forall s, faults (f s) = faults s) -> accounts (modify f).
Proof. intros H s. apply all_through_same, H. Qed.

Lemma accounts_logging (e : LogEntry) : accounts (logging e).
Proof. apply accounts_modify. reflexivity. Qed.

Lemma accounts_of_option {A} (e : exn) (o : option A) :
  ~ call_error e -> accounts (of_option e o).
Proof.
  intros He s. destruct o; simpl; [apply all_through_refl |].
  right. split; [apply all_through_refl | exact He].
Qed.

Lemma accounts_io (e : exn) : call_error e -> accounts (io e).
Proof.
  intros He s. unfold io. destruct (faults s) as [| [|] later] eqn:E.
  - apply all_through_refl.
  - left. split; [| exact He]. exists []. split; [exact E | reflexivity].
  - exists [false]. split; [exact E | reflexivity].
Qed.

Lemma accounts_bind {A B} (m : M A) (k : A -> M B) :
  accounts m -> (forall a, accounts (k a)) -> accounts (bind m k).
Proof.
  intros Hm Hk s. unfold bind. specialize (Hm s).
  destruct (m s) as [[a | e] s1]; [| exact Hm].
  specialize (Hk a s1). destruct (k a s1) as [[b | e] s2].
  - eapply all_through_trans; eassumption.
  - destruct Hk as [[H He] | [H He]].
    + left. split; [eapply then_one_failed; eassumption | exact He].
    + right. split; [eapply all_through_trans; eassumption | exact He].
Qed.

Lemma not_call_error_value : ~ call_error ValueError.
Proof. intros [H | H]; discriminate. Qed.

Lemma not_call_error_type : ~ call_error TypeError.
Proof. intros [H | H]; discriminate. Qed.

Lemma accounts_dosage_val dose mid : accounts (dosage_val dose mid).
Proof.
  intro s. unfold dosage_val, try_except, bind, of_option.
  destruct (py_float dose); simpl; [apply all_through_refl |].
  apply all_through_same. reflexivity.
Qed.

Ltac accounts_step :=
  lazymatch goal with
  | |- accounts (bind _ _) => apply accounts_bind; [| intro]
  | |- accounts (ret _) => apply accounts_ret
  | |- accounts (gets _) => apply accounts_gets
  | |- accounts (logging _) => apply accounts_logging
  | |- accounts (dosage_val _ _) => apply accounts_dosage_val
  | |- accounts (of_option ValueError _) =>
      apply accounts_of_option, not_call_error_value
  | |- accounts (of_option TypeError _) =>
      apply accounts_of_option, not_call_error_type
  | |- accounts (io TelegramAPIError) => apply accounts_io; left; reflexivity
  | |- accounts (io DatabaseError) => apply accounts_io; right; reflexivity
  | |- accounts (modify _) => apply accounts_modify; reflexivity
  | |- accounts (match ?x with _ => _ end) => destruct x
  end.

Lemma accounts_take_from_stock uid mid medicine dose :
  accounts (take_from_stock uid mid medicine dose).
Proof.
  unfold take_from_stock, get_medicine_by_id, decrement_medicine_quantity,
    delete_medicine, send_message.
  repeat accounts_step.
Qed.

(** The dispatch returns; when the last call it made failed, or the dose
    is no number, the last line of its log is the error. *)
Lemma send_reminder_logs_failure uid mid medicine dose unit_ s :
  exists s',
    send_reminder uid mid medicine dose unit_ s = (Ok tt, s')
    /\ (all_through s s' \/ one_failed s s')
    /\ (one_failed s s' ->
        exists e before,
          call_error e /\ log s' = (before ++ [LogReminderError uid e])%list)
    /\ (py_float dose = None ->
        exists before, log s' = (before ++ [LogReminderError uid ValueError])%list).
Proof.
  unfold send_reminder.
  match goal with
  | |- context [try_except ?body ?h] =>
      assert (Hb : accounts body);
      [ unfold send_message; repeat accounts_step; apply accounts_take_from_stock
      | set (attempt := body) in * ]
  end.
  unfold bind at 1, logging at 1, modify, try_except.
  set (s1 := set_log _ s).
  assert (H1 : faults s1 = faults s) by reflexivity.
  pose proof (Hb s1) as Hs.
  assert (Hnone : py_float dose = None ->
                  attempt s1 = (Raise ValueError, s1)).
  { intro Hv. unfold attempt, bind, of_option. rewrite Hv. reflexivity. }
  destruct (attempt s1) as [[[] | e] s2] eqn:Hrun.
  - exists s2. split; [reflexivity |].
    assert (Ha : all_through s s2).
    { destruct Hs as [ok [E H]]. exists ok. rewrite <- H1. auto. }
    split; [left; exact Ha |]. split.
    + intro Hf. destruct (not_both _ _ Ha Hf).
    + intro Hv. specialize (Hnone Hv). discriminate.
  - eexists. split; [reflexivity |].
    destruct Hs as [[Hf He] | [Ha He]].
    + assert (Hf' : one_failed s (set_log (log s2 ++ [LogReminderError uid e]) s2)).
      { destruct Hf as [ok [E H]]. exists ok. rewrite <- H1. auto. }
      split; [right; exact Hf' |]. split.
      * intros _. exists e, (log s2). split; [exact He | reflexivity].
      * intro Hv. specialize (Hnone Hv). injection Hnone as -> _.
        exists (log s2). reflexivity.
    + assert (Ha' : all_through s (set_log (log s2 ++ [LogReminderError uid e]) s2)).
      { destruct Ha as [ok [E H]]. exists ok. rewrite <- H1. auto. }
      split; [left; exact Ha' |]. split.
      * intro Hf. destruct (not_both _ _ Ha' Hf).
      * intro Hv. specialize (Hnone Hv). injection Hnone as -> _.
        exists (log s2). reflexivity.
Qed.

(** With an empty script every call goes through, and the script stays
    empty. *)
Lemma send_reminder_script_stays_empty uid mid medicine dose unit_ s :
  faults s = [] -> faults (snd (send_reminder uid mid medicine dose unit_ s)) = [].
Proof.
  intro Hf.
  destruct (send_reminder_logs_failure uid mid medicine dose unit_ s)
    as [s' [E [[Ha | Ho] _]]]; rewrite E; simpl.
  - exact (all_through_nil _ _ Ha Hf).
  - destruct (one_failed_nil _ _ Ho Hf).
Qed.

End Calls.

(** * Times as they are written *)

Section TimeText.

Lemma digit_char_spec d :
  0 <= d <= 9 ->
  PyStr.digit_of (digit_char d) = Some d
  /\ Ascii.eqb (digit_char d) ":" = false.
Proof.
  intro H.
  assert (C : d = 0 \/ d = 1 \/ d = 2 \/ d = 3 \/ d = 4 \/ d = 5 \/ d = 6 \/ d = 7
              \/ d = 8 \/ d = 9) by lia.
  repeat (destruct C as [-> | C]; [split; reflexivity |]).
  subst d. split; reflexivity.
Qed.

Lemma two_digits_value n :
  0 <= n <= 59 ->
  0 <= n / 10 <= 5 /\ 0 <= n mod 10 <= 9 /\ 10 * (n / 10) + n mod 10 = n.
Proof.
  intro H. pose proof (Z.div_mod n 10 ltac:(lia)).
  pose proof (Z.mod_pos_bound n 10 ltac:(lia)).
  assert (0 <= n / 10) by (apply Z.div_pos; lia).
  assert (n / 10 < 6) by (apply Z.div_lt_upper_bound; lia).
  lia.
Qed.

Lemma split_colon a b c d :
  Ascii.eqb a ":" = false -> Ascii.eqb b ":" = false ->
  Ascii.eqb c ":" = false -> Ascii.eqb d ":" = false ->
  PyStr.split ":" (String a (String b (String ":" (String c (String d EmptyString)))))
  = [String a (String b EmptyString); String c (String d EmptyString)]
  /\ PyStr.split ":" (String a (String ":" (String c (String d EmptyString))))
     = [String a EmptyString; String c (String d EmptyString)].
Proof.
  intros Ha Hb Hc Hd. cbn [PyStr.split]. rewrite Ha, Hb, Hc, Hd.
  change (Ascii.eqb ":" ":") with true. cbn iota. split; reflexivity.
Qed.

(** [strptime] reads a time as it is written. *)
Lemma strptime_denotes piece t : denotes piece t -> strptime_HM piece = Some t.
Proof.
  destruct t as [h m]. intros [[Hh Hm] Hpiece]. cbn [fst snd] in *.
  assert (Hh' : 0 <= h <= 59) by lia.
  destruct (two_digits_value h Hh') as [Ha [Hb Ehour]].
  destruct (two_digits_value m Hm) as [Hc [Hd Eminute]].
  destruct (digit_char_spec (h / 10) ltac:(lia)) as [Da Na].
  destruct (digit_char_spec (h mod 10) Hb) as [Db Nb].
  destruct (digit_char_spec (m / 10) ltac:(lia)) as [Dc Nc].
  destruct (digit_char_spec (m mod 10) Hd) as [Dd Nd].
  assert (Eminute_field :
            minute_field (String (digit_char (m / 10))
                                 (String (digit_char (m mod 10)) EmptyString)) = Some m).
  { unfold minute_field. cbn [PyStr.to_list list_ascii_of_string map].
    rewrite Dc, Dd.
    assert (L : (m / 10 <=? 5) = true) by (apply Z.leb_le; lia).
    rewrite L, Eminute. reflexivity. }
  unfold strptime_HM.
  destruct Hpiece as [-> | [H9 ->]]; unfold two_digits, one_digit; cbn [append].
  - rewrite (proj1 (split_colon _ _ _ _ Na Nb Nc Nd)).
    rewrite Eminute_field.
    unfold hour_field. cbn [PyStr.to_list list_ascii_of_string map].
    rewrite Da, Db.
    assert (L : (10 * (h / 10) + h mod 10 <=? 23) = true) by (apply Z.leb_le; lia).
    rewrite L, Ehour. reflexivity.
  - destruct (digit_char_spec h ltac:(lia)) as [Dh Nh].
    rewrite (proj2 (split_colon _ (digit_char 0) _ _ Nh eq_refl Nc Nd)).
    rewrite Eminute_field.
    unfold hour_field. cbn [PyStr.to_list list_ascii_of_string map].
    rewrite Dh. reflexivity.
Qed.

(** Line 83 of bot.py reads a list of times as it is written. *)
Lemma parse_written text times :
  written text times -> parse_reminder_times text = Some times.
Proof.
  unfold written, parse_reminder_times.
  induction 1 as [| piece t pieces times Hd _ IH]; [reflexivity |].
  cbn [parse_all]. rewrite (strptime_denotes _ _ Hd), IH. reflexivity.
Qed.

End TimeText.

(** * The sweep (scheduler_setup) *)

Section Sweep.

Context {num : PyNum} {tzdata : TzData}.

Lemma get_user_timezone_returns uid s :
  hd false (faults s) = false ->
  get_user_timezone uid s
  = (Ok (lookup uid (users s)), set_faults (tl (faults s)) s).
Proof.
  intro H. unfold get_user_timezone, bind, gets, io.
  destruct s as [u m n f o l fs]; simpl in *.
  destruct fs as [| [|] later]; simpl in *; try discriminate; reflexivity.
Qed.

Lemma same_due_refl s : same_due s s.
Proof. reflexivity. Qed.

Lemma same_due_trans a b c : same_due a b -> same_due b c -> same_due a c.
Proof. unfold same_due; congruence. Qed.

Lemma due_events_app l1 l2 :
  due_events (l1 ++ l2) = (due_events l1 ++ due_events l2)%list.
Proof. apply filter_app. Qed.

Lemma send_reminder_same_due uid mid medicine dose unit_ :
  keeps same_due (send_reminder uid mid medicine dose unit_).
Proof.
  apply keeps_send_reminder;
    [exact same_due_refl | exact same_due_trans | ..];
    intros; try reflexivity.
  unfold same_due; simpl. rewrite due_events_app; simpl.
  rewrite H; simpl. apply app_nil_r.
Qed.

(** One reminder time: no exception, and one due event if it is the
    local time. *)
Lemma check_time_due now_user_tz r slot s :
  exists s',
    check_time now_user_tz r (doseAmounts r) slot s = (Ok tt, s')
    /\ due_events (log s')
       = (due_events (log s)
          ++ if time_eqb now_user_tz (snd slot) then [due_event r slot] else [])%list.
Proof.
  destruct slot as [index t]. unfold check_time. simpl.
  destruct (time_eqb now_user_tz t) eqn:E.
  - unfold bind, logging, modify.
    match goal with
    | |- context [send_reminder ?a ?b ?c ?d ?e ?s1] =>
        pose proof (send_reminder_returns a b c d e s1) as Hret;
        pose proof (send_reminder_same_due a b c d e s1) as Hdue;
        destruct (send_reminder a b c d e s1) as [res s2]
    end.
    simpl in Hret, Hdue. subst res. exists s2. split; [reflexivity |].
    rewrite Hdue. simpl. rewrite due_events_app. reflexivity.
  - exists s. split; [reflexivity | symmetry; apply app_nil_r].
Qed.

(** The loop over the reminder times of a record ends normally and logs
    one due event for each time that equals the local time. *)
Lemma check_times_due now_user_tz r slots :
  forall s,
    fst (for_each slots (check_time now_user_tz r (doseAmounts r)) s) = Ok tt
    /\ due_events (log (snd (for_each slots (check_time now_user_tz r (doseAmounts r)) s)))
       = (due_events (log s)
          ++ map (due_event r)
                 (filter (fun slot => time_eqb now_user_tz (snd slot)) slots))%list.
Proof.
  induction slots as [| slot rest IH]; intro s; simpl.
  - split; [reflexivity | symmetry; apply app_nil_r].
  - destruct (check_time_due now_user_tz r slot s) as [s' [Hrun Hdue]].
    rewrite (bind_returns _ _ _ _ _ Hrun).
    destruct (IH s') as [IH1 IH2]. split; [exact IH1 |].
    rewrite IH2, Hdue.
    destruct (time_eqb now_user_tz (snd slot)); simpl;
      rewrite <- app_assoc; reflexivity.
Qed.

Lemma in_enumerate {A} (l : list A) i x :
  In (i, x) (enumerate l) <-> nth_error l i = Some x.
Proof.
  unfold enumerate.
  assert (G : forall k, In (i, x) (combine (seq k (List.length l)) l)
                        <-> (k <= i)%nat /\ nth_error l (i - k) = Some x).
  { induction l as [| y rest IH]; intro k; simpl.
    - split; [tauto |]. intros [_ H]. destruct (i - k)%nat; discriminate.
    - rewrite IH. split.
      + intros [H | [Hk H]].
        * injection H as -> ->. split; [lia |]. rewrite Nat.sub_diag. reflexivity.
        * split; [lia |]. replace (i - k)%nat with (S (i - S k)) by lia. exact H.
      + intros [Hk H]. destruct (i - k)%nat as [| j] eqn:E.
        * left. injection H as ->. f_equal. lia.
        * right. split; [lia |]. replace (i - S k)%nat with j by lia. exact H. }
  rewrite G, Nat.sub_0_r. split; [tauto | intro; split; [lia | assumption]].
Qed.

Lemma time_eqb_eq a b : time_eqb a b = true <-> a = b.
Proof.
  destruct a as [h m], b as [h' m']; unfold time_eqb; simpl.
  rewrite andb_true_iff, !Z.eqb_eq. split; [intros [-> ->]; reflexivity |].
  intro H; injection H as -> ->; auto.
Qed.

(** *** Due events and their dispatch *)

Lemma bind_agree {A B} (m m' : M A) (k k' : A -> M B) s :
  m s = m' s ->
  (forall a s1, m' s = (Ok a, s1) -> k a s1 = k' a s1) ->
  bind m k s = bind m' k' s.
Proof.
  unfold bind. intros -> H.
  destruct (m' s) as [[a | e] s1]; [apply H; reflexivity | reflexivity].
Qed.

(** The loop over the reminder times does nothing for a time that is not
    the local time, and dispatches the due event of each one that is. *)
Lemma check_times_dispatch now_user_tz r slots :
  forall s,
    for_each slots (check_time now_user_tz r (doseAmounts r)) s
    = for_each (map (emitted r)
                    (filter (fun slot => time_eqb now_user_tz (snd slot)) slots))
               dispatch s.
Proof.
  induction slots as [| [i t] rest IH]; intro s; [reflexivity |].
  cbn [for_each filter snd].
  destruct (time_eqb now_user_tz t) eqn:E.
  - cbn [map for_each]. apply bind_agree.
    + unfold check_time. rewrite E. reflexivity.
    + intros _ s1 _. apply IH.
  - assert (Hc : check_time now_user_tz r (doseAmounts r) (i, t) = ret tt)
      by (unfold check_time; rewrite E; reflexivity).
    rewrite Hc. apply IH.
Qed.

Lemma check_medicine_runs now_utc r s zone_name zone times :
  lookup (user_id r) (users s) = Some zone_name ->
  zone_name <> "" ->
  pytz_timezone zone_name = Some zone ->
  parse_reminder_times (reminder_time r) = Some times ->
  hd false (faults s) = false ->
  check_medicine now_utc r s
  = for_each (enumerate times)
             (check_time (local_time (zone now_utc) now_utc) r (doseAmounts r))
             (set_faults (tl (faults s)) s).
Proof.
  intros Hu Hne Hz Hp Hf.
  unfold check_medicine.
  rewrite (bind_returns _ _ _ _ _ (get_user_timezone_returns _ _ Hf)).
  rewrite Hu. destruct zone_name as [| c rest]; [exfalso; apply Hne; reflexivity |].
  unfold bind at 1, of_option at 1. rewrite Hz. cbn [ret].
  unfold bind at 1, of_option at 1. rewrite Hp. cbn [ret].
  reflexivity.
Qed.

Lemma for_each_inv {A} (I : State -> Prop) (l : list A) (body : A -> M unit) :
  (forall x s, I s -> I (snd (body x s))) ->
  forall s, I s -> I (snd (for_each l body s)).
Proof.
  intro H. induction l as [| x rest IH]; intros s Hs; [exact Hs |].
  cbn [for_each]. unfold bind. specialize (H x s Hs).
  destruct (body x s) as [[[] | e] s1]; simpl in *; [apply IH, H | exact H].
Qed.

Lemma for_each_returns {A} (l : list A) (body : A -> M unit) :
  (forall x s, fst (body x s) = Ok tt) ->
  forall s, fst (for_each l body s) = Ok tt.
Proof.
  intro H. induction l as [| x rest IH]; intro s; [reflexivity |].
  cbn [for_each]. unfold bind. specialize (H x s).
  destruct (body x s) as [[[] | e] s1]; simpl in *; [apply IH | discriminate].
Qed.

Lemma dispatch_returns d s : fst (dispatch d s) = Ok tt.
Proof. unfold dispatch, bind, logging, modify. apply send_reminder_returns. Qed.

Lemma dispatch_keeps_users d s : users (snd (dispatch d s)) = users s.
Proof.
  unfold dispatch, bind, logging, modify.
  match goal with
  | |- users (snd (send_reminder ?a ?b ?c ?e ?f ?s1)) = _ =>
      change (users s) with (users s1);
      apply (keeps_send_reminder (fun s s' => users s' = users s))
  end; intros; try reflexivity.
  congruence.
Qed.

Lemma dispatch_script_stays_empty d s :
  faults s = [] -> faults (snd (dispatch d s)) = [].
Proof.
  intro H. unfold dispatch, bind, logging, modify.
  apply send_reminder_script_stays_empty. exact H.
Qed.

Lemma dispatch_due_events d s :
  due_events (log (snd (dispatch d s)))
  = (due_events (log s)
     ++ [LogDue (due_owner d) (due_name d) (due_time d) (due_dose d) (due_unit d)])%list.
Proof.
  unfold dispatch, bind, logging, modify.
  match goal with
  | |- due_events (log (snd (send_reminder ?a ?b ?c ?e ?f ?s1))) = _ =>
      rewrite (send_reminder_same_due a b c e f s1)
  end.
  simpl. apply due_events_app.
Qed.

Lemma dispatches_due_events r slots :
  forall s,
    due_events (log (snd (for_each (map (emitted r) slots) dispatch s)))
    = (due_events (log s) ++ map (due_event r) slots)%list.
Proof.
  induction slots as [| slot rest IH]; intro s; simpl.
  - symmetry. apply app_nil_r.
  - unfold bind.
    pose proof (dispatch_returns (emitted r slot) s) as Hr.
    pose proof (dispatch_due_events (emitted r slot) s) as Hd.
    destruct (dispatch (emitted r slot) s) as [[[] | e] s1]; simpl in *;
      [| discriminate].
    rewrite IH, Hd, <- app_assoc. reflexivity.
Qed.

Lemma script_empty s : faults s = [] -> set_faults (tl (faults s)) s = s.
Proof. destruct s as [u m n f o l fs]. simpl. intros ->. reflexivity. Qed.

(** The records of a sweep, with every call going through. *)
Lemma sweep_records now_utc s0 (zone_of : Medicine -> instant -> Z)
    (times_of : Medicine -> list time_of_day) (rows : list Medicine) :
  (forall r, In r rows ->
     exists zone_name,
       lookup (user_id r) (users s0) = Some zone_name
       /\ zone_name <> ""
       /\ pytz_timezone zone_name = Some (zone_of r)
       /\ parse_reminder_times (reminder_time r) = Some (times_of r)) ->
  forall s,
    faults s = [] -> users s = users s0 ->
    for_each rows (check_medicine now_utc) s
    = for_each rows
        (fun r => for_each (due_now (local_time (zone_of r now_utc) now_utc) r (times_of r))
                           dispatch) s
    /\ fst (for_each rows (check_medicine now_utc) s) = Ok tt
    /\ due_events (log (snd (for_each rows (check_medicine now_utc) s)))
       = (due_events (log s)
          ++ flat_map (fun r => map (due_event r)
                                    (matching (local_time (zone_of r now_utc) now_utc)
                                              (times_of r))) rows)%list.
Proof.
  induction rows as [| r rows IH]; intros Hrows s Hf Hu.
  - split; [reflexivity |]. split; [reflexivity |]. symmetry. apply app_nil_r.
  - destruct (Hrows r (or_introl eq_refl)) as [zone_name [Hz [Hne [Hp Ht]]]].
    rewrite <- Hu in Hz.
    assert (Hhd : hd false (faults s) = false) by (rewrite Hf; reflexivity).
    pose proof (check_medicine_runs now_utc r s zone_name (zone_of r) (times_of r)
                  Hz Hne Hp Ht Hhd) as Hrun.
    rewrite (script_empty s Hf), check_times_dispatch in Hrun.
    fold (matching (local_time (zone_of r now_utc) now_utc) (times_of r)) in Hrun.
    fold (due_now (local_time (zone_of r now_utc) now_utc) r (times_of r)) in Hrun.
    set (due := due_now (local_time (zone_of r now_utc) now_utc) r (times_of r)) in *.
    assert (Hok : fst (for_each due dispatch s) = Ok tt)
      by (apply for_each_returns; intros; apply dispatch_returns).
    assert (Hf1 : faults (snd (for_each due dispatch s)) = []).
    { apply (for_each_inv (fun st => faults st = [])); [| exact Hf].
      intros d st. apply dispatch_script_stays_empty. }
    assert (Hu1 : users (snd (for_each due dispatch s)) = users s0).
    { apply (for_each_inv (fun st => users st = users s0)); [| exact Hu].
      intros d st E. rewrite dispatch_keeps_users. exact E. }
    assert (Hd1 : due_events (log (snd (for_each due dispatch s)))
                  = (due_events (log s)
                     ++ map (due_event r)
                            (matching (local_time (zone_of r now_utc) now_utc)
                                      (times_of r)))%list)
      by apply dispatches_due_events.
    assert (Hrest : forall r0, In r0 rows ->
              exists zone_name0,
                lookup (user_id r0) (users s0) = Some zone_name0
                /\ zone_name0 <> ""
                /\ pytz_timezone zone_name0 = Some (zone_of r0)
                /\ parse_reminder_times (reminder_time r0) = Some (times_of r0))
      by (intros r0 H0; apply Hrows; right; exact H0).
    cbn [for_each flat_map].
    split; [| split].
    + apply bind_agree; [exact Hrun |].
      intros [] s1 E. change (for_each due dispatch s = (Ok tt, s1)) in E.
      rewrite E in Hf1, Hu1. apply (IH Hrest s1 Hf1 Hu1).
    + unfold bind. rewrite Hrun.
      destruct (for_each due dispatch s) as [[[] | e] s1]; simpl in *;
        [| discriminate].
      apply IH; assumption.
    + unfold bind. rewrite Hrun.
      destruct (for_each due dispatch s) as [[[] | e] s1]; simpl in *;
        [| discriminate].
      destruct (IH Hrest s1 Hf1 Hu1) as [_ [_ IH3]].
      rewrite IH3, Hd1, <- app_assoc. reflexivity.
Qed.

(** C1. A record whose owner has a timezone the zone table knows, and
    whose reminder times line 83 parses, is handled without raising: what
    the sweep does for it is to log and dispatch, in the order of the
    reminder times, the due event of each index whose reminder time has
    the hour and the minute of the sweep instant in the owner's zone, and
    nothing for the other indices.  A due event carries the key, the owner,
    the name and the unit of the record and the dose of its index.  With
    every call going through, a whole sweep is the line it logs followed
    by these dispatches, record after record.  Line 83 reads the times as
    they are written. *)
Theorem due_exactly_at_local_minute :
  (forall now_utc r s zone_name zone times,
      lookup (user_id r) (users s) = Some zone_name ->
      zone_name <> "" ->
      pytz_timezone zone_name = Some zone ->
      parse_reminder_times (reminder_time r) = Some times ->
      hd false (faults s) = false ->
      check_medicine now_utc r s
      = for_each (due_now (local_time (zone now_utc) now_utc) r times) dispatch
                 (set_faults (tl (faults s)) s)
      /\ fst (check_medicine now_utc r s) = Ok tt
      /\ due_events (log (snd (check_medicine now_utc r s)))
         = (due_events (log s)
            ++ map (due_event r)
                   (matching (local_time (zone now_utc) now_utc) times))%list)
  /\ (forall now_utc s (zone_of : Medicine -> instant -> Z)
             (times_of : Medicine -> list time_of_day),
        faults s = [] ->
        (forall r, In r (medicines s) ->
           exists zone_name,
             lookup (user_id r) (users s) = Some zone_name
             /\ zone_name <> ""
             /\ pytz_timezone zone_name = Some (zone_of r)
             /\ parse_reminder_times (reminder_time r) = Some (times_of r)) ->
        sweep now_utc s
        = bind (logging (LogSweep now_utc (List.length (medicines s))))
               (fun _ =>
                  for_each (medicines s)
                    (fun r =>
                       for_each (due_now (local_time (zone_of r now_utc) now_utc) r
                                         (times_of r))
                                dispatch)) s
        /\ fst (sweep now_utc s) = Ok tt
        /\ due_events (log (snd (sweep now_utc s)))
           = (due_events (log s)
              ++ flat_map (fun r => map (due_event r)
                                        (matching (local_time (zone_of r now_utc) now_utc)
                                                  (times_of r)))
                          (medicines s))%list)
  /\ (forall text times, written text times -> parse_reminder_times text = Some times)
  /\ (forall local times i t,
        In (i, t) (matching local times)
        <-> nth_error times i = Some t /\ fst t = fst local /\ snd t = snd local)
  /\ (forall r i t,
        (i < List.length (doseAmounts r))%nat ->
        emitted r (i, t)
        = mkDueEvent (medicine_id r) (user_id r) (name r) t
                     (nth i (doseAmounts r) "") (dosage_unit r)).
Proof.
  split; [| split; [| split; [| split]]].
  - intros now_utc r s zone_name zone times Hu Hne Hz Hp Hf.
    pose proof (check_medicine_runs now_utc r s zone_name zone times Hu Hne Hz Hp Hf)
      as Hrun.
    destruct (check_times_due (local_time (zone now_utc) now_utc) r (enumerate times)
                (set_faults (tl (faults s)) s)) as [H1 H2].
    split; [| split].
    + rewrite Hrun. apply check_times_dispatch.
    + rewrite Hrun. exact H1.
    + rewrite Hrun. exact H2.
  - intros now_utc s zone_of times_of Hf Hrows.
    assert (Hlist : get_all_medicines_with_time s = (Ok (medicines s), s)).
    { unfold get_all_medicines_with_time, bind, io, gets. rewrite Hf. reflexivity. }
    unfold sweep. rewrite (bind_returns _ _ _ _ _ Hlist).
    set (s1 := set_log (log s ++ [LogSweep now_utc (List.length (medicines s))]) s).
    destruct (sweep_records now_utc s zone_of times_of (medicines s) Hrows s1 Hf eq_refl)
      as [H1 [H2 H3]].
    change (bind (logging (LogSweep now_utc (List.length (medicines s))))
                 (fun _ => for_each (medicines s) (check_medicine now_utc)) s)
      with (for_each (medicines s) (check_medicine now_utc) s1).
    split; [exact H1 |]. split; [exact H2 |].
    rewrite H3. unfold s1. simpl. rewrite due_events_app. simpl.
    rewrite app_nil_r. reflexivity.
  - exact parse_written.
  - intros local times i t. unfold matching.
    rewrite filter_In, in_enumerate. simpl.
    rewrite time_eqb_eq.
    split.
    + intros [Hn <-]. auto.
    + intros [Hn [Hh Hm]]. split; [exact Hn |].
      destruct t as [h m], local as [h' m']; simpl in Hh, Hm; subst h m. reflexivity.
  - intros r i t Hi. unfold emitted, dose_to_send. cbn [fst snd].
    apply Nat.ltb_lt in Hi. rewrite Hi. reflexivity.
Qed.

(** C8. A record whose owner has no row in [users] is skipped: the
    timezone lookup is the only call made for it, the record raises
    nothing, a warning is logged, and the tables, the delivered messages
    and the due events are as before. *)
Theorem missing_timezone_skips_record now_utc r s :
  lookup (user_id r) (users s) = None ->
  hd false (faults s) = false ->
  check_medicine now_utc r s
  = (Ok tt,
     set_log (log s ++ [LogNoTimezone (user_id r) (name r)])
             (set_faults (tl (faults s)) s))
  /\ still s (snd (check_medicine now_utc r s)).
Proof.
  intros Hu Hf.
  assert (E : check_medicine now_utc r s
              = (Ok tt,
                 set_log (log s ++ [LogNoTimezone (user_id r) (name r)])
                         (set_faults (tl (faults s)) s))).
  { unfold check_medicine.
    rewrite (bind_returns _ _ _ _ _ (get_user_timezone_returns _ _ Hf)).
    rewrite Hu. reflexivity. }
  split; [exact E |]. rewrite E.
  repeat split. unfold same_due; simpl.
  rewrite due_events_app. apply app_nil_r.
Qed.

(** *** A sweep with nothing due *)

Lemma still_trans a b c : still a b -> still b c -> still a c.
Proof.
  unfold still, untouched, same_due.
  intros [[? [? [? ?]]] ?] [[? [? [? ?]]] ?]. repeat split; congruence.
Qed.

Lemma still_faults s later : still s (set_faults later s).
Proof. repeat split. Qed.

Lemma still_log s e : is_due e = false -> still s (set_log (log s ++ [e]) s).
Proof.
  intro H. repeat split. unfold same_due; simpl.
  rewrite due_events_app; simpl. rewrite H. apply app_nil_r.
Qed.

Lemma check_times_quiet now_user_tz r dosages slots s :
  (forall slot, In slot slots -> time_eqb now_user_tz (snd slot) = false) ->
  for_each slots (check_time now_user_tz r dosages) s = (Ok tt, s).
Proof.
  induction slots as [| [index t] rest IH]; intro H; simpl; [reflexivity |].
  assert (E : time_eqb now_user_tz t = false) by (apply (H (index, t)); simpl; auto).
  unfold bind, check_time at 1. rewrite E. cbn [ret].
  apply IH. intros slot Hs. apply H; simpl; auto.
Qed.

Lemma quiet_check_medicine now_utc r s :
  quiet now_utc s r -> still s (snd (check_medicine now_utc r s)).
Proof.
  intro Hq. change (wp (check_medicine now_utc r) (fun _ s' => still s s') s).
  unfold check_medicine, get_user_timezone.
  wp_step. wp_step. wp_step; [| apply still_faults].
  wp_step. cbn [users set_faults].
  destruct (lookup (user_id r) (users s)) as [[| c rest] |] eqn:Hu;
    try (apply wp_logging, still_trans with (b := set_faults later s);
         [apply still_faults | apply still_log; reflexivity]).
  wp_step. wp_step.
  destruct (pytz_timezone (String c rest)) as [zone |] eqn:Hz;
    [| apply still_faults].
  wp_step. wp_step.
  destruct (parse_reminder_times (reminder_time r)) as [times |] eqn:Hp;
    [| apply still_faults].
  unfold wp. rewrite check_times_quiet; [apply still_faults |].
  intros [index t] Hin. simpl.
  apply (Hq _ _ _ Hu Hz Hp).
  apply in_enumerate in Hin. eapply nth_error_In; exact Hin.
Qed.

(** C9. When no reminder time of any record equals the local time of
    its owner, a sweep logs no due event and leaves the tables and the
    delivered messages as they are, whatever the calls it makes do. *)
Theorem quiet_sweep_changes_nothing now_utc s :
  (forall r, In r (medicines s) -> quiet now_utc s r) ->
  still s (snd (sweep now_utc s)).
Proof.
  intro Hq. change (wp (sweep now_utc) (fun _ s' => still s s') s).
  unfold sweep, get_all_medicines_with_time.
  wp_step. wp_step. wp_step; [| apply still_faults].
  wp_step. wp_step. wp_step. cbn [medicines set_faults].
  apply wp_for_each with (I := fun s' => still s s').
  - intros r s' Hr Hs'.
    assert (Hq' : quiet now_utc s' r).
    { intros zone_name zone times Hu. apply (Hq r Hr zone_name zone times).
      destruct Hs' as [[_ [Hus _]] _]. rewrite <- Hus. exact Hu. }
    pose proof (quiet_check_medicine now_utc r s' Hq') as Hst.
    unfold wp. destruct (check_medicine now_utc r s') as [[[] | e] s'']; simpl in *;
      eapply still_trans; eauto.
  - auto.
  - eapply still_trans; [apply still_faults | apply still_log; reflexivity].
Qed.

(** *** Failures *)

(** C2, as the code has it.  The dispatch of a due event lets no
    exception out, whatever fails inside it: when a call it makes to
    Telegram or to the database raises, when the dose is no number, and
    when the remaining quantity of the record cannot be compared with 0,
    it returns and the last line of its log is that error; so the loop
    over the reminder times of a record goes on after it.  The scheduler
    loop itself handles nothing: when listing the medicines raises, or
    when the timezone lookup for a record raises, the exception ends
    [scheduler_setup], nothing but the lines before it is in the log, and
    the readings of the clock that follow get no sweep. *)
Theorem only_dispatch_failures_are_caught :
  (forall uid mid medicine dose unit_ s,
      exists s',
        send_reminder uid mid medicine dose unit_ s = (Ok tt, s')
        /\ (one_failed s s' ->
            exists e before,
              (e = TelegramAPIError \/ e = DatabaseError)
              /\ log s' = (before ++ [LogReminderError uid e])%list)
        /\ (py_float dose = None ->
            exists before, log s' = (before ++ [LogReminderError uid ValueError])%list)
        /\ (forall v info,
              py_float dose = Some v ->
              faults s = [] ->
              find (has_id mid) (medicines s) = Some info ->
              qty_gt0 (remaining_quantity info) = None ->
              exists before, log s' = (before ++ [LogReminderError uid TypeError])%list))
  /\ (forall now_user_tz r slots s,
        fst (for_each slots (check_time now_user_tz r (doseAmounts r)) s) = Ok tt)
  /\ (forall now_utc clock s later,
        faults s = true :: later ->
        scheduler_setup (now_utc :: clock) s
        = (Raise DatabaseError,
           set_log (log s ++ [LogSchedulerStart]) (set_faults later s)))
  /\ (forall now_utc clock s r rows later,
        faults s = false :: true :: later ->
        medicines s = r :: rows ->
        scheduler_setup (now_utc :: clock) s
        = (Raise DatabaseError,
           set_log (log s ++ [LogSchedulerStart;
                              LogSweep now_utc (List.length (r :: rows))])
                   (set_faults later s))).
Proof.
  split.
  { intros uid mid medicine dose unit_ s.
    destruct (send_reminder_logs_failure uid mid medicine dose unit_ s)
      as [s' [E [_ [Hcall Hdose]]]].
    exists s'. split; [exact E |]. split; [exact Hcall |]. split; [exact Hdose |].
    intros v info Hv Hf Hfind Hnull.
    assert (Es : s' = snd (send_reminder uid mid medicine dose unit_ s))
      by (rewrite E; reflexivity).
    rewrite Es. clear E Es Hcall Hdose s'.
    destruct s as [u rows n f o l fs]. simpl in Hf, Hfind. subst fs.
    unfold has_id in Hfind.
    cbv beta iota zeta delta
      [send_reminder take_from_stock bind try_except logging modify
       send_message get_medicine_by_id io gets of_option ret raise].
    rewrite Hv. cbn. rewrite Hfind. cbn. rewrite Hnull. cbn.
    eexists. reflexivity. }
  split; [intros; apply check_times_due |].
  split.
  - intros now_utc clock s later Hf.
    destruct s as [u m n f o l fs]; simpl in Hf; subst fs. reflexivity.
  - intros now_utc clock s r rows later Hf Hm.
    destruct s as [u m n f o l fs]; simpl in Hf, Hm; subst fs m.
    cbn. rewrite <- app_assoc. reflexivity.
Qed.

End Sweep.

(** * The medicine dialogue and the invariants of the running bot *)

Section Dialogue.

Context {num : PyNum} {tzdata : TzData}.

Lemma sound_context s uid : sound s -> numeric_data (fsm_data (context_of uid s)).
Proof.
  intros [_ [_ Hf]]. unfold context_of.
  destruct (lookup uid (fsm s)) as [c |] eqn:E.
  - assert (G : forall l, lookup uid l = Some c -> exists k, In (k, c) l).
    { induction l as [| [k v] rest IH]; simpl; [discriminate |].
      destruct (k =? uid); [intros [= ->]; eauto |].
      intro H. destruct (IH H) as [k' Hk']. eauto. }
    destruct (G _ E) as [k Hk]. exact (Hf k c Hk).
  - intros text H; discriminate.
Qed.

Lemma sound_fsm s uid c :
  sound s -> numeric_data (fsm_data c) -> sound (set_fsm ((uid, c) :: fsm s) s).
Proof.
  intros [Ha [Hr Hf]] Hc. split; [exact Ha |]. split; [exact Hr |].
  intros k c' [H | H]; [injection H as <- <-; exact Hc | exact (Hf k c' H)].
Qed.

Lemma sound_rows s rows :
  (forall r', In r' rows ->
     exists r, In r (medicines s) /\ r' = with_remaining r (remaining_quantity r')) ->
  sound s -> sound (set_medicines rows s).
Proof.
  intros Hrows [Ha [Hr Hf]]. split; [| split; [| exact Hf]].
  - intros r' Hin. destruct (Hrows r' Hin) as [r [Hr0 ->]]. exact (Ha r Hr0).
  - intros r' Hin. destruct (Hrows r' Hin) as [r [Hr0 ->]]. exact (Hr r Hr0).
Qed.

Lemma with_remaining_same (r : Medicine) : r = with_remaining r (remaining_quantity r).
Proof. destruct r; reflexivity. Qed.

Lemma rows_after_filter s f :
  forall r', In r' (filter f (medicines s)) ->
    exists r, In r (medicines s) /\ r' = with_remaining r (remaining_quantity r').
Proof.
  intros r' Hin. apply filter_In in Hin. exists r'.
  split; [tauto | apply with_remaining_same].
Qed.

Lemma rows_after_decrement s mid amount :
  forall r',
    In r' (map (fun r => if medicine_id r =? mid
                         then with_remaining r (qty_minus (remaining_quantity r) amount)
                         else r) (medicines s)) ->
    exists r, In r (medicines s) /\ r' = with_remaining r (remaining_quantity r').
Proof.
  intros r' Hin. apply in_map_iff in Hin. destruct Hin as [r [<- Hr]].
  exists r. split; [exact Hr |].
  destruct (medicine_id r =? mid); [reflexivity | apply with_remaining_same].
Qed.

Lemma sound_filter s f : sound s -> sound (set_medicines (filter f (medicines s)) s).
Proof. apply sound_rows, rows_after_filter. Qed.

Lemma sound_add s uid medicine dose unit_ quantity times :
  sound s ->
  all_numbers (map PyStr.strip (PyStr.split "," dose)) = true ->
  List.length (map PyStr.strip (PyStr.split "," dose))
  = List.length (map PyStr.strip (PyStr.split "," times)) ->
  sound (set_next_id (next_id s + 1)
           (set_medicines
              (medicines s ++ [mkMedicine (next_id s) uid medicine dose unit_ quantity
                                          times (qty_stored quantity)]) s)).
Proof.
  intros [Ha [Hr Hf]] Hnum Hlen. split; [| split; [| exact Hf]].
  - intros r Hin. simpl in Hin. apply in_app_or in Hin.
    destruct Hin as [Hin | [<- | []]]; [exact (Ha r Hin) | exact Hlen].
  - intros r Hin. simpl in Hin. apply in_app_or in Hin.
    destruct Hin as [Hin | [<- | []]]; [exact (Hr r Hin) | exact Hnum].
Qed.

Lemma sound_kept_refl s : sound_kept s s.
Proof. exact (fun H => H). Qed.

Lemma sound_kept_trans a b c : sound_kept a b -> sound_kept b c -> sound_kept a c.
Proof. unfold sound_kept; auto. Qed.

(** A sweep keeps the invariant: it only decrements and deletes. *)
Lemma sweep_sound now_utc s : sound s -> sound (snd (sweep now_utc s)).
Proof.
  revert s. change (keeps sound_kept (sweep now_utc)).
  apply keeps_sweep;
    [exact sound_kept_refl | exact sound_kept_trans | ..];
    intros; intro; try assumption.
  - apply sound_rows; [apply rows_after_decrement | assumption].
  - apply sound_filter; assumption.
Qed.

Lemma numeric_fresh : numeric_data (fsm_data fresh_fsm).
Proof. intros text H; discriminate. Qed.

Lemma sound_state s uid st :
  sound s ->
  sound (set_fsm ((uid, mkFsm st (fsm_data (context_of uid s))) :: fsm s) s).
Proof. intro H. apply sound_fsm; [exact H | apply sound_context, H]. Qed.

Lemma sound_clear s uid : sound s -> sound (set_fsm ((uid, fresh_fsm) :: fsm s) s).
Proof. intro H. apply sound_fsm; [exact H | apply numeric_fresh]. Qed.

(** [update_data] with a key other than ["medicine_dosage"]. *)
Lemma sound_data s uid (f : Data -> Data) :
  (forall d, medicine_dosage (f d) = medicine_dosage d) ->
  sound s ->
  sound (set_fsm ((uid, mkFsm (fsm_state (context_of uid s))
                              (f (fsm_data (context_of uid s)))) :: fsm s) s).
Proof.
  intros Hf H. apply sound_fsm; [exact H |].
  intros text Ht. simpl in Ht. rewrite Hf in Ht.
  exact (sound_context s uid H text Ht).
Qed.

(** [update_data(medicine_dosage=text)] with a text of numbers. *)
Lemma sound_dosage s uid text (f : Data -> Data) :
  (forall d, medicine_dosage (f d) = Some text) ->
  all_numbers (map PyStr.strip (PyStr.split "," text)) = true ->
  sound s ->
  sound (set_fsm ((uid, mkFsm (fsm_state (context_of uid s))
                              (f (fsm_data (context_of uid s)))) :: fsm s) s).
Proof.
  intros Hf Hn H. apply sound_fsm; [exact H |].
  intros t Ht. simpl in Ht. rewrite Hf in Ht. injection Ht as <-. exact Hn.
Qed.

Lemma set_state_kept uid st : keeps sound_kept (set_state uid st).
Proof. intros s H. apply sound_state, H. Qed.

Lemma clear_kept uid : keeps sound_kept (clear uid).
Proof. intros s H. apply sound_clear, H. Qed.

Lemma update_data_kept uid f :
  (forall d, medicine_dosage (f d) = medicine_dosage d) ->
  keeps sound_kept (update_data uid f).
Proof. intros Hf s H. apply sound_data; assumption. Qed.

Lemma update_dosage_kept uid f text :
  (forall d, medicine_dosage (f d) = Some text) ->
  all_numbers (map PyStr.strip (PyStr.split "," text)) = true ->
  keeps sound_kept (update_data uid f).
Proof. intros Hf Hn s H. eapply sound_dosage; eassumption. Qed.

Ltac kept_step :=
  lazymatch goal with
  | |- keeps _ (bind _ _) => apply (keeps_bind _ sound_kept_trans); [| intro]
  | |- keeps _ (ret _) => apply (keeps_ret _ sound_kept_refl)
  | |- keeps _ (raise _) => apply (keeps_raise _ sound_kept_refl)
  | |- keeps _ (try_except _ _) => apply (keeps_try_except _ sound_kept_trans); [| intro]
  | |- keeps _ (try_finally _ _) => apply (keeps_try_finally _ sound_kept_trans)
  | |- keeps _ (gets _) => apply (keeps_gets _ sound_kept_refl)
  | |- keeps _ (of_option _ _) => apply (keeps_of_option _ sound_kept_refl)
  | |- keeps _ (call _) => apply (keeps_call _ sound_kept_refl)
  | |- keeps _ (io _) => apply (keeps_io _ sound_kept_refl); intros ? ? H; exact H
  | |- keeps _ (set_state _ _) => apply set_state_kept
  | |- keeps _ (clear _) => apply clear_kept
  | |- keeps _ (update_data _ _) =>
      first [ apply update_data_kept; intro; reflexivity
            | eapply update_dosage_kept; [intro; reflexivity | eassumption] ]
  | |- keeps _ (modify _) =>
      apply keeps_modify; intros ? H;
      first [ exact H | apply sound_filter; exact H | idtac ]
  | |- keeps _ (match ?x with _ => _ end) => destruct x eqn:?
  end.

Ltac kept :=
  unfold answer, send_message, get_state, get_data,
    logging, get_user_timezone, set_user_timezone, get_medicines_for_user,
    delete_medicine_by_name_and_user;
  repeat kept_step.

Lemma command_start_kept m : keeps sound_kept (command_start_handler m).
Proof. unfold command_start_handler. kept. Qed.

Lemma timezone_command_kept m : keeps sound_kept (timezone_command_handler m).
Proof. unfold timezone_command_handler. kept. Qed.

Lemma location_kept m g t : keeps sound_kept (location_handler m g t).
Proof. unfold location_handler, get_timezone_from_location. kept. Qed.

Lemma wrong_content_type_kept m : keeps sound_kept (wrong_content_type_handler m).
Proof. unfold wrong_content_type_handler. kept. Qed.

Lemma add_medicine_command_kept m : keeps sound_kept (add_medicine_command_handler m).
Proof. unfold add_medicine_command_handler. kept. Qed.

Lemma get_medicine_name_kept m : keeps sound_kept (get_medicine_name m).
Proof. unfold get_medicine_name. kept. Qed.

Lemma get_medicine_dosage_kept m : keeps sound_kept (get_medicine_dosage m).
Proof.
  unfold get_medicine_dosage. kept.
Qed.

Lemma get_dosage_unit_kept m : keeps sound_kept (get_dosage_unit m).
Proof. unfold get_dosage_unit. kept. Qed.

Lemma wrong_dosage_unit_kept m : keeps sound_kept (wrong_dosage_unit_handler m).
Proof. unfold wrong_dosage_unit_handler. kept. Qed.

Lemma get_medicine_quantity_kept m : keeps sound_kept (get_medicine_quantity m).
Proof. unfold get_medicine_quantity. kept. Qed.

Lemma status_command_kept m : keeps sound_kept (status_command_handler m).
Proof. unfold status_command_handler. kept. Qed.

Lemma delete_medicine_command_kept m :
  keeps sound_kept (delete_medicine_command_handler m).
Proof. unfold delete_medicine_command_handler. kept. Qed.

Lemma get_medicine_name_to_delete_kept m :
  keeps sound_kept (get_medicine_name_to_delete m).
Proof. unfold get_medicine_name_to_delete. kept. Qed.

Lemma echo_kept m : keeps sound_kept (echo_handler m).
Proof. unfold echo_handler. kept. Qed.

(** Storing the record: the dose text comes from a dialogue, so it is
    a text of numbers, and the record is stored only when its two lists
    have the same length. *)
Lemma add_medicine_kept uid medicine dose unit_ quantity times :
  all_numbers (map PyStr.strip (PyStr.split "," dose)) = true ->
  List.length (map PyStr.strip (PyStr.split "," dose))
  = List.length (map PyStr.strip (PyStr.split "," times)) ->
  keeps sound_kept (add_medicine uid medicine dose unit_ quantity times).
Proof.
  intros Hn Hl. unfold add_medicine. kept.
  apply sound_add; assumption.
Qed.

Lemma bind_ret {A B} (a : A) (k : A -> M B) : bind (ret a) k = k a.
Proof. reflexivity. Qed.

Lemma get_medicine_time_kept m : keeps sound_kept (get_medicine_time m).
Proof.
  unfold get_medicine_time.
  kept_step; [kept_step |].
  kept_step; [unfold answer, send_message; repeat kept_step |].
  kept_step; [kept_step |].
  unfold get_data. intros s Hs.
  unfold bind at 1, gets at 1.
  pose proof (sound_context s (from_user m) Hs) as Hd.
  generalize dependent (fsm_data (context_of (from_user m) s)); intros data Hd.
  revert s Hs.
  match goal with
  | |- forall s, sound s -> sound (snd (?k s)) => change (keeps sound_kept k)
  end.
  destruct (medicine_dosage data) as [dose |] eqn:Ed;
    [| apply (keeps_raise _ sound_kept_refl)].
  unfold of_option at 1. rewrite bind_ret.
  kept_step; [kept_step |].
  destruct (Nat.eqb _ _) eqn:El; [| kept].
  apply Nat.eqb_eq in El.
  kept_step; [apply add_medicine_kept; [exact (Hd dose Ed) | exact El] |].
  kept.
Qed.

(** Whatever the message and whatever the calls do, the router keeps the
    invariant. *)
Lemma router_kept m : keeps sound_kept (router m).
Proof.
  unfold router.
  kept_step; [unfold get_state; kept_step |].
  repeat lazymatch goal with
         | |- keeps _ (match ?x with _ => _ end) => destruct x
         | |- keeps _ (command_start_handler _) => apply command_start_kept
         | |- keeps _ (timezone_command_handler _) => apply timezone_command_kept
         | |- keeps _ (location_handler _ _ _) => apply location_kept
         | |- keeps _ (wrong_content_type_handler _) => apply wrong_content_type_kept
         | |- keeps _ (add_medicine_command_handler _) => apply add_medicine_command_kept
         | |- keeps _ (get_medicine_name _) => apply get_medicine_name_kept
         | |- keeps _ (get_medicine_dosage _) => apply get_medicine_dosage_kept
         | |- keeps _ (get_dosage_unit _) => apply get_dosage_unit_kept
         | |- keeps _ (wrong_dosage_unit_handler _) => apply wrong_dosage_unit_kept
         | |- keeps _ (get_medicine_quantity _) => apply get_medicine_quantity_kept
         | |- keeps _ (get_medicine_time _) => apply get_medicine_time_kept
         | |- keeps _ (status_command_handler _) => apply status_command_kept
         | |- keeps _ (delete_medicine_command_handler _) =>
             apply delete_medicine_command_kept
         | |- keeps _ (get_medicine_name_to_delete _) =>
             apply get_medicine_name_to_delete_kept
         | |- keeps _ (echo_handler _) => apply echo_kept
         end.
Qed.

Lemma initial_sound : sound initial.
Proof.
  split; [intros r H; inversion H |].
  split; [intros r H; inversion H | intros uid c H; inversion H].
Qed.

Lemma step_sound s ev : sound s -> sound (step s ev).
Proof.
  intro H. destruct ev as [m outcomes | now_utc outcomes]; simpl.
  - apply router_kept. exact H.
  - apply sweep_sound. exact H.
Qed.

Lemma run_sound evs : forall s, sound s -> sound (run s evs).
Proof.
  induction evs as [| ev rest IH]; intros s H; simpl; [exact H |].
  apply IH, step_sound, H.
Qed.

(** *** The length of the two lists *)

Lemma rows_kept_refl s : rows_kept s s.
Proof. intros r H. exists r. split; [exact H | apply with_remaining_same]. Qed.

Lemma rows_kept_trans a b c : rows_kept a b -> rows_kept b c -> rows_kept a c.
Proof.
  intros Hab Hbc r'' H''.
  destruct (Hbc r'' H'') as [r' [H' E']].
  destruct (Hab r' H') as [r [H E]].
  exists r. split; [exact H |]. rewrite E', E. reflexivity.
Qed.

Lemma rows_kept_same s s' : medicines s' = medicines s -> rows_kept s s'.
Proof.
  intros E r H. rewrite E in H. exists r.
  split; [exact H | apply with_remaining_same].
Qed.

Lemma sweep_rows_kept now_utc : keeps rows_kept (sweep now_utc).
Proof.
  apply keeps_sweep;
    [exact rows_kept_refl | exact rows_kept_trans | ..];
    intros; try (apply rows_kept_same; reflexivity).
  - intros r' H'. apply rows_after_decrement in H'. exact H'.
  - intros r' H'. apply rows_after_filter in H'. exact H'.
Qed.

Lemma answer_keeps_tables m text s :
  medicines (snd (answer m text s)) = medicines s
  /\ fsm (snd (answer m text s)) = fsm s.
Proof.
  unfold answer, send_message, bind, modify, io.
  destruct (faults s) as [| [|] later]; simpl; split; reflexivity.
Qed.

Lemma context_of_bound uid c l s : context_of uid (set_fsm ((uid, c) :: l) s) = c.
Proof. unfold context_of; simpl. rewrite Z.eqb_refl. reflexivity. Qed.

(** C6. In every state the bot reaches from an empty database,
    whatever messages arrive, whenever the scheduler sweeps and whatever
    the calls do, every stored record has as many dose amounts as
    reminder times.  The dialogue stores nothing when the two lists it
    collected differ in length; and after a sweep every row is a row
    that was there before, with the same two texts: only the remaining
    quantity may differ. *)
Theorem dose_and_time_lists_always_agree :
  (forall evs r,
      In r (medicines (run initial evs)) ->
      List.length (doseAmounts r) = List.length (reminderTimes r))
  /\ (forall m s times_text dose_text,
        message_text m = Some times_text ->
        medicine_dosage (fsm_data (context_of (from_user m) s)) = Some dose_text ->
        List.length (map PyStr.strip (PyStr.split "," dose_text))
        <> List.length (map PyStr.strip (PyStr.split "," times_text)) ->
        medicines (snd (get_medicine_time m s)) = medicines s)
  /\ (forall now_utc s r',
        In r' (medicines (snd (sweep now_utc s))) ->
        exists r,
          In r (medicines s)
          /\ medicine_id r' = medicine_id r
          /\ doseAmounts r' = doseAmounts r
          /\ reminderTimes r' = reminderTimes r).
Proof.
  split; [| split].
  - intros evs. apply (run_sound evs initial initial_sound).
  - intros m s times_text dose_text Ht Hd Hlen.
    unfold get_medicine_time. rewrite Ht. unfold of_option at 1. rewrite bind_ret.
    destruct (find _ _) as [bad |].
    + apply answer_keeps_tables.
    + cbv beta iota zeta delta [bind update_data modify get_data gets].
      rewrite !context_of_bound.
      cbn [fsm_data medicine_dosage medicine_time of_option ret].
      rewrite Hd. cbn [of_option ret].
      apply Nat.eqb_neq in Hlen. rewrite Hlen.
      match goal with
      | |- medicines (snd (answer m ?t ?s1)) = _ =>
          exact (proj1 (answer_keeps_tables m t s1))
      end.
  - intros now_utc s r' H'.
    destruct (sweep_rows_kept now_utc s r' H') as [r [H E]].
    exists r. split; [exact H |]. rewrite E. repeat split.
Qed.

(** *** What a dose may be *)

(** C5, as the code has it.  In every state the bot reaches from an
    empty database, [float] accepts every dose amount of every stored
    record; a dose list with an entry [float] rejects is refused on
    arrival, leaving the dialogue and the table as they were.  The sign of
    a dose is never looked at. *)
Theorem stored_doses_are_numbers :
  (forall evs r,
      In r (medicines (run initial evs)) -> all_numbers (doseAmounts r) = true)
  /\ (forall m s text,
        message_text m = Some text ->
        all_numbers (map PyStr.strip (PyStr.split "," text)) = false ->
        medicines (snd (get_medicine_dosage m s)) = medicines s
        /\ fsm (snd (get_medicine_dosage m s)) = fsm s).
Proof.
  split.
  - intros evs. apply (run_sound evs initial initial_sound).
  - intros m s text Ht Hn.
    unfold get_medicine_dosage. rewrite Ht. cbn [of_option]. rewrite bind_ret.
    rewrite Hn.
    apply answer_keeps_tables.
Qed.

End Dialogue.

(** * Further properties: times of day *)

Section Times.

Context {num : PyNum} {tzdata : TzData}.

Lemma digit_of_range c d : PyStr.digit_of c = Some d -> 0 <= d <= 9.
Proof.
  unfold PyStr.digit_of, PyStr.byte_in.
  destruct (Nat.leb 48 (nat_of_ascii c) && Nat.leb (nat_of_ascii c) 57)%bool eqn:E;
    [| discriminate].
  intros [= <-]. apply andb_true_iff in E. destruct E as [E1 E2].
  apply Nat.leb_le in E1, E2. lia.
Qed.

Lemma map_digits_one l d :
  map PyStr.digit_of l = [Some d] -> 0 <= d <= 9.
Proof.
  destruct l as [| c [| c' rest]]; simpl; try discriminate.
  intros [= H]. eapply digit_of_range; exact H.
Qed.

Lemma map_digits_two l a b :
  map PyStr.digit_of l = [Some a; Some b] -> 0 <= a <= 9 /\ 0 <= b <= 9.
Proof.
  destruct l as [| c [| c' [| c'' rest]]]; simpl; try discriminate.
  intros [= Ha Hb]. split; eapply digit_of_range; eassumption.
Qed.

Lemma hour_field_range s h : hour_field s = Some h -> 0 <= h <= 23.
Proof.
  unfold hour_field.
  destruct (map PyStr.digit_of (PyStr.to_list s)) as [| [a |] [| [b |] [| x rest]]] eqn:E;
    try discriminate.
  - intros [= <-]. apply map_digits_one in E. lia.
  - apply map_digits_two in E.
    destruct (10 * a + b <=? 23) eqn:L; [| discriminate].
    intro Hv. assert (h = 10 * a + b) by congruence. apply Z.leb_le in L. lia.
Qed.

Lemma minute_field_range s m : minute_field s = Some m -> 0 <= m <= 59.
Proof.
  unfold minute_field.
  destruct (map PyStr.digit_of (PyStr.to_list s)) as [| [a |] [| [b |] [| x rest]]] eqn:E;
    try discriminate.
  - intros [= <-]. apply map_digits_one in E. lia.
  - apply map_digits_two in E.
    destruct (a <=? 5) eqn:L; [| discriminate].
    intro Hv. assert (m = 10 * a + b) by congruence. apply Z.leb_le in L. lia.
Qed.

Lemma strptime_in_range s t : strptime_HM s = Some t -> in_range t.
Proof.
  unfold strptime_HM.
  destruct (PyStr.split ":" s) as [| h [| m [| x rest]]]; try discriminate.
  destruct (hour_field h) as [hh |] eqn:Eh; [| discriminate].
  destruct (minute_field m) as [mm |] eqn:Em; [| discriminate].
  intros [= <-]. split; simpl;
    [eapply hour_field_range | eapply minute_field_range]; eassumption.
Qed.

Lemma time_format_parses s :
  time_format_ok s = true -> exists t, strptime_HM s = Some t.
Proof.
  unfold time_format_ok, strptime_HM.
  destruct (PyStr.split ":" s) as [| h [| m [| x rest]]]; try discriminate.
  destruct (hour_field h) as [hh |]; [| discriminate].
  unfold minute_field.
  destruct (map PyStr.digit_of (PyStr.to_list m)) as [| [a |] [| [b |] [| y more]]];
    try discriminate.
  intro L. rewrite L. eauto.
Qed.

(** X1. What the dialogue accepts as a time, the sweep can read: a piece
    that matches the format of handlers.py is parsed by the [strptime] of
    bot.py; and whatever [strptime] parses is an hour from 0 to 23 and a
    minute from 0 to 59. *)
Theorem accepted_times_parse_in_range :
  (forall s, time_format_ok s = true ->
             exists t, strptime_HM s = Some t /\ in_range t)
  /\ (forall s t, strptime_HM s = Some t -> in_range t).
Proof.
  split; [| exact strptime_in_range].
  intros s H. destruct (time_format_parses s H) as [t Ht].
  exists t. split; [exact Ht | exact (strptime_in_range s t Ht)].
Qed.

Lemma all_pieces_parse pieces :
  forallb time_format_ok (map PyStr.strip pieces) = true ->
  exists times,
    parse_all pieces = Some times
    /\ List.length times = List.length pieces
    /\ Forall in_range times.
Proof.
  induction pieces as [| p rest IH]; simpl.
  - exists []. repeat split. constructor.
  - intro H. apply andb_true_iff in H. destruct H as [Hp Hrest].
    destruct (time_format_parses _ Hp) as [t Ht].
    destruct (IH Hrest) as [times [Hparse [Hlen Hall]]].
    exists (t :: times). rewrite Ht, Hparse. simpl.
    repeat split; [congruence |].
    constructor; [exact (strptime_in_range _ _ Ht) | exact Hall].
Qed.

(** A text of valid times parses, to as many times as it has pieces. *)
Lemma valid_times_parse text :
  valid_times text ->
  exists times,
    parse_reminder_times text = Some times
    /\ List.length times = List.length (PyStr.split "," text)
    /\ Forall in_range times.
Proof. apply all_pieces_parse. Qed.

(** *** The local time *)

Lemma local_time_minute off now :
  local_time off now
  = (((now + off) mod 86400 / 60) / 60, ((now + off) mod 86400 / 60) mod 60).
Proof.
  unfold local_time. cbv zeta.
  set (x := (now + off) mod 86400).
  assert (Hx : 0 <= x < 86400) by (apply Z.mod_pos_bound; lia).
  f_equal.
  - rewrite Z.div_div by lia. reflexivity.
  - replace 3600 with (60 * 60) by reflexivity.
    rewrite Z.rem_mul_r by lia.
    rewrite (Z.mul_comm 60 ((x / 60) mod 60)), Z.div_add by lia.
    rewrite (Z.div_small (x mod 60) 60) by (apply Z.mod_pos_bound; lia).
    lia.
Qed.

Lemma minute_of_day_local off now :
  minute_of_day (local_time off now) = (now + off) mod 86400 / 60.
Proof.
  rewrite local_time_minute. unfold minute_of_day; cbn [fst snd].
  set (M := (now + off) mod 86400 / 60).
  pose proof (Z.div_mod M 60 ltac:(lia)). lia.
Qed.

Lemma time_eqb_minute_of_day a b :
  in_range a -> in_range b ->
  (time_eqb a b = true <-> minute_of_day a = minute_of_day b).
Proof.
  destruct a as [h m], b as [h' m']. unfold in_range, minute_of_day, time_eqb; cbn [fst snd].
  intros [Hh Hm] [Hh' Hm']. rewrite andb_true_iff, !Z.eqb_eq. lia.
Qed.

Lemma local_time_in_range off now : in_range (local_time off now).
Proof.
  rewrite local_time_minute. unfold in_range; cbn [fst snd].
  set (x := (now + off) mod 86400).
  assert (Hx : 0 <= x < 86400) by (apply Z.mod_pos_bound; lia).
  assert (0 <= x / 60 < 1440)
    by (split; [apply Z.div_pos; lia | apply Z.div_lt_upper_bound; lia]).
  split.
  - split; [apply Z.div_pos; lia | ].
    assert (x / 60 / 60 < 24) by (apply Z.div_lt_upper_bound; lia). lia.
  - pose proof (Z.mod_pos_bound (x / 60) 60 ltac:(lia)). lia.
Qed.

(** The seconds of the instant do not count, for an offset that is a
    whole number of minutes. *)
Lemma local_time_seconds off now secs :
  off mod 60 = 0 -> 0 <= secs < 60 ->
  local_time off (60 * (now / 60) + secs) = local_time off (60 * (now / 60)).
Proof.
  intros Hoff Hsecs.
  rewrite !local_time_minute.
  assert (E : (60 * (now / 60) + secs + off) mod 86400 / 60
              = (60 * (now / 60) + off) mod 86400 / 60).
  { apply Z.mod_divide in Hoff; [| lia]. destruct Hoff as [q ->].
    replace (60 * (now / 60) + secs + q * 60) with (secs + (now / 60 + q) * 60) by lia.
    replace (60 * (now / 60) + q * 60) with ((now / 60 + q) * 60) by lia.
    set (n := now / 60 + q).
    replace 86400 with (60 * 1440) by reflexivity.
    rewrite !Z.rem_mul_r by lia.
    rewrite Z.mod_add, Z.mod_mul by lia.
    rewrite Z.div_add, Z.div_mul by lia.
    rewrite (Z.mod_small secs 60), (Z.div_small secs 60) by lia.
    rewrite !(Z.mul_comm 60), !Z.div_add by lia.
    rewrite (Z.div_small secs 60) by lia. reflexivity. }
  rewrite E. reflexivity.
Qed.

Lemma local_time_same_minute off now now' :
  off mod 60 = 0 -> now' / 60 = now / 60 ->
  local_time off now' = local_time off now.
Proof.
  intros Hoff Hq.
  pose proof (Z.div_mod now 60 ltac:(lia)) as D.
  pose proof (Z.div_mod now' 60 ltac:(lia)) as D'.
  pose proof (Z.mod_pos_bound now 60 ltac:(lia)) as B.
  pose proof (Z.mod_pos_bound now' 60 ltac:(lia)) as B'.
  rewrite D at 1. rewrite D' at 1. rewrite Hq.
  rewrite (local_time_seconds off now (now' mod 60) Hoff B').
  rewrite (local_time_seconds off now (now mod 60) Hoff B).
  reflexivity.
Qed.

Lemma local_time_next_day off now :
  local_time off (now + 86400) = local_time off now.
Proof.
  unfold local_time. cbv zeta.
  replace (now + 86400 + off) with (now + off + 1 * 86400) by lia.
  rewrite Z.mod_add by lia. reflexivity.
Qed.

(** A record is handled through the local time of its owner only. *)
Lemma check_medicine_local now_utc now_utc' r s :
  (forall zone_name zone,
      pytz_timezone zone_name = Some zone ->
      local_time (zone now_utc') now_utc' = local_time (zone now_utc) now_utc) ->
  check_medicine now_utc' r s = check_medicine now_utc r s.
Proof.
  intro H. unfold check_medicine.
  apply bind_agree; [reflexivity |].
  intros zone_name s1 _.
  destruct zone_name as [[| c rest] |]; try reflexivity.
  destruct (pytz_timezone (String c rest)) as [zone |] eqn:Hz; [| reflexivity].
  cbn [of_option]. rewrite !bind_ret. rewrite (H _ _ Hz). reflexivity.
Qed.

(** X2. The local time the sweep compares with is always an hour from 0
    to 23 and a minute from 0 to 59.  A record is handled in the same way
    at two readings of the clock within the same minute, when the offset
    of every zone is a whole number of minutes and the same at both
    readings; and in the same way 86400 seconds later, when the offset of
    every zone is the same at both readings. *)
Theorem local_time_is_a_clock_time :
  (forall off now_utc, in_range (local_time off now_utc))
  /\ (forall now_utc now_utc' r s,
        now_utc' / 60 = now_utc / 60 ->
        (forall zone_name zone,
            pytz_timezone zone_name = Some zone ->
            zone now_utc' = zone now_utc /\ zone now_utc mod 60 = 0) ->
        check_medicine now_utc' r s = check_medicine now_utc r s)
  /\ (forall now_utc r s,
        (forall zone_name zone,
            pytz_timezone zone_name = Some zone ->
            zone (now_utc + 86400) = zone now_utc) ->
        check_medicine (now_utc + 86400) r s = check_medicine now_utc r s).
Proof.
  split; [exact local_time_in_range | split].
  - intros now_utc now_utc' r s Hq Hzones.
    apply check_medicine_local. intros zone_name zone Hz.
    destruct (Hzones zone_name zone Hz) as [-> Hoff].
    apply local_time_same_minute; assumption.
  - intros now_utc r s Hzones.
    apply check_medicine_local. intros zone_name zone Hz.
    rewrite (Hzones zone_name zone Hz). apply local_time_next_day.
Qed.

Lemma minute_of_day_mod off now :
  minute_of_day (local_time off now) = ((now + off) / 60) mod 1440.
Proof.
  rewrite minute_of_day_local.
  replace 86400 with (60 * 1440) by reflexivity.
  rewrite Z.rem_mul_r by lia.
  rewrite (Z.mul_comm 60 (((now + off) / 60) mod 1440)), Z.div_add by lia.
  rewrite (Z.div_small ((now + off) mod 60) 60) by (apply Z.mod_pos_bound; lia).
  lia.
Qed.

(** Two instants between a minute and a day less a minute apart are at
    different minutes of the day. *)
Lemma local_times_differ off now now' :
  60 <= now' - now <= 86340 -> local_time off now' <> local_time off now.
Proof.
  intros Hgap E.
  assert (M : minute_of_day (local_time off now') = minute_of_day (local_time off now))
    by (rewrite E; reflexivity).
  rewrite !minute_of_day_mod in M.
  set (a := (now + off) / 60) in *. set (b := (now' + off) / 60) in *.
  assert (Hlo : a + 1 <= b).
  { unfold a, b. rewrite <- (Z.div_add (now + off) 1 60) by lia.
    apply Z.div_le_mono; lia. }
  assert (Hhi : b <= a + 1439).
  { unfold a, b. rewrite <- (Z.div_add (now + off) 1439 60) by lia.
    apply Z.div_le_mono; lia. }
  pose proof (Z.div_mod a 1440 ltac:(lia)) as Da.
  pose proof (Z.div_mod b 1440 ltac:(lia)) as Db.
  rewrite M in Db. lia.
Qed.

(** X3. Of two sweeps whose readings of the clock are at least 60 seconds
    and at most a day less a minute apart, in a zone whose offset is the
    same at both, at most one does anything for a given reminder time of a
    record: for the other one the step of the loop over the reminder times
    is a no-op, so no reminder time is dispatched twice for the same
    minute by sweeps that [asyncio.sleep(60)] separates. *)
Theorem no_reminder_time_fires_twice (zone : instant -> Z) now_utc now_utc' r dosages slot :
  60 <= now_utc' - now_utc <= 86340 ->
  zone now_utc' = zone now_utc ->
  check_time (local_time (zone now_utc) now_utc) r dosages slot = ret tt
  \/ check_time (local_time (zone now_utc') now_utc') r dosages slot = ret tt.
Proof.
  intros Hgap Hzone. destruct slot as [i t]. unfold check_time.
  destruct (time_eqb (local_time (zone now_utc) now_utc) t) eqn:E;
    [| left; reflexivity].
  destruct (time_eqb (local_time (zone now_utc') now_utc') t) eqn:E';
    [| right; reflexivity].
  exfalso. apply time_eqb_eq in E. apply time_eqb_eq in E'.
  rewrite Hzone in E'.
  apply (local_times_differ (zone now_utc) now_utc now_utc' Hgap). congruence.
Qed.

End Times.

(** * Further properties: the tables *)

Section Store.

Context {num : PyNum} {tzdata : TzData}.

Lemma name_is_named uid wanted r :
  ((user_id r =? uid) && name_is wanted r)%bool = true
  <-> exists w, wanted = Some w /\ named uid w r.
Proof.
  unfold name_is, named. rewrite andb_true_iff, Z.eqb_eq.
  destruct wanted as [w |], (name r) as [n |]; split.
  - intros [Hu Hn]. apply String.eqb_eq in Hn. subst. eauto.
  - intros [w' [[= <-] [Hu [= ->]]]]. split; [exact Hu | apply String.eqb_refl].
  - intros [_ H]; discriminate.
  - intros [w' [_ [_ H]]]; discriminate.
  - intros [_ H]; discriminate.
  - intros [w' [H _]]; discriminate.
  - intros [_ H]; discriminate.
  - intros [w' [H _]]; discriminate.
Qed.

(** X4. When the call goes through, deleting by owner and name removes
    every record of that owner with that name and no other record, and
    answers [True] exactly when there was one to remove; a message without
    text ([None] for the name) removes nothing. *)
Theorem delete_by_name_removes_the_matches uid wanted s :
  hd false (faults s) = false ->
  (exists deleted,
      fst (delete_medicine_by_name_and_user uid wanted s) = Ok deleted
      /\ (deleted = true <->
          exists r w, In r (medicines s) /\ wanted = Some w /\ named uid w r))
  /\ (forall r,
        In r (medicines (snd (delete_medicine_by_name_and_user uid wanted s)))
        <-> In r (medicines s) /\ ~ (exists w, wanted = Some w /\ named uid w r))
  /\ (wanted = None ->
      medicines (snd (delete_medicine_by_name_and_user uid wanted s)) = medicines s).
Proof.
  intro Hf.
  assert (E : delete_medicine_by_name_and_user uid wanted s
              = (Ok (existsb (fun r => (user_id r =? uid) && name_is wanted r)%bool
                             (medicines s)),
                 set_medicines
                   (filter (fun r => negb ((user_id r =? uid) && name_is wanted r))
                           (medicines s))
                   (set_faults (tl (faults s)) s))).
  { unfold delete_medicine_by_name_and_user, bind, gets, modify, ret, io.
    destruct s as [u m n f o l fs]; simpl in *.
    destruct fs as [| [|] later]; simpl in *; try discriminate; reflexivity. }
  rewrite E. cbn [fst snd medicines set_medicines].
  split; [| split].
  - eexists. split; [reflexivity |].
    rewrite existsb_exists. split.
    + intros [r [Hin Hm]]. apply name_is_named in Hm. destruct Hm as [w [Hw Hn]].
      exists r, w. auto.
    + intros [r [w [Hin [Hw Hn]]]]. exists r. split; [exact Hin |].
      apply name_is_named. eauto.
  - intro r. rewrite filter_In, negb_true_iff, <- not_true_iff_false, name_is_named.
    reflexivity.
  - intros ->.
    assert (G : forall rows : list Medicine,
               filter (fun r => negb ((user_id r =? uid) && name_is None r)) rows = rows).
    { induction rows as [| r rows IH]; simpl; [reflexivity |].
      rewrite andb_false_r. simpl. f_equal. exact IH. }
    apply G.
Qed.

Lemma find_app_fresh mid (rows : list Medicine) (r : Medicine) :
  (forall x, In x rows -> medicine_id x <> medicine_id r) ->
  find (has_id mid) (rows ++ [r])
  = if medicine_id r =? mid then Some r else find (has_id mid) rows.
Proof.
  intro Hfresh. unfold has_id. induction rows as [| x rows IH]; simpl.
  - destruct (medicine_id r =? mid); reflexivity.
  - destruct (medicine_id x =? mid) eqn:Ex.
    + apply Z.eqb_eq in Ex.
      destruct (medicine_id r =? mid) eqn:Er; [| reflexivity].
      apply Z.eqb_eq in Er. exfalso. apply (Hfresh x); simpl; auto. congruence.
    + apply IH. intros y Hy. apply Hfresh. simpl; auto.
Qed.

(** X5. When the call goes through and the quantity fits 64 bits, a
    new medicine gets the next key, its remaining quantity is its quantity,
    fetching that key returns it, every other key fetches what it fetched
    before, and the next key moves on by one; a quantity that does not fit
    raises [OverflowError] and stores nothing. *)
Theorem add_then_get_round_trip uid medicine dose unit_ quantity times s :
  hd false (faults s) = false ->
  (forall r, In r (medicines s) -> medicine_id r < next_id s) ->
  (fits_int64 quantity = true ->
   let s1 := snd (add_medicine uid medicine dose unit_ quantity times s) in
   fst (add_medicine uid medicine dose unit_ quantity times s) = Ok tt
   /\ find (has_id (next_id s)) (medicines s1)
      = Some (mkMedicine (next_id s) uid medicine dose unit_ quantity times
                         (qty_stored quantity))
   /\ (forall mid, mid <> next_id s ->
         find (has_id mid) (medicines s1) = find (has_id mid) (medicines s))
   /\ next_id s1 = next_id s + 1)
  /\ (fits_int64 quantity = false ->
      fst (add_medicine uid medicine dose unit_ quantity times s) = Raise OverflowError
      /\ medicines (snd (add_medicine uid medicine dose unit_ quantity times s))
         = medicines s).
Proof.
  intros Hf Hfresh.
  assert (Hio : io DatabaseError s = (Ok tt, set_faults (tl (faults s)) s)).
  { unfold io. destruct s as [u m n f o l fs]; simpl in *.
    destruct fs as [| [|] later]; simpl in *; try discriminate; reflexivity. }
  split; intro Hq.
  - unfold add_medicine. rewrite (bind_returns _ _ _ _ _ Hio). rewrite Hq.
    cbn [fst snd modify medicines set_medicines set_next_id set_faults next_id].
    assert (Hnew : forall x, In x (medicines s) ->
                     medicine_id x
                     <> medicine_id (mkMedicine (next_id s) uid medicine dose unit_
                                                quantity times (qty_stored quantity))).
    { intros x Hx. specialize (Hfresh x Hx). simpl. lia. }
    repeat split.
    + rewrite (find_app_fresh _ _ _ Hnew). simpl. rewrite Z.eqb_refl. reflexivity.
    + intros mid Hmid. rewrite (find_app_fresh _ _ _ Hnew). simpl.
      destruct (next_id s =? mid) eqn:E; [apply Z.eqb_eq in E; congruence | reflexivity].
  - unfold add_medicine. rewrite (bind_returns _ _ _ _ _ Hio). rewrite Hq.
    split; reflexivity.
Qed.

End Store.

(** * Further properties: the dispatch *)

Section DispatchMore.

Context {num : PyNum} {tzdata : TzData}.

(** X6. With every call going through and a dose [float] accepts: when
    the record is found with a positive remaining quantity and the quantity
    after the decrement is not [<= 0], the dispatch sends the reminder and
    nothing else, takes the dose off that record and keeps it; when the
    record is not found, the reminder is all that happens. *)
Theorem ordinary_dose_is_taken_off uid mid medicine dose unit_ s v :
  faults s = [] ->
  py_float dose = Some v ->
  (forall info,
      find (has_id mid) (medicines s) = Some info ->
      qty_gt0 (remaining_quantity info) = Some true ->
      qty_le0 (qty_minus (remaining_quantity info) (inr v)) = Some false ->
      let s' := snd (send_reminder uid mid medicine dose unit_ s) in
      find (has_id mid) (medicines s')
      = Some (with_remaining info (qty_minus (remaining_quantity info) (inr v)))
      /\ List.length (medicines s') = List.length (medicines s)
      /\ outbox s' = (outbox s ++ [(uid, reminder_message dose unit_ medicine)])%list)
  /\ (find (has_id mid) (medicines s) = None ->
      let s' := snd (send_reminder uid mid medicine dose unit_ s) in
      medicines s' = medicines s
      /\ outbox s' = (outbox s ++ [(uid, reminder_message dose unit_ medicine)])%list
      /\ log s' = (log s ++ [LogSending uid medicine dose unit_; LogSent uid])%list).
Proof.
  intros Hf Hv.
  destruct s as [u rows n f o l fs]; simpl in Hf; subst fs.
  unfold has_id in *.
  split.
  - intros info Hfind Hpos Hle. simpl in Hfind.
    cbv beta iota zeta delta
      [send_reminder take_from_stock dosage_val bind try_except logging modify
       send_message get_medicine_by_id decrement_medicine_quantity delete_medicine
       io gets of_option ret raise].
    rewrite Hv. cbn. rewrite Hfind. cbn. rewrite Hpos. cbn.
    rewrite (find_after_decrement mid (inr v) rows info Hfind). cbn.
    rewrite Hle. cbn.
    split; [apply find_after_decrement; exact Hfind |].
    split; [apply length_map | reflexivity].
  - intro Hfind. simpl in Hfind.
    cbv beta iota zeta delta
      [send_reminder take_from_stock dosage_val bind try_except logging modify
       send_message get_medicine_by_id decrement_medicine_quantity delete_medicine
       io gets of_option ret raise].
    rewrite Hv. cbn. rewrite Hfind. cbn.
    repeat split. rewrite <- app_assoc. reflexivity.
Qed.

(** *** What a dispatch leaves alone *)

Section FrameAt.

Variable R : State -> State -> Prop.
Variable mid : Z.
Hypothesis R_refl : forall s, R s s.
Hypothesis R_trans : forall a b c, R a b -> R b c -> R a c.
Hypothesis R_faults : forall s later, R s (set_faults later s).
Hypothesis R_log :
  forall s e, is_due e = false -> R s (set_log (log s ++ [e]) s).
Hypothesis R_outbox :
  forall s sent, R s (set_outbox (outbox s ++ [sent]) s).
Hypothesis R_decrement_at :
  forall s amount,
    R s (set_medicines
           (map (fun r =>
                   if medicine_id r =? mid
                   then with_remaining r (qty_minus (remaining_quantity r) amount)
                   else r)
                (medicines s)) s).
Hypothesis R_delete_at :
  forall s,
    R s (set_medicines (filter (fun r => negb (medicine_id r =? mid)) (medicines s)) s).

Ltac at_step :=
  lazymatch goal with
  | |- keeps _ (bind _ _) => apply (keeps_bind R R_trans); [| intro]
  | |- keeps _ (ret _) => apply (keeps_ret R R_refl)
  | |- keeps _ (raise _) => apply (keeps_raise R R_refl)
  | |- keeps _ (try_except _ _) => apply (keeps_try_except R R_trans); [| intro]
  | |- keeps _ (of_option _ _) => apply (keeps_of_option R R_refl)
  | |- keeps _ (gets _) => apply (keeps_gets R R_refl)
  | |- keeps _ (io _) => apply (keeps_io R R_refl R_faults)
  | |- keeps _ (logging _) => apply (keeps_logging R R_log); reflexivity
  | |- keeps _ (send_message _ _) =>
      apply (keeps_send_message R R_refl R_trans R_faults R_outbox)
  | |- keeps _ (get_medicine_by_id _) => apply (keeps_read R R_refl R_trans R_faults)
  | |- keeps _ (modify _) => apply keeps_modify; intro
  | |- keeps _ (match ?x with _ => _ end) => destruct x
  end.

Lemma keeps_send_reminder_at uid medicine dose unit_ :
  keeps R (send_reminder uid mid medicine dose unit_).
Proof.
  unfold send_reminder, take_from_stock, dosage_val,
    decrement_medicine_quantity, delete_medicine.
  repeat at_step; first [apply R_decrement_at | apply R_delete_at].
Qed.

End FrameAt.

Lemma spares_refl mid s : spares mid s s.
Proof. repeat split. apply Nat.le_refl. Qed.

Lemma spares_trans mid a b c : spares mid a b -> spares mid b c -> spares mid a c.
Proof.
  unfold spares. intros [? [? [? [? ?]]]] [? [? [? [? ?]]]].
  repeat split; try congruence. lia.
Qed.

Lemma others_after_decrement mid amount (rows : list Medicine) :
  filter (fun r => negb (has_id mid r))
         (map (fun r => if medicine_id r =? mid
                        then with_remaining r (qty_minus (remaining_quantity r) amount)
                        else r) rows)
  = filter (fun r => negb (has_id mid r)) rows.
Proof.
  unfold has_id. induction rows as [| r rows IH]; simpl; [reflexivity |].
  destruct (medicine_id r =? mid) eqn:E; simpl; rewrite E; simpl;
    [exact IH | f_equal; exact IH].
Qed.

Lemma others_after_delete mid (rows : list Medicine) :
  filter (fun r => negb (has_id mid r))
         (filter (fun r => negb (medicine_id r =? mid)) rows)
  = filter (fun r => negb (has_id mid r)) rows.
Proof.
  unfold has_id. induction rows as [| r rows IH]; simpl; [reflexivity |].
  destruct (medicine_id r =? mid) eqn:E; simpl; [| rewrite E; simpl; f_equal]; exact IH.
Qed.

(** X7. Whatever the calls do, a dispatch for one record leaves the
    [users] table, the dialogues, the next key and every other record as
    they were, and adds no record. *)
Theorem dispatch_spares_the_rest uid mid medicine dose unit_ s :
  spares mid s (snd (send_reminder uid mid medicine dose unit_ s)).
Proof.
  apply (keeps_send_reminder_at (spares mid) mid (spares_refl mid) (spares_trans mid)).
  - intros; repeat split. apply Nat.le_refl.
  - intros; repeat split. apply Nat.le_refl.
  - intros; repeat split. apply Nat.le_refl.
  - intros s0 amount. repeat split.
    + apply others_after_decrement.
    + simpl. rewrite length_map. apply Nat.le_refl.
  - intros s0. repeat split.
    + apply others_after_delete.
    + simpl. apply filter_length_le.
Qed.

(** X8. Whatever the calls do, a dispatch delivers nothing, or the
    reminder, or the reminder followed by the depletion warning, and only to
    the owner it was called for. *)
Theorem dispatch_sends_at_most_two uid mid medicine dose unit_ s :
  let s' := snd (send_reminder uid mid medicine dose unit_ s) in
  outbox s' = outbox s
  \/ outbox s' = (outbox s ++ [(uid, reminder_message dose unit_ medicine)])%list
  \/ outbox s' = (outbox s ++ [(uid, reminder_message dose unit_ medicine);
                               (uid, depletion_message medicine)])%list.
Proof.
  cbv zeta.
  change (wp (send_reminder uid mid medicine dose unit_)
             (fun _ s' =>
                outbox s' = outbox s
                \/ outbox s' = (outbox s ++ [(uid, reminder_message dose unit_ medicine)])%list
                \/ outbox s' = (outbox s ++ [(uid, reminder_message dose unit_ medicine);
                                             (uid, depletion_message medicine)])%list) s).
  unfold send_reminder, take_from_stock, dosage_val, send_message, get_medicine_by_id,
    decrement_medicine_quantity, delete_medicine.
  repeat wp_step;
    cbn [outbox set_outbox set_faults set_log set_medicines];
    try solve [left; reflexivity | right; left; reflexivity
              | right; right; rewrite <- app_assoc; reflexivity].
Qed.

End DispatchMore.

(** * Further properties: what every state of the bot satisfies *)

Section Hoare.

Context {num : PyNum} {tzdata : TzData}.

Lemma hoare_ret {A} (a : A) (P : Tables -> Prop) Q E :
  (forall v, P v -> Q a v) -> hoare P (ret a) Q E.
Proof. intros H s Hs. apply H, Hs. Qed.

Lemma hoare_raise {A} (e : exn) (P : Tables -> Prop) (Q : A -> Tables -> Prop) E :
  (forall v, P v -> E v) -> hoare P (raise e) Q E.
Proof. intros H s Hs. apply H, Hs. Qed.

Lemma hoare_bind {A B} (m : M A) (k : A -> M B) P Q1 Q E :
  hoare P m Q1 E -> (forall a, hoare (Q1 a) (k a) Q E) -> hoare P (bind m k) Q E.
Proof.
  intros Hm Hk s Hs. unfold bind. specialize (Hm s Hs).
  destruct (m s) as [[a | e] s']; [apply Hk, Hm | exact Hm].
Qed.

Lemma hoare_weaken {A} (m : M A) (P P' : Tables -> Prop) Q Q' (E E' : Tables -> Prop) :
  hoare P' m Q' E' ->
  (forall v, P v -> P' v) -> (forall a v, Q' a v -> Q a v) -> (forall v, E' v -> E v) ->
  hoare P m Q E.
Proof.
  intros Hm HP HQ HE s Hs. specialize (Hm s (HP _ Hs)).
  destruct (m s) as [[a | e] s']; auto.
Qed.

Lemma hoare_gets {A} (f : State -> A) (P : Tables -> Prop) Q E :
  (forall s, P (tables s) -> Q (f s) (tables s)) -> hoare P (gets f) Q E.
Proof. intros H s Hs. apply H, Hs. Qed.

Lemma hoare_modify (f : State -> State) (P : Tables -> Prop) Q E :
  (forall s, P (tables s) -> Q tt (tables (f s))) -> hoare P (modify f) Q E.
Proof. intros H s Hs. apply H, Hs. Qed.

Lemma hoare_of_option {A} (e : exn) (o : option A) (P : Tables -> Prop) Q E :
  (forall v, P v -> match o with Some a => Q a v | None => E v end) ->
  hoare P (of_option e o) Q E.
Proof. intros H s Hs. specialize (H _ Hs). destruct o; exact H. Qed.

Lemma hoare_call {A} (o : result A) (P : Tables -> Prop) Q E :
  (forall v, P v -> match o with Ok a => Q a v | Raise _ => E v end) ->
  hoare P (call o) Q E.
Proof. intros H s Hs. specialize (H _ Hs). destruct o; exact H. Qed.

(** A call to the outside changes none of the tables. *)
Lemma hoare_io (e : exn) (P : Tables -> Prop) Q E :
  (forall v, P v -> Q tt v /\ E v) -> hoare P (io e) Q E.
Proof.
  intros H s Hs. destruct (H _ Hs) as [HQ HE]. unfold io.
  destruct (faults s) as [| [|] later]; simpl; assumption.
Qed.

Lemma hoare_logging (l : LogEntry) (P : Tables -> Prop) Q E :
  (forall v, P v -> Q tt v) -> hoare P (logging l) Q E.
Proof. intros H s Hs. apply (H _ Hs). Qed.

Lemma hoare_send_message chat text (P : Tables -> Prop) Q E :
  (forall v, P v -> Q tt v /\ E v) -> hoare P (send_message chat text) Q E.
Proof.
  intros H s Hs. destruct (H _ Hs) as [HQ HE].
  unfold send_message, bind, modify, io.
  destruct (faults s) as [| [|] later]; simpl; assumption.
Qed.

Lemma hoare_try_except {A} (m : M A) (h : exn -> M A) P Q E1 E :
  hoare P m Q E1 -> (forall e, hoare E1 (h e) Q E) -> hoare P (try_except m h) Q E.
Proof.
  intros Hm Hh s Hs. unfold try_except. specialize (Hm s Hs).
  destruct (m s) as [[a | e] s']; [exact Hm | apply Hh, Hm].
Qed.

Lemma hoare_try_finally {A} (m : M A) (f : M unit) P (Q1 Q : A -> Tables -> Prop) E1 E :
  hoare P m Q1 E1 ->
  (forall a, hoare (Q1 a) f (fun _ => Q a) E) ->
  hoare E1 f (fun _ => E) E ->
  hoare P (try_finally m f) Q E.
Proof.
  intros Hm Hok Herr s Hs. unfold try_finally. specialize (Hm s Hs).
  destruct (m s) as [[a | e] s'].
  - specialize (Hok a s' Hm). destruct (f s') as [[u | e'] s'']; exact Hok.
  - specialize (Herr s' Hm). destruct (f s') as [[u | e'] s'']; exact Herr.
Qed.

End Hoare.

Section Orderly.

Context {num : PyNum} {tzdata : TzData}.

Lemma lookup_In {V} (k : Z) (l : list (Z * V)) (v : V) :
  lookup k l = Some v -> In (k, v) l.
Proof.
  induction l as [| [k' v'] rest IH]; simpl; [discriminate |].
  destruct (k' =? k) eqn:E.
  - apply Z.eqb_eq in E. intros [= ->]. left. congruence.
  - intro H. right. exact (IH H).
Qed.

Lemma fresh_ok v uid : dialogue_ok v uid fresh_fsm.
Proof.
  split; [split; intros ? H; discriminate |].
  split; [exact I | intro H; discriminate].
Qed.

Lemma dialogue_of_ok v uid : orderly_tables v -> dialogue_ok v uid (dialogue_of uid v).
Proof.
  intros [_ [_ [_ Hf]]]. unfold dialogue_of.
  destruct (lookup uid (t_fsm v)) as [c |] eqn:E.
  - apply Hf. apply lookup_In. exact E.
  - apply fresh_ok.
Qed.

Lemma dialogue_of_push uid c v : dialogue_of uid (push_dialogue uid c v) = c.
Proof. unfold dialogue_of, push_dialogue; simpl. rewrite Z.eqb_refl. reflexivity. Qed.

Lemma push_at uid c v :
  orderly_tables v -> dialogue_ok v uid c -> at_dialogue uid c (push_dialogue uid c v).
Proof.
  intros [Hr [Hn [H1 Hf]]] Hc. split; [| apply dialogue_of_push].
  split; [exact Hr |]. split; [exact Hn |]. split; [exact H1 |].
  intros k c' [H | H]; [injection H as <- <-; exact Hc | exact (Hf k c' H)].
Qed.

Lemma zone_after_set uid zone_c zone_rest k us :
  (exists c rest, lookup k us = Some (String c rest)) ->
  exists c rest, lookup k ((uid, String zone_c zone_rest) :: us) = Some (String c rest).
Proof.
  intros H. simpl. destruct (uid =? k); [eauto | exact H].
Qed.

(** A timezone, once set, stays set: [users] only gets new rows, none
    empty. *)
Lemma orderly_zone uid c rest v :
  orderly_tables v ->
  orderly_tables (mkTables ((uid, String c rest) :: t_users v) (t_medicines v)
                           (t_next_id v) (t_fsm v)).
Proof.
  intros [Hr [Hn [H1 Hf]]].
  split; [| split; [exact Hn | split; [exact H1 |]]].
  - intros r Hin. destruct (Hr r Hin) as [Hu [Hq [Ht [Hz Hid]]]].
    split; [exact Hu |]. split; [exact Hq |]. split; [exact Ht |].
    split; [apply zone_after_set, Hz | exact Hid].
  - intros k c' Hin. destruct (Hf k c' Hin) as [Hd [Hc Hz]].
    split; [exact Hd |]. split; [exact Hc |].
    intro Ha. apply zone_after_set, Hz, Ha.
Qed.

Lemma NoDup_keys_filter (f : Medicine -> bool) (rows : list Medicine) :
  NoDup (map medicine_id rows) -> NoDup (map medicine_id (filter f rows)).
Proof.
  induction rows as [| r rows IH]; simpl; [auto |].
  intro H. inversion H as [| k ks Hnot Hrest]; subst.
  destruct (f r); simpl; [| exact (IH Hrest)].
  constructor; [| exact (IH Hrest)].
  intro Hin. apply Hnot. apply in_map_iff in Hin. destruct Hin as [x [Hx Hin]].
  apply filter_In in Hin. apply in_map_iff. exists x. tauto.
Qed.

(** Rows that are rows of before, up to the remaining quantity, under the
    same keys without repetition. *)
Lemma orderly_rows rows v :
  (forall r', In r' rows ->
     exists r, In r (t_medicines v) /\ r' = with_remaining r (remaining_quantity r')) ->
  NoDup (map medicine_id rows) ->
  orderly_tables v ->
  orderly_tables (mkTables (t_users v) rows (t_next_id v) (t_fsm v)).
Proof.
  intros Hrows Hnd [Hr [_ [H1 Hf]]].
  split; [| split; [exact Hnd | split; [exact H1 | exact Hf]]].
  intros r' Hin. destruct (Hrows r' Hin) as [r [Hr0 ->]]. exact (Hr r Hr0).
Qed.

Lemma keys_after_decrement mid amount (rows : list Medicine) :
  map medicine_id
      (map (fun r => if medicine_id r =? mid
                     then with_remaining r (qty_minus (remaining_quantity r) amount)
                     else r) rows)
  = map medicine_id rows.
Proof.
  induction rows as [| r rows IH]; simpl; [reflexivity |].
  f_equal; [destruct (medicine_id r =? mid); reflexivity | exact IH].
Qed.

Lemma orderly_add v uid medicine dose unit_ q times :
  orderly_tables v ->
  has_timezone uid v ->
  is_dosage_unit unit_ = true ->
  0 <= q <= 2 ^ 63 - 1 ->
  valid_times times ->
  orderly_tables
    (mkTables (t_users v)
              (t_medicines v ++ [mkMedicine (t_next_id v) uid medicine dose unit_ (Some q)
                                            times (qty_stored (Some q))])
              (t_next_id v + 1) (t_fsm v)).
Proof.
  intros [Hr [Hn [H1 Hf]]] Hz Hu Hq Ht.
  split; [| split; [| split]].
  - intros r Hin. simpl in Hin. apply in_app_or in Hin. destruct Hin as [Hin | [<- | []]].
    + destruct (Hr r Hin) as [A [B [C [D F]]]].
      split; [exact A |]. split; [exact B |]. split; [exact C |].
      split; [exact D | simpl; lia].
    + split; [exact Hu |]. split; [exists q; split; [reflexivity | lia] |].
      split; [exact Ht |]. split; [exact Hz | simpl; lia].
  - simpl. rewrite map_app. simpl. apply NoDup_app.
    + exact Hn.
    + constructor; [intros [] | constructor].
    + intros k Hk [<- | []]. apply in_map_iff in Hk. destruct Hk as [r [Hid Hin]].
      destruct (Hr r Hin) as [_ [_ [_ [_ F]]]]. lia.
  - simpl. lia.
  - exact Hf.
Qed.

(** *** The steps of a handler *)

Lemma at_facts uid c0 v :
  at_dialogue uid c0 v -> data_valid (fsm_data c0) /\ collected c0.
Proof.
  intros [Ho E]. destruct (dialogue_of_ok v uid Ho) as [Hd [Hc _]].
  rewrite E in Hd, Hc. auto.
Qed.

Lemma update_data_rule uid f c0 :
  (data_valid (fsm_data c0) -> collected c0 ->
   data_valid (f (fsm_data c0)) /\ collected (mkFsm (fsm_state c0) (f (fsm_data c0)))) ->
  hoare (at_dialogue uid c0) (update_data uid f)
        (fun _ => at_dialogue uid (mkFsm (fsm_state c0) (f (fsm_data c0))))
        orderly_tables.
Proof.
  intros Hside. apply hoare_modify. intros s Hat.
  destruct (at_facts _ _ _ Hat) as [Hv0 Hc0]. destruct (Hside Hv0 Hc0) as [Hd Hc].
  destruct Hat as [Ho E].
  change (at_dialogue uid (mkFsm (fsm_state c0) (f (fsm_data c0)))
            (push_dialogue uid
               (mkFsm (fsm_state (dialogue_of uid (tables s)))
                      (f (fsm_data (dialogue_of uid (tables s))))) (tables s))).
  rewrite E. apply push_at; [exact Ho |].
  split; [exact Hd |]. split; [exact Hc |].
  simpl. rewrite <- E. apply (dialogue_of_ok _ uid Ho).
Qed.

Lemma set_state_rule uid st c0 :
  (data_valid (fsm_data c0) -> collected c0 ->
   collected (mkFsm (Some st) (fsm_data c0))) ->
  (adding (Some st) = true -> adding (fsm_state c0) = true) ->
  hoare (at_dialogue uid c0) (set_state uid st)
        (fun _ => at_dialogue uid (mkFsm (Some st) (fsm_data c0)))
        orderly_tables.
Proof.
  intros Hside Ha. apply hoare_modify. intros s Hat.
  destruct (at_facts _ _ _ Hat) as [Hv0 Hc0]. specialize (Hside Hv0 Hc0).
  destruct Hat as [Ho E].
  change (at_dialogue uid (mkFsm (Some st) (fsm_data c0))
            (push_dialogue uid
               (mkFsm (Some st) (fsm_data (dialogue_of uid (tables s)))) (tables s))).
  rewrite E. apply push_at; [exact Ho |].
  destruct (dialogue_of_ok _ uid Ho) as [_ [_ Hz]]. rewrite E in Hz.
  split; [exact Hv0 |]. split; [exact Hside |].
  intro H. apply Hz, Ha, H.
Qed.

(** The same, for the state that opens the dialogue: the timezone has
    just been looked up. *)
Lemma set_state_zone_rule uid st c0 :
  collected (mkFsm (Some st) (fsm_data c0)) ->
  hoare (fun v => at_dialogue uid c0 v /\ has_timezone uid v) (set_state uid st)
        (fun _ => at_dialogue uid (mkFsm (Some st) (fsm_data c0)))
        orderly_tables.
Proof.
  intros Hc. apply hoare_modify. intros s [Hat Hz].
  destruct (at_facts _ _ _ Hat) as [Hv0 _]. destruct Hat as [Ho E].
  change (at_dialogue uid (mkFsm (Some st) (fsm_data c0))
            (push_dialogue uid
               (mkFsm (Some st) (fsm_data (dialogue_of uid (tables s)))) (tables s))).
  rewrite E. apply push_at; [exact Ho |].
  split; [exact Hv0 |]. split; [exact Hc | intros _; exact Hz].
Qed.

Lemma clear_rule uid c0 :
  hoare (at_dialogue uid c0) (clear uid) (fun _ => at_dialogue uid fresh_fsm)
        orderly_tables.
Proof.
  apply hoare_modify. intros s [Ho E].
  change (at_dialogue uid fresh_fsm (push_dialogue uid fresh_fsm (tables s))).
  apply push_at; [exact Ho | apply fresh_ok].
Qed.

Lemma answer_rule m text uid c0 :
  hoare (at_dialogue uid c0) (answer m text) (fun _ => at_dialogue uid c0) orderly_tables.
Proof.
  apply hoare_send_message. intros v H. split; [exact H | apply H].
Qed.

Lemma at_is_orderly {A} (m : M A) uid c0 c1 :
  hoare (at_dialogue uid c0) m (fun _ => at_dialogue uid c1) orderly_tables ->
  hoare (at_dialogue uid c0) m (fun _ => orderly_tables) orderly_tables.
Proof.
  intro H. eapply hoare_weaken; [exact H | auto | intros a v Hv; apply Hv | auto].
Qed.

(** A handler that keeps the order from every dialogue keeps the order. *)
Lemma from_any_dialogue {A} (m : M A) uid :
  (forall c0, hoare (at_dialogue uid c0) m (fun _ => orderly_tables) orderly_tables) ->
  keeps_order m.
Proof.
  intros H s Hs. apply (H (dialogue_of uid (tables s)) s). split; [exact Hs | reflexivity].
Qed.

Lemma hoare_pure {A} (m : M A) (P : Tables -> Prop) (fact : Prop) Q E :
  (fact -> hoare P m Q E) -> hoare (fun v => P v /\ fact) m Q E.
Proof. intros H s [Hs Hf]. apply (H Hf s Hs). Qed.

(** *** Steps that keep the order whatever the dialogue *)

Lemma order_bind {A B} (m : M A) (k : A -> M B) :
  keeps_order m -> (forall a, keeps_order (k a)) -> keeps_order (bind m k).
Proof. intros Hm Hk. eapply hoare_bind; [exact Hm | exact Hk]. Qed.

Lemma order_ret {A} (a : A) : keeps_order (ret a).
Proof. apply hoare_ret; auto. Qed.

Lemma order_raise {A} (e : exn) : keeps_order (@raise _ A e).
Proof. apply hoare_raise; auto. Qed.

Lemma order_gets {A} (f : State -> A) : keeps_order (gets f).
Proof. apply hoare_gets; auto. Qed.

Lemma order_of_option {A} (e : exn) (o : option A) : keeps_order (of_option e o).
Proof. apply hoare_of_option. intros v H. destruct o; exact H. Qed.

Lemma order_call {A} (o : result A) : keeps_order (call o).
Proof. apply hoare_call. intros v H. destruct o; exact H. Qed.

Lemma order_io (e : exn) : keeps_order (io e).
Proof. apply hoare_io; auto. Qed.

Lemma order_logging (l : LogEntry) : keeps_order (logging l).
Proof. apply hoare_logging; auto. Qed.

Lemma order_send_message chat text : keeps_order (send_message chat text).
Proof. apply hoare_send_message; auto. Qed.

Lemma order_try_except {A} (m : M A) (h : exn -> M A) :
  keeps_order m -> (forall e, keeps_order (h e)) -> keeps_order (try_except m h).
Proof. intros Hm Hh. eapply hoare_try_except; [exact Hm | exact Hh]. Qed.

Lemma order_try_finally {A} (m : M A) (f : M unit) :
  keeps_order m -> keeps_order f -> keeps_order (try_finally m f).
Proof.
  intros Hm Hf. eapply hoare_try_finally; [exact Hm | intro; exact Hf | exact Hf].
Qed.

Lemma order_clear uid : keeps_order (clear uid).
Proof. apply (from_any_dialogue _ uid). intro c0. eapply at_is_orderly, clear_rule. Qed.

(** [set_state] to a state outside the [AddMedicine] dialogue. *)
Lemma order_set_state uid st :
  adding (Some st) = false -> keeps_order (set_state uid st).
Proof.
  intro Ha. apply (from_any_dialogue _ uid). intro c0.
  eapply at_is_orderly, set_state_rule.
  - intros _ _. destruct st; try discriminate; exact I.
  - rewrite Ha. discriminate.
Qed.

Lemma order_set_user_timezone uid c rest :
  keeps_order (set_user_timezone uid (String c rest)).
Proof.
  apply order_bind; [apply order_io | intros _].
  apply hoare_modify. intros s H. apply (orderly_zone uid c rest (tables s) H).
Qed.

Lemma order_filter (f : State -> Medicine -> bool) :
  keeps_order (modify (fun s => set_medicines (filter (f s) (medicines s)) s)).
Proof.
  apply hoare_modify. intros s H.
  apply (orderly_rows (filter (f s) (medicines s)) (tables s));
    [apply rows_after_filter | apply NoDup_keys_filter, H | exact H].
Qed.

Ltac order_step :=
  lazymatch goal with
  | |- keeps_order (bind _ _) => apply order_bind; [| intro]
  | |- keeps_order (ret _) => apply order_ret
  | |- keeps_order (raise _) => apply order_raise
  | |- keeps_order (try_except _ _) => apply order_try_except; [| intro]
  | |- keeps_order (try_finally _ _) => apply order_try_finally
  | |- keeps_order (gets _) => apply order_gets
  | |- keeps_order (of_option _ _) => apply order_of_option
  | |- keeps_order (call _) => apply order_call
  | |- keeps_order (io _) => apply order_io
  | |- keeps_order (logging _) => apply order_logging
  | |- keeps_order (send_message _ _) => apply order_send_message
  | |- keeps_order (answer _ _) => apply order_send_message
  | |- keeps_order (clear _) => apply order_clear
  | |- keeps_order (set_state _ WAITING_FOR_LOCATION) =>
      apply order_set_state; reflexivity
  | |- keeps_order (set_state _ WAITING_FOR_MEDICINE_NAME_TO_DELETE) =>
      apply order_set_state; reflexivity
  | |- keeps_order (set_user_timezone _ (String _ _)) => apply order_set_user_timezone
  | |- keeps_order (match ?x with _ => _ end) => destruct x
  end.

Lemma command_start_order m : keeps_order (command_start_handler m).
Proof. unfold command_start_handler. repeat order_step. Qed.

Lemma timezone_command_order m : keeps_order (timezone_command_handler m).
Proof. unfold timezone_command_handler. repeat order_step. Qed.

Lemma location_order m g t : keeps_order (location_handler m g t).
Proof.
  unfold location_handler, get_timezone_from_location, get_state. repeat order_step.
Qed.

Lemma wrong_content_type_order m : keeps_order (wrong_content_type_handler m).
Proof. unfold wrong_content_type_handler. repeat order_step. Qed.

Lemma wrong_dosage_unit_order m : keeps_order (wrong_dosage_unit_handler m).
Proof. unfold wrong_dosage_unit_handler. repeat order_step. Qed.

Lemma echo_order m : keeps_order (echo_handler m).
Proof. unfold echo_handler. repeat order_step. Qed.

Lemma status_command_order m : keeps_order (status_command_handler m).
Proof. unfold status_command_handler, get_medicines_for_user. repeat order_step. Qed.

Lemma delete_medicine_command_order m : keeps_order (delete_medicine_command_handler m).
Proof.
  unfold delete_medicine_command_handler, get_medicines_for_user. repeat order_step.
Qed.

Lemma get_medicine_name_to_delete_order m : keeps_order (get_medicine_name_to_delete m).
Proof.
  unfold get_medicine_name_to_delete, delete_medicine_by_name_and_user.
  order_step.
  - order_step; [order_step |]. order_step; [order_step |].
    order_step; [| order_step].
    apply (order_filter
             (fun _ r => negb ((user_id r =? from_user m) && name_is (message_text m) r))).
  - order_step; [| order_step]. repeat order_step.
Qed.

(** *** The handlers of the [AddMedicine] dialogue *)

Lemma hoare_at_facts {A} (m : M A) uid c0 Q E :
  (data_valid (fsm_data c0) -> collected c0 -> hoare (at_dialogue uid c0) m Q E) ->
  hoare (at_dialogue uid c0) m Q E.
Proof.
  intros H s Hs. destruct (at_facts _ _ _ Hs) as [Hv Hc]. apply (H Hv Hc s Hs).
Qed.

Lemma hoare_pre {A} (m : M A) (P P' : Tables -> Prop) Q E :
  (forall v, P v -> P' v) -> hoare P' m Q E -> hoare P m Q E.
Proof. intros HP H. eapply hoare_weaken; [exact H | exact HP | auto | auto]. Qed.

Lemma at_zone uid c0 v :
  adding (fsm_state c0) = true -> at_dialogue uid c0 v -> has_timezone uid v.
Proof.
  intros Ha [Ho E]. destruct (dialogue_of_ok v uid Ho) as [_ [_ Hz]].
  rewrite E in Hz. apply Hz, Ha.
Qed.

Lemma of_option_rule {A} (e : exn) (o : option A) uid c0 :
  hoare (at_dialogue uid c0) (of_option e o)
        (fun a v => at_dialogue uid c0 v /\ o = Some a) orderly_tables.
Proof.
  apply hoare_of_option. intros v H. destruct o; [split; [exact H | reflexivity] | apply H].
Qed.

Lemma get_data_rule uid c0 :
  hoare (at_dialogue uid c0) (get_data uid)
        (fun a v => at_dialogue uid c0 v /\ a = fsm_data c0) orderly_tables.
Proof.
  apply hoare_gets. intros s H. split; [exact H |].
  destruct H as [_ E]. rewrite <- E. reflexivity.
Qed.

Lemma get_user_timezone_rule uid c0 :
  hoare (at_dialogue uid c0) (get_user_timezone uid)
        (fun a v => at_dialogue uid c0 v /\ a = lookup uid (t_users v)) orderly_tables.
Proof.
  unfold get_user_timezone. eapply hoare_bind.
  - apply hoare_io with (Q := fun _ => at_dialogue uid c0).
    intros v H. split; [exact H | apply H].
  - intros []. apply hoare_gets. intros s H. split; [exact H | reflexivity].
Qed.

Lemma add_medicine_rule uid c0 medicine dose unit_ q times :
  is_dosage_unit unit_ = true -> 0 <= q -> valid_times times ->
  hoare (fun v => at_dialogue uid c0 v /\ has_timezone uid v)
        (add_medicine uid medicine dose unit_ (Some q) times)
        (fun _ => at_dialogue uid c0) orderly_tables.
Proof.
  intros Hu Hq Ht. unfold add_medicine. eapply hoare_bind.
  - apply hoare_io
      with (Q := fun _ v => at_dialogue uid c0 v /\ has_timezone uid v).
    intros v H. split; [exact H | apply H].
  - intros []. destruct (fits_int64 (Some q)) eqn:Hfit.
    + apply hoare_modify. intros s [[Ho E] Hz].
      simpl in Hfit. apply andb_prop in Hfit. destruct Hfit as [_ Hle].
      apply Z.leb_le in Hle.
      split; [| exact E].
      apply (orderly_add (tables s) uid medicine dose unit_ q times Ho Hz Hu);
        [split; assumption | exact Ht].
    + apply hoare_raise. intros v H. apply H.
Qed.

Lemma int_of_digits_nonneg text : 0 <= PyStr.int_of_digits text.
Proof.
  unfold PyStr.int_of_digits.
  assert (G : forall l acc, 0 <= acc ->
            0 <= fold_left (fun acc c => 10 * acc + match PyStr.digit_of c with
                                                    | Some d => d
                                                    | None => 0
                                                    end) l acc).
  { induction l as [| c l IH]; intros acc Hacc; [exact Hacc |].
    apply IH. destruct (PyStr.digit_of c) as [d |] eqn:Hd.
    - pose proof (digit_of_range c d Hd). lia.
    - lia. }
  apply G. lia.
Qed.

Ltac at_answer := eapply at_is_orderly, answer_rule.

Lemma add_medicine_command_order m : keeps_order (add_medicine_command_handler m).
Proof.
  apply (from_any_dialogue _ (from_user m)). intro c0.
  unfold add_medicine_command_handler.
  eapply hoare_bind; [apply get_user_timezone_rule | intro zone].
  destruct zone as [[| c rest] |]; try (apply hoare_pre with (P' := at_dialogue (from_user m) c0);
                                        [intros v H; apply H | at_answer]).
  eapply hoare_bind.
  - eapply hoare_pre; [| apply set_state_zone_rule; exact I].
    intros v [H E]. split; [exact H |]. exists c, rest. symmetry. exact E.
  - intros []. at_answer.
Qed.

Lemma get_medicine_name_order m c0 :
  fsm_state c0 = Some WAITING_FOR_NAME ->
  hoare (at_dialogue (from_user m) c0) (get_medicine_name m)
        (fun _ => orderly_tables) orderly_tables.
Proof.
  intro Hst. apply hoare_at_facts. intros Hv Hc. unfold get_medicine_name.
  eapply hoare_bind; [apply update_data_rule | intros []].
  { intros _ _. split; [exact Hv |]. unfold collected. simpl. rewrite Hst. exact I. }
  eapply hoare_bind; [apply set_state_rule | intros []; at_answer].
  - intros _ _. exact I.
  - intros _. simpl. rewrite Hst. reflexivity.
Qed.

Lemma get_medicine_dosage_order m c0 :
  fsm_state c0 = Some WAITING_FOR_DOSAGE ->
  hoare (at_dialogue (from_user m) c0) (get_medicine_dosage m)
        (fun _ => orderly_tables) orderly_tables.
Proof.
  intro Hst. apply hoare_at_facts. intros Hv Hc. unfold get_medicine_dosage.
  eapply hoare_bind; [apply of_option_rule | intro text].
  apply hoare_pure. intros _.
  destruct (all_numbers _); [| at_answer].
  eapply hoare_bind; [apply update_data_rule | intros []].
  { intros _ _. split; [exact Hv |]. unfold collected. simpl. rewrite Hst. exact I. }
  eapply hoare_bind; [apply set_state_rule | intros []; at_answer].
  - intros _ _. unfold collected. simpl. discriminate.
  - intros _. simpl. rewrite Hst. reflexivity.
Qed.

Lemma get_dosage_unit_order m c0 :
  fsm_state c0 = Some WAITING_FOR_DOSAGE_UNIT ->
  is_dosage_unit (message_text m) = true ->
  hoare (at_dialogue (from_user m) c0) (get_dosage_unit m)
        (fun _ => orderly_tables) orderly_tables.
Proof.
  intros Hst Hunit. apply hoare_at_facts. intros Hv Hc. unfold get_dosage_unit.
  assert (Hd : medicine_dosage (fsm_data c0) <> None).
  { unfold collected in Hc. rewrite Hst in Hc. exact Hc. }
  assert (Hu : message_text m <> None).
  { intro E. rewrite E in Hunit. discriminate. }
  eapply hoare_bind; [apply update_data_rule | intros []].
  { intros _ _. split.
    - split; [| apply Hv]. intros u E. cbn [medicine_dosage_unit] in E.
      rewrite <- E. exact Hunit.
    - unfold collected. simpl. rewrite Hst. exact Hd. }
  eapply hoare_bind; [apply set_state_rule | intros []; at_answer].
  - intros _ _. unfold collected. simpl. split; assumption.
  - intros _. simpl. rewrite Hst. reflexivity.
Qed.

Lemma get_medicine_quantity_order m c0 :
  fsm_state c0 = Some WAITING_FOR_QUANTITY ->
  hoare (at_dialogue (from_user m) c0) (get_medicine_quantity m)
        (fun _ => orderly_tables) orderly_tables.
Proof.
  intro Hst. apply hoare_at_facts. intros Hv Hc. unfold get_medicine_quantity.
  assert (Hd : medicine_dosage (fsm_data c0) <> None
               /\ medicine_dosage_unit (fsm_data c0) <> None).
  { unfold collected in Hc. rewrite Hst in Hc. exact Hc. }
  eapply hoare_bind; [apply of_option_rule | intro text].
  apply hoare_pure. intros _.
  destruct (PyStr.isdigit text); [| at_answer].
  eapply hoare_bind; [apply update_data_rule | intros []].
  { intros _ _. split.
    - split; [apply Hv |]. simpl. intros q E. injection E as E. rewrite <- E. apply int_of_digits_nonneg.
    - unfold collected. simpl. rewrite Hst. exact Hd. }
  eapply hoare_bind; [apply set_state_rule | intros []; at_answer].
  - intros _ _. unfold collected. simpl. destruct Hd as [H1 H2].
    split; [exact H1 |]. split; [exact H2 | discriminate].
  - intros _. simpl. rewrite Hst. reflexivity.
Qed.

Lemma find_none_valid text :
  find (fun piece => negb (time_format_ok piece))
       (map PyStr.strip (PyStr.split "," text)) = None ->
  valid_times text.
Proof.
  intro H. unfold valid_times. apply forallb_forall. intros piece Hin.
  pose proof (find_none _ _ H piece Hin) as Hn. simpl in Hn.
  destruct (time_format_ok piece); [reflexivity | discriminate].
Qed.

Lemma get_medicine_time_order m c0 :
  fsm_state c0 = Some WAITING_FOR_TIMES ->
  hoare (at_dialogue (from_user m) c0) (get_medicine_time m)
        (fun _ => orderly_tables) orderly_tables.
Proof.
  intro Hst. apply hoare_at_facts. intros Hv Hc. unfold get_medicine_time.
  assert (Hd : medicine_dosage (fsm_data c0) <> None
               /\ medicine_dosage_unit (fsm_data c0) <> None
               /\ medicine_quantity (fsm_data c0) <> None).
  { unfold collected in Hc. rewrite Hst in Hc. exact Hc. }
  destruct Hd as [Hdose [Hunit Hquantity]].
  eapply hoare_bind; [apply of_option_rule | intro text].
  apply hoare_pure. intros _.
  destruct (find _ _) as [bad |] eqn:Hfind; [at_answer |].
  apply find_none_valid in Hfind.
  eapply hoare_bind; [apply update_data_rule | intros []].
  { intros _ _. split; [exact Hv |]. unfold collected. simpl. rewrite Hst.
    split; [exact Hdose |]. split; assumption. }
  eapply hoare_bind; [apply get_data_rule | intro data].
  apply hoare_pure. intros ->. cbn [fsm_data medicine_name medicine_dosage
    medicine_dosage_unit medicine_quantity medicine_time].
  eapply hoare_bind; [apply of_option_rule | intro dose].
  apply hoare_pure. intros _.
  eapply hoare_bind; [apply of_option_rule | intro times].
  apply hoare_pure. intros [= <-].
  destruct (Nat.eqb _ _); [| at_answer].
  destruct (medicine_quantity (fsm_data c0)) as [q |] eqn:Hq; [| contradiction].
  destruct (medicine_dosage_unit (fsm_data c0)) as [u |] eqn:Hu; [| contradiction].
  eapply hoare_bind.
  - eapply hoare_pre; [| apply add_medicine_rule].
    + intros v H. split; [exact H |]. eapply at_zone; [| exact H].
      simpl. rewrite Hst. reflexivity.
    + apply (proj1 Hv). exact Hu.
    + apply (proj2 Hv q). exact Hq.
    + exact Hfind.
  - intros []. eapply hoare_bind; [apply answer_rule | intros []].
    eapply at_is_orderly, clear_rule.
Qed.

(** *** Every event *)

Lemma order_at {A} (m : M A) uid c0 :
  keeps_order m ->
  hoare (at_dialogue uid c0) m (fun _ => orderly_tables) orderly_tables.
Proof. intro H. eapply hoare_pre; [| exact H]. intros v Hv. apply Hv. Qed.

Lemma get_state_rule uid c0 :
  hoare (at_dialogue uid c0) (get_state uid)
        (fun a v => at_dialogue uid c0 v /\ a = fsm_state c0) orderly_tables.
Proof.
  apply hoare_gets. intros s H. split; [exact H |].
  destruct H as [_ E]. rewrite <- E. reflexivity.
Qed.

Lemma router_order m : keeps_order (router m).
Proof.
  apply (from_any_dialogue _ (from_user m)). intro c0. unfold router.
  eapply hoare_bind; [apply get_state_rule | intro st].
  apply hoare_pure. intros ->.
  destruct (message_command m) as [[] |];
    destruct (fsm_state c0) as [[] |] eqn:Hst;
    destruct (content m);
    try destruct (is_dosage_unit (message_text m)) eqn:Hunit;
    lazymatch goal with
    | |- hoare _ (command_start_handler _) _ _ => apply order_at, command_start_order
    | |- hoare _ (timezone_command_handler _) _ _ =>
        apply order_at, timezone_command_order
    | |- hoare _ (location_handler _ _ _) _ _ => apply order_at, location_order
    | |- hoare _ (wrong_content_type_handler _) _ _ =>
        apply order_at, wrong_content_type_order
    | |- hoare _ (add_medicine_command_handler _) _ _ =>
        apply order_at, add_medicine_command_order
    | |- hoare _ (get_medicine_name _) _ _ => apply get_medicine_name_order, Hst
    | |- hoare _ (get_medicine_dosage _) _ _ => apply get_medicine_dosage_order, Hst
    | |- hoare _ (get_dosage_unit _) _ _ =>
        apply get_dosage_unit_order; [exact Hst | exact Hunit]
    | |- hoare _ (wrong_dosage_unit_handler _) _ _ =>
        apply order_at, wrong_dosage_unit_order
    | |- hoare _ (get_medicine_quantity _) _ _ => apply get_medicine_quantity_order, Hst
    | |- hoare _ (get_medicine_time _) _ _ => apply get_medicine_time_order, Hst
    | |- hoare _ (status_command_handler _) _ _ => apply order_at, status_command_order
    | |- hoare _ (delete_medicine_command_handler _) _ _ =>
        apply order_at, delete_medicine_command_order
    | |- hoare _ (get_medicine_name_to_delete _) _ _ =>
        apply order_at, get_medicine_name_to_delete_order
    | |- hoare _ (echo_handler _) _ _ => apply order_at, echo_order
    end.
Qed.

Lemma order_state {A} (m : M A) s :
  keeps_order m -> orderly s -> orderly (snd (m s)).
Proof.
  intros H Hs. specialize (H s Hs). unfold orderly.
  destruct (m s) as [[a | e] s']; exact H.
Qed.

(** A sweep only decrements and deletes. *)
Lemma sweep_order now_utc s : orderly s -> orderly (snd (sweep now_utc s)).
Proof.
  revert s. change (keeps (fun s s' => orderly s -> orderly s') (sweep now_utc)).
  apply keeps_sweep; try (intros; assumption).
  - intros a b c Hab Hbc Ha. apply Hbc, Hab, Ha.
  - intros s mid amount H.
    apply (orderly_rows
             (map (fun r => if medicine_id r =? mid
                            then with_remaining r (qty_minus (remaining_quantity r) amount)
                            else r) (medicines s)) (tables s));
      [apply rows_after_decrement | | exact H].
    rewrite keys_after_decrement. apply H.
  - intros s f H.
    apply (orderly_rows (filter f (medicines s)) (tables s));
      [apply rows_after_filter | apply NoDup_keys_filter, H | exact H].
Qed.

Lemma initial_order : orderly initial.
Proof.
  split; [intros r H; inversion H |].
  split; [constructor |]. split; [simpl; lia | intros uid c H; inversion H].
Qed.

Lemma step_order s ev : orderly s -> orderly (step s ev).
Proof.
  intro H. destruct ev as [m outcomes | now_utc outcomes]; simpl.
  - apply order_state; [apply router_order | exact H].
  - apply sweep_order. exact H.
Qed.

Lemma run_order evs : forall s, orderly s -> orderly (run s evs).
Proof.
  induction evs as [| ev rest IH]; intros s H; simpl; [exact H |].
  apply IH, step_order, H.
Qed.

End Orderly.

(** * What holds of every state the bot reaches *)

Section Reachable.

Context {num : PyNum} {tzdata : TzData}.

Lemma reachable_complete evs r :
  In r (medicines (run initial evs)) -> complete (tables (run initial evs)) r.
Proof. apply (proj1 (run_order evs initial initial_order)). Qed.

Lemma is_dosage_unit_label unit_ :
  is_dosage_unit unit_ = true ->
  unit_ = Some "Таблетки" \/ unit_ = Some "гр" \/ unit_ = Some "мл".
Proof.
  destruct unit_ as [u |]; [| discriminate]. unfold is_dosage_unit.
  rewrite !orb_true_iff, !String.eqb_eq. intros [[-> | ->] | ->]; auto.
Qed.

(** X9. In every state the bot reaches from an empty database, every
    stored record has one of the three units of the keyboard, and a
    number of doses per package that is there, is not negative and fits
    the 64 bits of an SQLite integer. *)
Theorem stored_records_are_complete evs r :
  In r (medicines (run initial evs)) ->
  (dosage_unit r = Some "Таблетки" \/ dosage_unit r = Some "гр"
   \/ dosage_unit r = Some "мл")
  /\ (exists q, doses_quantity r = Some q /\ 0 <= q <= 2 ^ 63 - 1).
Proof.
  intro H. destruct (reachable_complete evs r H) as [Hu [Hq _]].
  split; [apply is_dosage_unit_label, Hu | exact Hq].
Qed.

(** X10. In every state the bot reaches from an empty database, the
    reminder times of every stored record are times the sweep can read:
    line 83 of bot.py parses them all, to hours from 0 to 23 and minutes
    from 0 to 59. *)
Theorem stored_times_always_parse evs r :
  In r (medicines (run initial evs)) ->
  exists times,
    parse_reminder_times (reminder_time r) = Some times
    /\ Forall in_range times.
Proof.
  intro H. destruct (reachable_complete evs r H) as [_ [_ [Ht _]]].
  destruct (valid_times_parse _ Ht) as [times [Hp [_ Hr]]].
  exists times. split; assumption.
Qed.

(** X11. In every state the bot reaches from an empty database, the owner
    of every stored record has a timezone that is not empty: [/add]
    refuses to start without one, and nothing removes it. *)
Theorem every_owner_has_a_timezone evs r :
  In r (medicines (run initial evs)) ->
  exists c rest,
    lookup (user_id r) (users (run initial evs)) = Some (String c rest).
Proof.
  intro H. destruct (reachable_complete evs r H) as [_ [_ [_ [Hz _]]]]. exact Hz.
Qed.

Lemma find_unique (rows : list Medicine) r :
  NoDup (map medicine_id rows) -> In r rows ->
  find (has_id (medicine_id r)) rows = Some r.
Proof.
  induction rows as [| x rows IH]; intros Hnd Hin; [inversion Hin |].
  simpl in Hnd. inversion Hnd as [| k ks Hnot Hrest]; subst.
  simpl. unfold has_id at 1. destruct Hin as [-> | Hin].
  - rewrite Z.eqb_refl. reflexivity.
  - destruct (medicine_id x =? medicine_id r) eqn:E.
    + exfalso. apply Hnot. apply Z.eqb_eq in E. rewrite E.
      apply in_map, Hin.
    + apply IH; assumption.
Qed.

(** X12. In every state the bot reaches from an empty database, no two
    stored records have the same key, every key is one already given
    out, and the record [get_medicine_by_id] selects for the key of a
    stored record is that record. *)
Theorem medicine_keys_are_unique evs :
  NoDup (map medicine_id (medicines (run initial evs)))
  /\ (forall r, In r (medicines (run initial evs)) ->
        1 <= medicine_id r < next_id (run initial evs)
        /\ find (has_id (medicine_id r)) (medicines (run initial evs)) = Some r).
Proof.
  destruct (run_order evs initial initial_order) as [Hr [Hnd _]].
  split; [exact Hnd |]. intros r H. split.
  - apply (Hr r H).
  - apply find_unique; assumption.
Qed.

(** X13. In every state the bot reaches from an empty database, a user
    who is in the middle of the [AddMedicine] dialogue has a timezone. *)
Theorem timezone_precedes_the_dialogue evs uid :
  adding (fsm_state (context_of uid (run initial evs))) = true ->
  exists c rest, lookup uid (users (run initial evs)) = Some (String c rest).
Proof.
  intro H.
  destruct (dialogue_of_ok (tables (run initial evs)) uid
              (run_order evs initial initial_order)) as [_ [_ Hz]].
  apply Hz, H.
Qed.

(** *** What a sweep can raise *)

Lemma read_raises {A} (f : State -> A) s e :
  fst (bind (io DatabaseError) (fun _ => gets f) s) = Raise e -> e = DatabaseError.
Proof.
  unfold bind, io, gets. destruct (faults s) as [| [|] later]; simpl; congruence.
Qed.

Lemma read_returns {A} (f : State -> A) s a s' :
  bind (io DatabaseError) (fun _ => gets f) s = (Ok a, s') ->
  a = f s' /\ s' = set_faults (tl (faults s)) s.
Proof.
  unfold bind, io, gets. destruct s as [u m n c o l fs].
  destruct fs as [| [|] later]; simpl; intro H; inversion H; split; reflexivity.
Qed.

Lemma check_medicine_raises now_utc r s e :
  valid_times (reminder_time r) ->
  fst (check_medicine now_utc r s) = Raise e -> (e = DatabaseError \/ e = UnknownTimeZoneError).
Proof.
  intros Hv. destruct (valid_times_parse _ Hv) as [times [Hp _]].
  unfold check_medicine. rewrite Hp.
  destruct (get_user_timezone (user_id r) s) as [[zone | e0] s1] eqn:Hz.
  - rewrite (bind_returns _ _ _ _ _ Hz).
    destruct zone as [[| c rest] |]; try discriminate.
    destruct (pytz_timezone (String c rest)) as [zone |].
    + change (fst (for_each (enumerate times)
                            (check_time (local_time (zone now_utc) now_utc) r (doseAmounts r))
                            s1) = Raise e ->
              e = DatabaseError \/ e = UnknownTimeZoneError).
      rewrite (proj1 (check_times_due _ r (enumerate times) s1)). discriminate.
    + intro H. injection H as <-. right. reflexivity.
  - intro H. unfold bind in H. rewrite Hz in H. simpl in H.
    injection H as <-. left.
    apply (read_raises (fun s => lookup (user_id r) (users s)) s).
    unfold get_user_timezone in Hz. rewrite Hz. reflexivity.
Qed.

Lemma for_each_raises {A} (allowed : exn -> Prop) (l : list A) (body : A -> M unit) :
  (forall x s e, In x l -> fst (body x s) = Raise e -> allowed e) ->
  forall s e, fst (for_each l body s) = Raise e -> allowed e.
Proof.
  induction l as [| x rest IH]; intros Hbody s e; simpl; [discriminate |].
  unfold bind. pose proof (Hbody x s) as Hx.
  destruct (body x s) as [[[] | e0] s1]; simpl in *.
  - apply IH. intros y s0 e1 Hy. apply Hbody. auto.
  - intros [= <-]. apply (Hx e0); auto.
Qed.

Lemma sweep_raises now_utc s e :
  (forall r, In r (medicines s) -> valid_times (reminder_time r)) ->
  fst (sweep now_utc s) = Raise e -> (e = DatabaseError \/ e = UnknownTimeZoneError).
Proof.
  intros Hv. unfold sweep, get_all_medicines_with_time.
  destruct (bind (io DatabaseError) (fun _ => gets medicines) s) as [[found | e0] s1] eqn:Hr.
  - rewrite (bind_returns _ _ _ _ _ Hr).
    destruct (read_returns _ _ _ _ Hr) as [-> ->].
    unfold bind at 1, logging, modify.
    apply (for_each_raises (fun e => e = DatabaseError \/ e = UnknownTimeZoneError)).
    intros r s0 e1 Hin. apply check_medicine_raises, Hv, Hin.
  - intro H. unfold bind at 1 in H. rewrite Hr in H. simpl in H. injection H as <-.
    left. apply (read_raises medicines s). rewrite Hr. reflexivity.
Qed.

(** X14. From every state the bot reaches from an empty database, a sweep
    that raises raises because a database call failed or because the
    zone table does not know the timezone of an owner: [strptime] at line
    83 of bot.py never raises on times the dialogue stored.  And a stored
    record is handled without raising, whatever the calls of its
    dispatches do, when the lookup of its owner's timezone goes through
    and the zone table knows the zone. *)
Theorem sweep_never_fails_on_stored_times evs now_utc outcomes :
  (forall e,
      fst (sweep now_utc (set_faults outcomes (run initial evs))) = Raise e ->
      e = DatabaseError \/ e = UnknownTimeZoneError)
  /\ (forall r,
        In r (medicines (run initial evs)) ->
        hd false outcomes = false ->
        (forall zone_name,
            lookup (user_id r) (users (run initial evs)) = Some zone_name ->
            pytz_timezone zone_name <> None) ->
        fst (check_medicine now_utc r (set_faults outcomes (run initial evs))) = Ok tt).
Proof.
  split.
  - intro e. apply sweep_raises. intros r H.
    destruct (reachable_complete evs r H) as [_ [_ [Ht _]]]. exact Ht.
  - intros r Hin Hhd Hknown.
    destruct (reachable_complete evs r Hin) as [_ [_ [Ht [[c [rest Hz]] _]]]].
    destruct (valid_times_parse _ Ht) as [times [Hp _]].
    destruct (pytz_timezone (String c rest)) as [zone |] eqn:Hzone;
      [| destruct (Hknown _ Hz Hzone)].
    rewrite (check_medicine_runs now_utc r (set_faults outcomes (run initial evs))
               (String c rest) zone times Hz ltac:(discriminate) Hzone Hp Hhd).
    apply check_times_due.
Qed.

(** X22. In every state the bot reaches from an empty database, the due
    event of every reminder time of every stored record carries a dose
    [float] accepts, the dose at the index of the reminder time: the
    placeholder of line 89 is never sent, and the amount taken off the
    stock is that dose, not the fallback of lines 51 to 55. *)
Theorem dispatched_doses_always_parse evs r i t :
  In r (medicines (run initial evs)) ->
  (i < List.length (reminderTimes r))%nat ->
  exists v,
    py_float (due_dose (emitted r (i, t))) = Some v
    /\ due_dose (emitted r (i, t)) = nth i (doseAmounts r) ""
    /\ (forall mid s, dosage_val (due_dose (emitted r (i, t))) mid s = (Ok (inr v), s)).
Proof.
  intros Hin Hi.
  destruct (run_sound evs initial initial_sound) as [Hlen [Hnum _]].
  rewrite <- (Hlen r Hin) in Hi.
  assert (Hdose : due_dose (emitted r (i, t)) = nth i (doseAmounts r) "").
  { unfold emitted, dose_to_send. cbn [due_dose fst].
    apply Nat.ltb_lt in Hi. rewrite Hi. reflexivity. }
  pose proof (Hnum r Hin) as Hall. unfold all_numbers in Hall.
  rewrite forallb_forall in Hall.
  specialize (Hall (nth i (doseAmounts r) "") (nth_In _ _ Hi)).
  rewrite Hdose.
  destruct (py_float (nth i (doseAmounts r) "")) as [v |] eqn:Hv; [| discriminate].
  exists v. split; [reflexivity |]. split; [reflexivity |].
  intros mid s. unfold dosage_val, try_except, bind, of_option. rewrite Hv. reflexivity.
Qed.

End Reachable.

(** * What a handler leaves alone *)

Section HandlerFrame.

Context {num : PyNum} {tzdata : TzData}.

Variable m : Message.
Variable R : State -> State -> Prop.

Hypothesis R_refl : forall s, R s s.
Hypothesis R_trans : forall a b c, R a b -> R b c -> R a c.
Hypothesis R_faults : forall s later, R s (set_faults later s).
Hypothesis R_log : forall s e, R s (set_log (log s ++ [e]) s).
Hypothesis R_outbox : forall s sent, R s (set_outbox (outbox s ++ [sent]) s).
Hypothesis R_fsm : forall s c, R s (set_fsm ((from_user m, c) :: fsm s) s).
Hypothesis R_users :
  forall s zone, R s (set_users ((from_user m, zone) :: users s) s).
Hypothesis R_add :
  forall s r,
    user_id r = from_user m ->
    R s (set_next_id (next_id s + 1) (set_medicines (medicines s ++ [r]) s)).
Hypothesis R_delete_named :
  forall s wanted,
    R s (set_medicines
           (filter (fun r => negb ((user_id r =? from_user m) && name_is wanted r))
                   (medicines s)) s).

Ltac handler_step :=
  lazymatch goal with
  | |- keeps _ (bind _ _) => apply (keeps_bind R R_trans); [| intro]
  | |- keeps _ (ret _) => apply (keeps_ret R R_refl)
  | |- keeps _ (raise _) => apply (keeps_raise R R_refl)
  | |- keeps _ (try_except _ _) => apply (keeps_try_except R R_trans); [| intro]
  | |- keeps _ (try_finally _ _) => apply (keeps_try_finally R R_trans)
  | |- keeps _ (gets _) => apply (keeps_gets R R_refl)
  | |- keeps _ (of_option _ _) => apply (keeps_of_option R R_refl)
  | |- keeps _ (call _) => apply (keeps_call R R_refl)
  | |- keeps _ (io _) => apply (keeps_io R R_refl R_faults)
  | |- keeps _ (logging _) => intro; apply R_log
  | |- keeps _ (send_message _ _) =>
      apply (keeps_send_message R R_refl R_trans R_faults R_outbox)
  | |- keeps _ (answer _ _) =>
      apply (keeps_send_message R R_refl R_trans R_faults R_outbox)
  | |- keeps _ (modify _) =>
      apply keeps_modify; intro;
      first [apply R_fsm | apply R_users | apply R_add; reflexivity | apply R_delete_named]
  | |- keeps _ (match ?x with _ => _ end) => destruct x
  end.

Ltac handler_frame :=
  unfold get_state, get_data, set_state, update_data, clear,
    get_user_timezone, set_user_timezone, add_medicine, get_medicines_for_user,
    delete_medicine_by_name_and_user, get_timezone_from_location;
  repeat handler_step.

Lemma keeps_command_start : keeps R (command_start_handler m).
Proof. unfold command_start_handler. handler_frame. Qed.

Lemma keeps_timezone_command : keeps R (timezone_command_handler m).
Proof. unfold timezone_command_handler. handler_frame. Qed.

Lemma keeps_location g t : keeps R (location_handler m g t).
Proof. unfold location_handler. handler_frame. Qed.

Lemma keeps_wrong_content_type : keeps R (wrong_content_type_handler m).
Proof. unfold wrong_content_type_handler. handler_frame. Qed.

Lemma keeps_add_medicine_command : keeps R (add_medicine_command_handler m).
Proof. unfold add_medicine_command_handler. handler_frame. Qed.

Lemma keeps_get_medicine_name : keeps R (get_medicine_name m).
Proof. unfold get_medicine_name. handler_frame. Qed.

Lemma keeps_get_medicine_dosage : keeps R (get_medicine_dosage m).
Proof. unfold get_medicine_dosage. handler_frame. Qed.

Lemma keeps_get_dosage_unit : keeps R (get_dosage_unit m).
Proof. unfold get_dosage_unit. handler_frame. Qed.

Lemma keeps_wrong_dosage_unit : keeps R (wrong_dosage_unit_handler m).
Proof. unfold wrong_dosage_unit_handler. handler_frame. Qed.

Lemma keeps_get_medicine_quantity : keeps R (get_medicine_quantity m).
Proof. unfold get_medicine_quantity. handler_frame. Qed.

Lemma keeps_get_medicine_time : keeps R (get_medicine_time m).
Proof. unfold get_medicine_time. handler_frame. Qed.

Lemma keeps_status_command : keeps R (status_command_handler m).
Proof. unfold status_command_handler. handler_frame. Qed.

Lemma keeps_delete_medicine_command : keeps R (delete_medicine_command_handler m).
Proof. unfold delete_medicine_command_handler. handler_frame. Qed.

Lemma keeps_get_medicine_name_to_delete : keeps R (get_medicine_name_to_delete m).
Proof. unfold get_medicine_name_to_delete. handler_frame. Qed.

Lemma keeps_echo : keeps R (echo_handler m).
Proof. unfold echo_handler. handler_frame. Qed.

(** Whatever handler the message is routed to. *)
Lemma keeps_router : keeps R (router m).
Proof.
  unfold router.
  apply (keeps_bind R R_trans); [apply (keeps_gets R R_refl) | intro st].
  repeat lazymatch goal with
         | |- keeps _ (match ?x with _ => _ end) => destruct x
         | |- keeps _ (command_start_handler _) => apply keeps_command_start
         | |- keeps _ (timezone_command_handler _) => apply keeps_timezone_command
         | |- keeps _ (location_handler _ _ _) => apply keeps_location
         | |- keeps _ (wrong_content_type_handler _) => apply keeps_wrong_content_type
         | |- keeps _ (add_medicine_command_handler _) => apply keeps_add_medicine_command
         | |- keeps _ (get_medicine_name _) => apply keeps_get_medicine_name
         | |- keeps _ (get_medicine_dosage _) => apply keeps_get_medicine_dosage
         | |- keeps _ (get_dosage_unit _) => apply keeps_get_dosage_unit
         | |- keeps _ (wrong_dosage_unit_handler _) => apply keeps_wrong_dosage_unit
         | |- keeps _ (get_medicine_quantity _) => apply keeps_get_medicine_quantity
         | |- keeps _ (get_medicine_time _) => apply keeps_get_medicine_time
         | |- keeps _ (status_command_handler _) => apply keeps_status_command
         | |- keeps _ (delete_medicine_command_handler _) =>
             apply keeps_delete_medicine_command
         | |- keeps _ (get_medicine_name_to_delete _) =>
             apply keeps_get_medicine_name_to_delete
         | |- keeps _ (echo_handler _) => apply keeps_echo
         end.
Qed.

End HandlerFrame.

Section Isolation.

Context {num : PyNum} {tzdata : TzData}.

Lemma others_untouched_same uid s s' :
  users s' = users s -> fsm s' = fsm s -> medicines s' = medicines s ->
  others_untouched uid s s'.
Proof.
  intros Hu Hf Hm other _. unfold context_of, owned_by. rewrite Hu, Hf, Hm. auto.
Qed.

Lemma others_untouched_trans uid a b c :
  others_untouched uid a b -> others_untouched uid b c -> others_untouched uid a c.
Proof.
  intros Hab Hbc other Hne.
  destruct (Hab other Hne) as [H1 [H2 H3]]. destruct (Hbc other Hne) as [H4 [H5 H6]].
  repeat split; congruence.
Qed.

Lemma filter_same_on {A} (f g : A -> bool) (l : list A) :
  (forall x, g x = true -> f x = true) ->
  filter g (filter f l) = filter g l.
Proof.
  intro H. induction l as [| x l IH]; simpl; [reflexivity |].
  destruct (f x) eqn:Ef; simpl.
  - destruct (g x); [f_equal |]; exact IH.
  - destruct (g x) eqn:Eg; [| exact IH].
    rewrite (H x Eg) in Ef. discriminate.
Qed.

(** X15. Whatever a user sends, in whatever state, and whatever the calls
    do: the timezone, the dialogue and the records of every other user
    are as they were. *)
Theorem a_message_touches_only_its_sender m s other :
  other <> from_user m ->
  lookup other (users (snd (router m s))) = lookup other (users s)
  /\ context_of other (snd (router m s)) = context_of other s
  /\ owned_by other (snd (router m s)) = owned_by other s.
Proof.
  intro Hne. revert other Hne.
  change (others_untouched (from_user m) s (snd (router m s))).
  revert s. change (keeps (others_untouched (from_user m)) (router m)).
  apply keeps_router.
  - intro s. apply others_untouched_same; reflexivity.
  - apply others_untouched_trans.
  - intros s later. apply others_untouched_same; reflexivity.
  - intros s e. apply others_untouched_same; reflexivity.
  - intros s sent. apply others_untouched_same; reflexivity.
  - intros s c other Hne. unfold context_of, owned_by. simpl.
    apply Z.eqb_neq in Hne. rewrite Z.eqb_sym, Hne. auto.
  - intros s zone other Hne. unfold context_of, owned_by. simpl.
    apply Z.eqb_neq in Hne. rewrite Z.eqb_sym, Hne. auto.
  - intros s r Hr other Hne. unfold context_of, owned_by. simpl.
    split; [reflexivity |]. split; [reflexivity |].
    rewrite filter_app. simpl. rewrite Hr.
    apply Z.eqb_neq in Hne. rewrite Z.eqb_sym, Hne. apply app_nil_r.
  - intros s wanted other Hne. unfold context_of, owned_by. simpl.
    split; [reflexivity |]. split; [reflexivity |].
    apply filter_same_on. intros r Hr. apply Z.eqb_eq in Hr.
    assert (E : (user_id r =? from_user m) = false).
    { apply Z.eqb_neq. congruence. }
    rewrite E. reflexivity.
Qed.

End Isolation.

(** * The timezone dialogue *)

Section Location.

Context {num : PyNum} {tzdata : TzData}.


Lemma cleared_or_same_refl uid s : cleared_or_same uid s s.
Proof. left. reflexivity. Qed.

Lemma cleared_or_same_trans uid a b c :
  cleared_or_same uid a b -> cleared_or_same uid b c -> cleared_or_same uid a c.
Proof.
  unfold cleared_or_same. intros [Hab | Hab] [Hbc | Hbc]; rewrite Hbc; auto.
Qed.

Lemma cleared_or_same_fsm uid s s' : fsm s' = fsm s -> cleared_or_same uid s s'.
Proof. intro H. left. unfold context_of. rewrite H. reflexivity. Qed.

Lemma cleared_or_same_clear uid : keeps (cleared_or_same uid) (clear uid).
Proof. intro s. right. apply context_of_bound. Qed.

Lemma cleared_or_same_answer uid m text : keeps (cleared_or_same uid) (answer m text).
Proof. intro s. apply cleared_or_same_fsm. apply answer_keeps_tables. Qed.

Lemma resolver_keeps_dialogues reverse_ timezone_at s :
  fsm (snd (get_timezone_from_location reverse_ timezone_at s)) = fsm s.
Proof.
  destruct reverse_ as [[|] | []]; try destruct timezone_at as [[zone |] | []];
    reflexivity.
Qed.

Lemma set_user_timezone_keeps_dialogues uid zone s :
  fsm (snd (set_user_timezone uid zone s)) = fsm s.
Proof.
  unfold set_user_timezone, bind, io, modify.
  destruct (faults s) as [| [|] later]; reflexivity.
Qed.

Ltac location_step uid :=
  lazymatch goal with
  | |- keeps _ (bind _ _) =>
      apply (keeps_bind _ (cleared_or_same_trans uid)); [| intro]
  | |- keeps _ (try_except _ _) =>
      apply (keeps_try_except _ (cleared_or_same_trans uid)); [| intro]
  | |- keeps _ (answer _ _) => apply cleared_or_same_answer
  | |- keeps _ (clear _) => apply cleared_or_same_clear
  | |- keeps _ (get_timezone_from_location _ _) =>
      intro; apply cleared_or_same_fsm, resolver_keeps_dialogues
  | |- keeps _ (set_user_timezone _ _) =>
      intro; apply cleared_or_same_fsm, set_user_timezone_keeps_dialogues
  | |- keeps _ (logging _) => intro; apply cleared_or_same_fsm; reflexivity
  | |- keeps _ (match ?x with _ => _ end) => destruct x
  end.

(** X17. The handler of a location always ends the timezone dialogue:
    whatever the geocoder, the database and Telegram do, the user who
    was asked for a location is left with no state and no data. *)
Theorem location_always_ends_the_dialogue m reverse_ timezone_at s :
  fsm_state (context_of (from_user m) s) = Some WAITING_FOR_LOCATION ->
  context_of (from_user m) (snd (location_handler m reverse_ timezone_at s)) = fresh_fsm.
Proof.
  intro Hst. unfold location_handler, try_finally.
  match goal with
  | |- context [try_except ?b ?h s] =>
      assert (HR : keeps (cleared_or_same (from_user m)) (try_except b h))
  end.
  { repeat location_step (from_user m). }
  specialize (HR s). destruct (try_except _ _ s) as [res s1]. simpl in HR.
  unfold bind, get_state, gets, clear, modify.
  destruct HR as [E | E]; rewrite E; [rewrite Hst |];
    destruct res; simpl; try apply context_of_bound; exact E.
Qed.

Lemma lookup_bound {V} uid (v : V) l : lookup uid ((uid, v) :: l) = Some v.
Proof. simpl. rewrite Z.eqb_refl. reflexivity. Qed.

Lemma guarded_from {A} (m m' : M A) h fin s s1 :
  m s = m' s1 ->
  try_finally (try_except m h) fin s = try_finally (try_except m' h) fin s1.
Proof. unfold try_finally, try_except. intros ->. reflexivity. Qed.

Lemma set_user_timezone_returns uid zone s later :
  faults s = false :: later ->
  set_user_timezone uid zone s
  = (Ok tt, set_users ((uid, zone) :: users s) (set_faults later s)).
Proof.
  intro H. unfold set_user_timezone, bind, io, modify. rewrite H. reflexivity.
Qed.

(** X18. When the geocoder finds a place, [timezone_at] gives a name that
    is not empty and the database call goes through, the name is the
    timezone of the user from then on, whatever Telegram does with the
    answer; and no record has changed. *)
Theorem location_stores_the_zone m c rest s later :
  faults s = false :: later ->
  lookup (from_user m)
         (users (snd (location_handler m (Ok true) (Ok (Some (String c rest))) s)))
  = Some (String c rest)
  /\ medicines (snd (location_handler m (Ok true) (Ok (Some (String c rest))) s))
     = medicines s.
Proof.
  intro Hf. unfold location_handler.
  pose (R := fun s s' : State => users s' = users s /\ medicines s' = medicines s).
  assert (R_refl : forall s, R s s) by (intro; split; reflexivity).
  assert (R_trans : forall a b c, R a b -> R b c -> R a c).
  { intros a b d [H1 H2] [H3 H4]. split; congruence. }
  assert (R_answer : forall text, keeps R (answer m text)).
  { intro text. apply keeps_send_message; try assumption; intros; split; reflexivity. }
  assert (R_clear : keeps R (clear (from_user m))) by (intro; split; reflexivity).
  match goal with
  | |- context [try_finally (try_except ?body ?h) ?fin s] =>
      lazymatch body with
      | bind _ ?k =>
          rewrite (guarded_from body (k (Some (String c rest))) h fin s s eq_refl)
      end;
      assert (Htail : forall text, keeps R (try_finally (try_except (answer m text) h) fin))
  end.
  { intro text. apply (keeps_try_finally R R_trans).
    - apply (keeps_try_except R R_trans); [apply R_answer | intro e].
      destruct e;
        repeat lazymatch goal with
               | |- keeps _ (answer _ _) => apply R_answer
               | |- keeps _ (clear _) => apply R_clear
               | |- keeps _ (logging _) => intro; split; reflexivity
               | |- keeps _ (bind _ _) => apply (keeps_bind R R_trans); [| intro]
               end.
    - apply (keeps_bind R R_trans); [intro; split; reflexivity | intros st].
      destruct st as [[] |]; first [apply R_clear | apply (keeps_ret R R_refl)]. }
  cbv beta iota.
  erewrite guarded_from
    by (rewrite (bind_returns _ _ _ _ _ (set_user_timezone_returns _ _ _ _ Hf));
        reflexivity).
  match goal with
  | |- context [try_finally (try_except (answer m ?text) ?h) ?fin ?s1] =>
      destruct (Htail text s1) as [Hu Hm]
  end.
  rewrite Hu, Hm. split; [apply lookup_bound | reflexivity].
Qed.

End Location.

(** * What the scheduler leaves alone *)

Section Scheduler.

Context {num : PyNum} {tzdata : TzData}.

Lemma only_uses_up_same s s' :
  users s' = users s -> fsm s' = fsm s -> next_id s' = next_id s ->
  medicines s' = medicines s -> only_uses_up s s'.
Proof.
  intros Hu Hf Hn Hm. repeat split; try assumption.
  - apply rows_kept_same, Hm.
  - rewrite Hm. apply Nat.le_refl.
Qed.

Lemma only_uses_up_trans a b c :
  only_uses_up a b -> only_uses_up b c -> only_uses_up a c.
Proof.
  intros [H1 [H2 [H3 [H4 H5]]]] [G1 [G2 [G3 [G4 G5]]]].
  split; [congruence |]. split; [congruence |]. split; [congruence |].
  split; [eapply rows_kept_trans; eassumption | eapply Nat.le_trans; eassumption].
Qed.

Lemma sweep_only_uses_up now_utc : keeps only_uses_up (sweep now_utc).
Proof.
  apply keeps_sweep; try (intros; apply only_uses_up_same; reflexivity).
  - apply only_uses_up_trans.
  - intros s mid amount. split; [reflexivity |]. split; [reflexivity |].
    split; [reflexivity |]. split.
    + intros r' H'. apply rows_after_decrement in H'. exact H'.
    + simpl. rewrite length_map. apply Nat.le_refl.
  - intros s f. split; [reflexivity |]. split; [reflexivity |].
    split; [reflexivity |]. split.
    + intros r' H'. apply rows_after_filter in H'. exact H'.
    + simpl. apply filter_length_le.
Qed.

(** X19. However long the scheduler runs and whatever the calls do, it
    adds no record and changes no timezone, no dialogue and no key: every
    record it leaves is a record that was there, with at most another
    remaining quantity. *)
Theorem scheduler_only_uses_up clock s :
  users (snd (scheduler_setup clock s)) = users s
  /\ fsm (snd (scheduler_setup clock s)) = fsm s
  /\ next_id (snd (scheduler_setup clock s)) = next_id s
  /\ (List.length (medicines (snd (scheduler_setup clock s)))
      <= List.length (medicines s))%nat
  /\ (forall r', In r' (medicines (snd (scheduler_setup clock s))) ->
        exists r, In r (medicines s)
                  /\ r' = with_remaining r (remaining_quantity r')).
Proof.
  assert (H : keeps only_uses_up (scheduler_setup clock)).
  { unfold scheduler_setup.
    apply (keeps_bind _ only_uses_up_trans).
    - intro s0. apply only_uses_up_same; reflexivity.
    - intros _. induction clock as [| now_utc later IH]; simpl.
      + intro s0. apply only_uses_up_same; reflexivity.
      + apply (keeps_bind _ only_uses_up_trans);
          [apply sweep_only_uses_up | intros _; exact IH]. }
  destruct (H s) as [H1 [H2 [H3 [H4 H5]]]]. auto.
Qed.

End Scheduler.

(** * A dialogue that goes through *)

Section EndToEnd.

Context {num : PyNum} {tzdata : TzData}.











End EndToEnd.

(** * Worked examples *)

(** C1 for an owner three hours ahead and the reminder time "08:00".  The
    sweep at 05:00:00 UTC logs one due event, delivers the reminder to the
    owner and takes the dose off the record; so does, for the due event,
    the sweep at 05:00:59; the sweeps at 04:59 and at 05:01 find nothing
    due.  The due event is there as well when Telegram refuses the
    reminder. *)
Lemma due_exactly_at_local_minute_witness :
  let r := aspirin 2 2 in
  let s := one_owner [r] [] in
  let due := LogDue 7 (Some "Аспирин") (8, 0) "1" (Some "Таблетки") in
  parse_reminder_times "08:00, 9:05 ,20:30" = Some [(8, 0); (9, 5); (20, 30)]
  /\ due_events (log (snd (sweep five_utc s))) = [due]
  /\ outbox (snd (sweep five_utc s))
     = [(7, "⏰ Напоминание! Примите 1 Таблетки Аспирин 💊")]
  /\ medicines (snd (sweep five_utc s)) = [aspirin 2 1]
  /\ due_events (log (snd (sweep (five_utc + 59) s))) = [due]
  /\ due_events (log (snd (sweep (five_utc - 60) s))) = []
  /\ due_events (log (snd (sweep (five_utc + 60) s))) = []
  /\ due_events (log (snd (check_medicine five_utc r (one_owner [r] [false; true]))))
     = [due].
Proof.
  intros r s due.
  destruct (due_exactly_at_local_minute (num := exact_decimal) (tzdata := fixed_zones))
    as [Hrecord [Hsweep [Hparse _]]].
  assert (Hin : forall t, 0 <= fst t <= 23 -> 0 <= snd t <= 59 -> in_range t)
    by (intros t H1 H2; split; assumption).
  assert (Hrows : forall r', In r' (medicines s) ->
            exists zone_name,
              lookup (user_id r') (users s) = Some zone_name
              /\ zone_name <> ""
              /\ pytz_timezone zone_name = Some ((fun _ _ => 10800) r')
              /\ parse_reminder_times (reminder_time r')
                 = Some ((fun _ => [(8, 0)]) r')).
  { intros r' [<- | []]. exists "Etc/GMT-3".
    split; [reflexivity |]. split; [discriminate |]. split; [reflexivity |].
    apply Hparse.
    constructor; [split; [apply Hin; cbn [fst snd]; lia | left; reflexivity] |].
    constructor. }
  assert (H : forall now_utc,
             sweep now_utc s
             = bind (logging (LogSweep now_utc (List.length (medicines s))))
                    (fun _ =>
                       for_each (medicines s)
                         (fun r' => for_each (due_now (local_time 10800 now_utc) r' [(8, 0)])
                                             dispatch)) s
             /\ due_events (log (snd (sweep now_utc s)))
                = (due_events (log s)
                   ++ flat_map (fun r' => map (due_event r')
                                              (matching (local_time 10800 now_utc) [(8, 0)]))
                               (medicines s))%list).
  { intro now_utc.
    destruct (Hsweep now_utc s (fun _ _ => 10800) (fun _ => [(8, 0)]) eq_refl Hrows)
      as [H1 [_ H3]].
    split; [exact H1 | exact H3]. }
  split.
  { apply Hparse.
    constructor; [split; [apply Hin; cbn [fst snd]; lia | left; reflexivity] |].
    constructor;
      [split; [apply Hin; cbn [fst snd]; lia
              | right; split; [cbn [fst]; lia | reflexivity]] |].
    constructor; [split; [apply Hin; cbn [fst snd]; lia | left; reflexivity] |].
    constructor. }
  split; [rewrite (proj2 (H five_utc)); reflexivity |].
  split; [rewrite (proj1 (H five_utc)); reflexivity |].
  split; [rewrite (proj1 (H five_utc)); reflexivity |].
  split; [rewrite (proj2 (H (five_utc + 59))); reflexivity |].
  split; [rewrite (proj2 (H (five_utc - 60))); reflexivity |].
  split; [rewrite (proj2 (H (five_utc + 60))); reflexivity |].
  destruct (Hrecord five_utc r (one_owner [r] [false; true]) "Etc/GMT-3"
              (fun _ => 10800) [(8, 0)] eq_refl) as [_ [_ H3]];
    [discriminate | reflexivity | reflexivity | reflexivity |].
  rewrite H3. reflexivity.
Defined.

(** The scheduler is started for two readings of the clock and the first
    listing of the medicines raises: the exception ends the scheduler, it
    is not logged, and the second reading gets no sweep. *)
Lemma failed_listing_ends_the_scheduler :
  scheduler_setup [five_utc; five_utc + 60] (one_owner [aspirin 2 2] [true])
  = (Raise DatabaseError, set_log [LogSchedulerStart] (one_owner [aspirin 2 2] [])).
Proof. reflexivity. Qed.

Lemma only_dispatch_failures_are_caught_witness :
  (exists s' e before,
      send_reminder 7 1 (Some "Аспирин") "1" (Some "Таблетки")
                    (one_owner [aspirin 2 2] [false; true]) = (Ok tt, s')
      /\ (e = TelegramAPIError \/ e = DatabaseError)
      /\ log s' = (before ++ [LogReminderError 7 e])%list)
  /\ (exists s' before,
        send_reminder 7 1 (Some "Аспирин") "abc" (Some "Таблетки")
                      (one_owner [aspirin 2 2] []) = (Ok tt, s')
        /\ log s' = (before ++ [LogReminderError 7 ValueError])%list)
  /\ (exists s' before,
        send_reminder 7 1 (Some "Аспирин") "1" (Some "Таблетки")
                      (one_owner [with_remaining (aspirin 2 2) None] []) = (Ok tt, s')
        /\ log s' = (before ++ [LogReminderError 7 TypeError])%list)
  /\ fst (scheduler_setup [five_utc; five_utc + 60] (one_owner [aspirin 2 2] [true]))
     = Raise DatabaseError
  /\ fst (scheduler_setup [five_utc; five_utc + 60] (one_owner [aspirin 2 2] [false; true]))
     = Raise DatabaseError.
Proof.
  destruct (only_dispatch_failures_are_caught (num := exact_decimal) (tzdata := fixed_zones))
    as [H1 [_ [H2 H3]]].
  split.
  { destruct (H1 7 1 (Some "Аспирин") "1" (Some "Таблетки")
                 (one_owner [aspirin 2 2] [false; true])) as [s' [E [Hcall _]]].
    assert (Es : s' = snd (send_reminder 7 1 (Some "Аспирин") "1" (Some "Таблетки")
                                         (one_owner [aspirin 2 2] [false; true])))
      by (rewrite E; reflexivity).
    destruct Hcall as [e [before [He Hlog]]].
    { exists [false]. rewrite Es. split; reflexivity. }
    exists s', e, before. split; [exact E |]. split; [exact He | exact Hlog]. }
  split.
  { destruct (H1 7 1 (Some "Аспирин") "abc" (Some "Таблетки")
                 (one_owner [aspirin 2 2] [])) as [s' [E [_ [Hdose _]]]].
    destruct (Hdose eq_refl) as [before Hlog].
    exists s', before. split; [exact E | exact Hlog]. }
  split.
  { destruct (H1 7 1 (Some "Аспирин") "1" (Some "Таблетки")
                 (one_owner [with_remaining (aspirin 2 2) None] []))
      as [s' [E [_ [_ Hnull]]]].
    destruct (Hnull 1%Q (with_remaining (aspirin 2 2) None) eq_refl eq_refl eq_refl eq_refl)
      as [before Hlog].
    exists s', before. split; [exact E | exact Hlog]. }
  split.
  - exact (f_equal fst (H2 five_utc [five_utc + 60] (one_owner [aspirin 2 2] [true])
                           [] eq_refl)).
  - exact (f_equal fst (H3 five_utc [five_utc + 60] (one_owner [aspirin 2 2] [false; true])
                           (aspirin 2 2) [] [] eq_refl eq_refl)).
Defined.

(** User 7 adds a medicine with a quantity of 0: the record is stored
    with a remaining quantity of 0.  The sweep at 08:00 local time finds it
    due and dispatches it, and the record is still there afterwards, for
    that sweep and for the one a day later. *)
Lemma exhausted_record_survives_sweeps :
  let s0 := run initial (dialogue "1" "0" "08:00") in
  let s1 := step s0 (Tick five_utc []) in
  let s2 := step s1 (Tick (five_utc + 86400) []) in
  medicines s0 = [aspirin 0 0]
  /\ qty_le0 (remaining_quantity (aspirin 0 0)) = Some true
  /\ List.length (due_events (log s1)) = 1%nat
  /\ fst (get_medicine_by_id 1 s1) = Ok (Some (aspirin 0 0))
  /\ List.length (due_events (log s2)) = 2%nat
  /\ fst (get_medicine_by_id 1 s2) = Ok (Some (aspirin 0 0)).
Proof. intros s0 s1 s2. repeat split; reflexivity. Qed.

Lemma depletion_deletes_only_after_decrement_witness :
  find (has_id 1)
       (medicines (snd (send_reminder 7 1 (Some "Аспирин") "1" (Some "Таблетки")
                                      (one_owner [aspirin 2 1] [])))) = None
  /\ find (has_id 1)
          (medicines (snd (send_reminder 7 1 (Some "Аспирин") "1" (Some "Таблетки")
                                         (one_owner [aspirin 2 0] [])))) = Some (aspirin 2 0)
  /\ log (snd (send_reminder 7 1 (Some "Аспирин") "1" (Some "Таблетки")
                             (one_owner [aspirin 2 0] [])))
     = [LogSending 7 (Some "Аспирин") "1" (Some "Таблетки"); LogSent 7;
        LogAlreadyEmpty (Some "Аспирин") 1].
Proof.
  split.
  - apply (depletion_deletes_only_after_decrement 7 1 (Some "Аспирин") "1"
             (Some "Таблетки") (one_owner [aspirin 2 1] []) (aspirin 2 1) 1%Q);
      reflexivity.
  - destruct (depletion_deletes_only_after_decrement 7 1 (Some "Аспирин") "1"
                (Some "Таблетки") (one_owner [aspirin 2 0] []) (aspirin 2 0) 1%Q
                eq_refl eq_refl eq_refl) as [_ H].
    destruct (H eq_refl eq_refl) as [_ [Hfind [_ Hlog]]].
    split; [exact Hfind | exact Hlog].
Defined.

(** X21 at the dose "abc". *)
Lemma unparsable_dose_aborts_witness :
  let s := one_owner [aspirin 2 2] [] in
  send_reminder 7 1 (Some "Аспирин") "abc" (Some "Таблетки") s
  = (Ok tt,
     set_log [LogSending 7 (Some "Аспирин") "abc" (Some "Таблетки");
              LogReminderError 7 ValueError] s).
Proof.
  intro s.
  apply (unparsable_dose_aborts 7 1 (Some "Аспирин") "abc" (Some "Таблетки") s).
  reflexivity.
Defined.

(** User 7 enters the doses "0, -1": both are numbers for [float], and
    the record is stored with them. *)
Lemma zero_and_negative_doses_are_stored :
  let s := run initial (dialogue "0, -1" "10" "8:00, 20:00") in
  map dosage (medicines s) = ["0, -1"]
  /\ map (fun r => map py_float (doseAmounts r)) (medicines s)
     = [[Some 0%Q; Some (-1)%Q]].
Proof. intro s. split; [reflexivity | vm_compute; reflexivity]. Qed.

Lemma stored_doses_are_numbers_witness :
  all_numbers (doseAmounts (mkMedicine 1 7 (Some "Аспирин") "0, -1" (Some "Таблетки")
                                       (Some 10) "8:00, 20:00" (Some 10%Q))) = true
  /\ medicines (snd (get_medicine_dosage (mkMessage 7 (Text "1, много" None))
                                         (one_owner [] []))) = [].
Proof.
  destruct (stored_doses_are_numbers (num := exact_decimal) (tzdata := fixed_zones))
    as [H1 H2].
  split.
  - apply (H1 (dialogue "0, -1" "10" "8:00, 20:00")).
    assert (E : medicines (run initial (dialogue "0, -1" "10" "8:00, 20:00"))
                = [mkMedicine 1 7 (Some "Аспирин") "0, -1" (Some "Таблетки")
                              (Some 10) "8:00, 20:00" (Some 10%Q)]) by reflexivity.
    rewrite E. left. reflexivity.
  - apply (H2 (mkMessage 7 (Text "1, много" None)) (one_owner [] []) "1, много");
      [reflexivity | vm_compute; reflexivity].
Defined.

(** C6 for the record of a finished dialogue, for a dialogue that ends
    with one time for two doses, and for the sweep that takes the last
    tablet. *)
Lemma dose_and_time_lists_always_agree_witness :
  let r := mkMedicine 1 7 (Some "Аспирин") "1, 2" (Some "Таблетки") (Some 10)
                      "8:00, 20:00" (Some 10%Q) in
  List.length (doseAmounts r) = List.length (reminderTimes r)
  /\ medicines (snd (get_medicine_time (mkMessage 7 (Text "8:00" None))
                                       (awaiting_times "1, 2"))) = []
  /\ (forall r',
        In r' (medicines (snd (sweep five_utc (one_owner [aspirin 2 2] [])))) ->
        exists r0, In r0 [aspirin 2 2] /\ doseAmounts r' = doseAmounts r0).
Proof.
  intro r.
  destruct (dose_and_time_lists_always_agree (num := exact_decimal) (tzdata := fixed_zones))
    as [H1 [H2 H3]].
  split; [| split].
  - apply (H1 (dialogue "1, 2" "10" "8:00, 20:00")).
    assert (E : medicines (run initial (dialogue "1, 2" "10" "8:00, 20:00")) = [r])
      by reflexivity.
    rewrite E. left. reflexivity.
  - apply (H2 (mkMessage 7 (Text "8:00" None)) (awaiting_times "1, 2") "8:00" "1, 2");
      [reflexivity | reflexivity | vm_compute; discriminate].
  - intros r' Hr'.
    destruct (H3 five_utc (one_owner [aspirin 2 2] []) r' Hr') as [r0 [Hin [_ [Hd _]]]].
    exists r0. split; [exact Hin | exact Hd].
Defined.

(** C7 at the dose "1.50". *)
Lemma reminder_text_states_trimmed_dose_witness :
  reminder_message "1.50" (Some "Таблетки") (Some "Аспирин")
  = "⏰ Напоминание! Примите 1.5 Таблетки Аспирин 💊"
  /\ (exists more,
        outbox (snd (send_reminder 7 1 (Some "Аспирин") "1.50" (Some "Таблетки")
                                   (one_owner [aspirin 2 2] [])))
        = (7, "⏰ Напоминание! Примите 1.5 Таблетки Аспирин 💊") :: more).
Proof.
  destruct (reminder_text_states_trimmed_dose (num := exact_decimal)
              "1.50" (Some "Таблетки") (Some "Аспирин"))
    as [H1 [_ [H3 [_ [_ H6]]]]].
  destruct (H3 eq_refl) as [dots [zeros _]].
  split; [rewrite H1; reflexivity |].
  destruct (H6 7 1 (one_owner [aspirin 2 2] []) (3 # 2)%Q eq_refl eq_refl) as [more Hm].
  exists more. exact Hm.
Defined.

(** C8 for a record whose owner never set a timezone. *)
Lemma missing_timezone_skips_record_witness :
  let s := mkState [] [aspirin 2 2] 2 [] [] [] [] in
  check_medicine five_utc (aspirin 2 2) s
  = (Ok tt, set_log [LogNoTimezone 7 (Some "Аспирин")] s).
Proof.
  intro s.
  apply (missing_timezone_skips_record five_utc (aspirin 2 2) s); reflexivity.
Defined.

(** C9 for the sweep at 04:59 UTC. *)
Lemma quiet_sweep_changes_nothing_witness :
  let s := one_owner [aspirin 2 2] [] in
  still s (snd (sweep (five_utc - 60) s)).
Proof.
  intro s.
  apply (quiet_sweep_changes_nothing (five_utc - 60) s).
  intros r [<- | []] zone_name zone times Hu Hz Hp t Ht.
  vm_compute in Hu. injection Hu as <-.
  vm_compute in Hz. injection Hz as <-.
  vm_compute in Hp. injection Hp as <-.
  destruct Ht as [<- | []]. reflexivity.
Defined.

(** C10 when Telegram refuses the reminder. *)
Lemma send_failure_leaves_store_witness :
  let s := one_owner [aspirin 2 2] [true] in
  untouched s (snd (send_reminder 7 1 (Some "Аспирин") "1" (Some "Таблетки") s)).
Proof.
  intro s.
  apply (send_failure_leaves_store 7 1 (Some "Аспирин") "1" (Some "Таблетки") s 1%Q []);
    reflexivity.
Defined.

(** * Further worked examples *)

(** X1 at the time "8:05". *)
Lemma accepted_times_parse_in_range_witness :
  (exists t, strptime_HM "8:05" = Some t /\ in_range t) /\ in_range (8, 5).
Proof.
  destruct accepted_times_parse_in_range as [H1 H2].
  split; [apply (H1 "8:05"); reflexivity | apply (H2 "8:05" (8, 5)); reflexivity].
Defined.

(** The two zones of the examples never change their offset, a whole
    number of minutes. *)
Lemma fixed_zones_constant zone_name zone :
  pytz_timezone zone_name = Some zone ->
  (forall a b, zone a = zone b) /\ (forall a, zone a mod 60 = 0).
Proof.
  unfold pytz_timezone, fixed_zones.
  destruct (String.eqb zone_name "UTC");
    [intro H; injection H as <-; split; reflexivity |].
  destruct (String.eqb zone_name "Etc/GMT-3");
    [intro H; injection H as <-; split; reflexivity | discriminate].
Qed.

(** X2 three hours ahead of UTC: 59 seconds after 05:00:00 UTC and a day
    after it, the record is handled as at 05:00:00. *)
Lemma local_time_is_a_clock_time_witness :
  let r := aspirin 2 2 in
  let s := one_owner [r] [] in
  in_range (local_time 10800 five_utc)
  /\ check_medicine (five_utc + 59) r s = check_medicine five_utc r s
  /\ check_medicine (five_utc + 86400) r s = check_medicine five_utc r s.
Proof.
  intros r s.
  destruct (local_time_is_a_clock_time (num := exact_decimal) (tzdata := fixed_zones))
    as [H1 [H2 H3]].
  split; [apply H1 |]. split.
  - apply H2; [reflexivity |].
    intros zone_name zone Hz. destruct (fixed_zones_constant zone_name zone Hz) as [Hc Hm].
    split; [apply Hc | apply Hm].
  - apply H3.
    intros zone_name zone Hz. apply (fixed_zones_constant zone_name zone Hz).
Defined.

(** X3 for the reminder time 08:00, three hours ahead of UTC, at 05:00 and
    at 05:01 UTC. *)
Lemma no_reminder_time_fires_twice_witness :
  check_time (local_time 10800 five_utc) (aspirin 2 2) ["1"] (0%nat, (8, 0)) = ret tt
  \/ check_time (local_time 10800 (five_utc + 60)) (aspirin 2 2) ["1"] (0%nat, (8, 0))
     = ret tt.
Proof.
  apply (no_reminder_time_fires_twice (num := exact_decimal)
           (fun _ => 10800) five_utc (five_utc + 60) (aspirin 2 2) ["1"] (0%nat, (8, 0)));
    [unfold five_utc; lia | reflexivity].
Defined.

(** X4 for the one record of user 7. *)
Lemma delete_by_name_removes_the_matches_witness :
  let s := one_owner [aspirin 10 10] [] in
  exists deleted,
    fst (delete_medicine_by_name_and_user 7 (Some "Аспирин") s) = Ok deleted
    /\ (deleted = true <->
        exists r w, In r (medicines s) /\ Some "Аспирин" = Some w /\ named 7 w r).
Proof.
  intro s.
  destruct (delete_by_name_removes_the_matches (num := exact_decimal)
              7 (Some "Аспирин") s eq_refl) as [H _].
  exact H.
Defined.

(** X5 for a second medicine of user 7. *)
Lemma add_then_get_round_trip_witness :
  let s := one_owner [aspirin 10 10] [] in
  fst (add_medicine 7 (Some "Ибупрофен") "1" (Some "мл") (Some 5) "9:00" s) = Ok tt
  /\ next_id (snd (add_medicine 7 (Some "Ибупрофен") "1" (Some "мл") (Some 5) "9:00" s))
     = 3.
Proof.
  intro s.
  assert (Hfresh : forall r, In r (medicines s) -> medicine_id r < next_id s).
  { intros r [<- | []]. reflexivity. }
  destruct (add_then_get_round_trip (num := exact_decimal)
              7 (Some "Ибупрофен") "1" (Some "мл") (Some 5) "9:00" s eq_refl Hfresh)
    as [H _].
  destruct (H eq_refl) as [H1 [_ [_ H4]]].
  split; [exact H1 | exact H4].
Defined.

(** X6 for one tablet out of ten. *)
Lemma ordinary_dose_is_taken_off_witness :
  let s := one_owner [aspirin 10 10] [] in
  outbox (snd (send_reminder 7 1 (Some "Аспирин") "1" (Some "Таблетки") s))
  = [(7, reminder_message "1" (Some "Таблетки") (Some "Аспирин"))].
Proof.
  intro s.
  destruct (ordinary_dose_is_taken_off (num := exact_decimal)
              7 1 (Some "Аспирин") "1" (Some "Таблетки") s 1%Q eq_refl eq_refl)
    as [H _].
  destruct (H (aspirin 10 10) eq_refl eq_refl eq_refl) as [_ [_ Ho]].
  exact Ho.
Defined.

(** X9 for the record of a finished dialogue. *)
Lemma stored_records_are_complete_witness :
  let r := mkMedicine 1 7 (Some "Аспирин") "1, 2" (Some "Таблетки") (Some 10)
                      "8:00, 20:00" (Some 10%Q) in
  (dosage_unit r = Some "Таблетки" \/ dosage_unit r = Some "гр"
   \/ dosage_unit r = Some "мл")
  /\ (exists q, doses_quantity r = Some q /\ 0 <= q <= 2 ^ 63 - 1).
Proof.
  intro r.
  apply (stored_records_are_complete (num := exact_decimal) (tzdata := fixed_zones)
           (dialogue "1, 2" "10" "8:00, 20:00")).
  assert (E : medicines (run initial (dialogue "1, 2" "10" "8:00, 20:00")) = [r])
    by reflexivity.
  rewrite E. left. reflexivity.
Defined.

(** X10 for the record of a finished dialogue. *)
Lemma stored_times_always_parse_witness :
  exists times,
    parse_reminder_times "8:00, 20:00" = Some times /\ Forall in_range times.
Proof.
  pose (r := mkMedicine 1 7 (Some "Аспирин") "1, 2" (Some "Таблетки") (Some 10)
                        "8:00, 20:00" (Some 10%Q)).
  apply (stored_times_always_parse (num := exact_decimal) (tzdata := fixed_zones)
           (dialogue "1, 2" "10" "8:00, 20:00") r).
  assert (E : medicines (run initial (dialogue "1, 2" "10" "8:00, 20:00")) = [r])
    by reflexivity.
  rewrite E. left. reflexivity.
Defined.

(** X11 for the record of a finished dialogue. *)
Lemma every_owner_has_a_timezone_witness :
  exists c rest,
    lookup 7 (users (run initial (dialogue "1, 2" "10" "8:00, 20:00")))
    = Some (String c rest).
Proof.
  pose (r := mkMedicine 1 7 (Some "Аспирин") "1, 2" (Some "Таблетки") (Some 10)
                        "8:00, 20:00" (Some 10%Q)).
  apply (every_owner_has_a_timezone (num := exact_decimal) (tzdata := fixed_zones)
           (dialogue "1, 2" "10" "8:00, 20:00") r).
  assert (E : medicines (run initial (dialogue "1, 2" "10" "8:00, 20:00")) = [r])
    by reflexivity.
  rewrite E. left. reflexivity.
Defined.

(** X12 for the record of a finished dialogue. *)
Lemma medicine_keys_are_unique_witness :
  let r := mkMedicine 1 7 (Some "Аспирин") "1, 2" (Some "Таблетки") (Some 10)
                      "8:00, 20:00" (Some 10%Q) in
  find (has_id 1) (medicines (run initial (dialogue "1, 2" "10" "8:00, 20:00")))
  = Some r.
Proof.
  intro r.
  destruct (medicine_keys_are_unique (num := exact_decimal) (tzdata := fixed_zones)
              (dialogue "1, 2" "10" "8:00, 20:00")) as [_ H].
  apply (H r).
  assert (E : medicines (run initial (dialogue "1, 2" "10" "8:00, 20:00")) = [r])
    by reflexivity.
  rewrite E. left. reflexivity.
Defined.

(** X14 for two records of user 7.  At 04:59 UTC nothing is due: the
    times of the first record are read, and the timezone lookup for the
    second one fails.  At 05:00 UTC the first record is due, and it is
    handled without raising when Telegram refuses the reminder. *)
Lemma sweep_never_fails_on_stored_times_witness :
  let s := run initial (dialogue "1, 2" "10" "8:00, 20:00"
                        ++ [commands "/add" CmdAdd; says "Ибупрофен"; says "1";
                            says "мл"; says "5"; says "9:00"]) in
  let r := mkMedicine 1 7 (Some "Аспирин") "1, 2" (Some "Таблетки") (Some 10)
                      "8:00, 20:00" (Some 10%Q) in
  List.length (medicines s) = 2%nat
  /\ (exists e,
        fst (sweep (five_utc - 60) (set_faults [false; false; true] s)) = Raise e
        /\ (e = DatabaseError \/ e = UnknownTimeZoneError))
  /\ fst (check_medicine five_utc r (set_faults [false; true] s)) = Ok tt.
Proof.
  intros s r.
  assert (Em : medicines s
               = [r; mkMedicine 2 7 (Some "Ибупрофен") "1" (Some "мл") (Some 5) "9:00"
                                (Some 5%Q)]) by reflexivity.
  assert (Eu : users s = [(7, "Etc/GMT-3")]) by reflexivity.
  split; [rewrite Em; reflexivity |]. split.
  - exists DatabaseError. split; [reflexivity |].
    apply (proj1 (sweep_never_fails_on_stored_times
                    (num := exact_decimal) (tzdata := fixed_zones)
                    (dialogue "1, 2" "10" "8:00, 20:00"
                     ++ [commands "/add" CmdAdd; says "Ибупрофен"; says "1";
                         says "мл"; says "5"; says "9:00"])
                    (five_utc - 60) [false; false; true])).
    reflexivity.
  - apply (proj2 (sweep_never_fails_on_stored_times
                    (num := exact_decimal) (tzdata := fixed_zones)
                    (dialogue "1, 2" "10" "8:00, 20:00"
                     ++ [commands "/add" CmdAdd; says "Ибупрофен"; says "1";
                         says "мл"; says "5"; says "9:00"])
                    five_utc [false; true])).
    + fold s. rewrite Em. left. reflexivity.
    + reflexivity.
    + intros zone_name Hz. fold s in Hz. rewrite Eu in Hz.
      cbn in Hz. injection Hz as <-. discriminate.
Defined.

(** X22 for the second reminder time of the record of a finished
    dialogue. *)
Lemma dispatched_doses_always_parse_witness :
  let r := mkMedicine 1 7 (Some "Аспирин") "1, 2" (Some "Таблетки") (Some 10)
                      "8:00, 20:00" (Some 10%Q) in
  exists v,
    py_float (due_dose (emitted r (1%nat, (20, 0)))) = Some v
    /\ due_dose (emitted r (1%nat, (20, 0))) = nth 1 (doseAmounts r) "".
Proof.
  intro r.
  destruct (dispatched_doses_always_parse (num := exact_decimal) (tzdata := fixed_zones)
              (dialogue "1, 2" "10" "8:00, 20:00") r 1%nat (20, 0))
    as [v [H1 [H2 _]]].
  - assert (E : medicines (run initial (dialogue "1, 2" "10" "8:00, 20:00")) = [r])
      by reflexivity.
    rewrite E. left. reflexivity.
  - vm_compute. lia.
  - exists v. split; [exact H1 | exact H2].
Defined.

(** X13 for user 7, who has sent a location and then [/add]. *)
Lemma timezone_precedes_the_dialogue_witness :
  exists c rest,
    lookup 7 (users (run initial
                         [commands "/start" CmdStart;
                          Incoming (mkMessage 7 (Location (Ok true) (Ok (Some "Etc/GMT-3")))) [];
                          commands "/add" CmdAdd]))
    = Some (String c rest).
Proof.
  apply (timezone_precedes_the_dialogue (num := exact_decimal) (tzdata := fixed_zones)).
  reflexivity.
Defined.

(** X15 for user 8 when user 7 sends [/start]. *)
Lemma a_message_touches_only_its_sender_witness :
  let m := mkMessage 7 (Text "/start" (Some CmdStart)) in
  let s := one_owner [aspirin 10 10] [] in
  lookup 8 (users (snd (router m s))) = lookup 8 (users s)
  /\ context_of 8 (snd (router m s)) = context_of 8 s
  /\ owned_by 8 (snd (router m s)) = owned_by 8 s.
Proof.
  intros m s.
  apply (a_message_touches_only_its_sender (num := exact_decimal)
           m s 8).
  simpl. lia.
Defined.

(** X17 for user 7, who was asked for a location, when the geocoder
    times out. *)
Lemma location_always_ends_the_dialogue_witness :
  let s := mkState (num := exact_decimal) [] [] 1
                   [(7, mkFsm (Some WAITING_FOR_LOCATION) empty_data)] [] [] [] in
  context_of 7 (snd (location_handler (mkMessage 7 (Location (Raise GeocoderTimedOut)
                                                             (Ok None)))
                                      (Raise GeocoderTimedOut) (Ok None) s))
  = fresh_fsm.
Proof.
  intro s.
  apply (location_always_ends_the_dialogue (num := exact_decimal)
           (mkMessage 7 (Location (Raise GeocoderTimedOut) (Ok None)))
           (Raise GeocoderTimedOut) (Ok None) s).
  reflexivity.
Defined.

(** X18 for user 7, in a place three hours ahead of UTC. *)
Lemma location_stores_the_zone_witness :
  let m := mkMessage 7 (Location (Ok true) (Ok (Some "Etc/GMT-3"))) in
  let s := mkState (num := exact_decimal) [] [] 1 [] [] [] [false] in
  lookup 7 (users (snd (location_handler m (Ok true) (Ok (Some "Etc/GMT-3")) s)))
  = Some "Etc/GMT-3".
Proof.
  intros m s.
  destruct (location_stores_the_zone (num := exact_decimal)
              m "E" "tc/GMT-3" s [] eq_refl) as [H _].
  exact H.
Defined.

(** X19 for the sweep that takes one of two tablets. *)
Lemma scheduler_only_uses_up_witness :
  let s := one_owner [aspirin 2 2] [] in
  users (snd (scheduler_setup [five_utc] s)) = users s
  /\ (List.length (medicines (snd (scheduler_setup [five_utc] s))) <= 1)%nat.
Proof.
  intro s.
  destruct (scheduler_only_uses_up (num := exact_decimal) (tzdata := fixed_zones)
              [five_utc] s) as [H1 [_ [_ [H4 _]]]].
  split; [exact H1 | exact H4].
Defined.

